(** * Scheduler and collection loop of the WhatsApp companion bot

    A shallow embedding of [src/automations/scheduler.py] and
    [src/automations/auto_collector.py], together with the small part of
    the Python standard library they rely on ([int], [str.split],
    [datetime], [timedelta], [datetime.strptime] with the format
    ["%H:%M"]).

    Conventions.
    - Python [int] is [Z]; Python [str] is [string], read as a sequence of
      ASCII characters (digits and white space outside ASCII are not
      modelled).
    - A Python exception is a value of [exn]; code that can raise lives in
      the state-and-exception monad [M], where a raised exception keeps
      every mutation made before it, as in Python.
    - [datetime.now()] reads a wall clock that belongs to the state: the
      clock is a function from the number of readings made so far to the
      instant returned. *)

From Stdlib Require Import ZArith List String Ascii QArith Lia.
From stdpp Require Import base gmap strings list.

Local Open Scope string_scope.
Local Open Scope Z_scope.

(** ** Python strings and [int] *)

Module PyStr.

Definition ord (c : ascii) : Z := Z.of_nat (nat_of_ascii c).

Definition is_digit (c : ascii) : bool := (48 <=? ord c) && (ord c <=? 57).

Definition digit_val (c : ascii) : Z := ord c - 48.

Definition in_range (lo hi c : ascii) : bool :=
  (ord lo <=? ord c) && (ord c <=? ord hi).

(** White space skipped by [int()] in ASCII text: HT, LF, VT, FF, CR and
    the space.  The separators FS, GS, RS and US are not skipped there. *)
Definition is_space (c : ascii) : bool :=
  ((9 <=? ord c) && (ord c <=? 13)) || (ord c =? 32).

(** [c.isspace()], the white space at which [s.split()] cuts: the
    characters above and the separators FS, GS, RS and US. *)
Definition is_str_space (c : ascii) : bool :=
  is_space c || ((28 <=? ord c) && (ord c <=? 31)).

Fixpoint lstrip (s : string) : string :=
  match s with
  | String c r => if is_space c then lstrip r else s
  | EmptyString => EmptyString
  end.

(** [sep in s] for a one-character [sep]. *)
Fixpoint contains (sep : ascii) (s : string) : bool :=
  match s with
  | String c r => if Ascii.eqb c sep then true else contains sep r
  | EmptyString => false
  end.

(** [s.split(sep)] for a one-character [sep]: the pieces between the
    separators, empty pieces included; never the empty list. *)
Fixpoint split (sep : ascii) (s : string) : list string :=
  match s with
  | String c r =>
      if Ascii.eqb c sep then EmptyString :: split sep r
      else match split sep r with
           | h :: t => String c h :: t
           | [] => [String c EmptyString]
           end
  | EmptyString => [EmptyString]
  end.

(** The digits of a decimal literal after its first digit: digits, each
    optionally preceded by one underscore.  Returns the value and the text
    that follows; [None] when an underscore is not followed by a digit. *)
Fixpoint int_digits (s : string) (acc : Z) : option (Z * string) :=
  match s with
  | String c r =>
      if is_digit c then int_digits r (acc * 10 + digit_val c)
      else if Ascii.eqb c "_" then
        match r with
        | String c' r' =>
            if is_digit c' then int_digits r' (acc * 10 + digit_val c')
            else None
        | EmptyString => None
        end
      else Some (acc, s)
  | EmptyString => Some (acc, s)
  end.

(** [sys.get_int_max_str_digits()], as the interpreter is started. *)
Definition MAX_STR_DIGITS : Z := 4300.

(** The number of digits in [s]. *)
Fixpoint count_digits (s : string) : Z :=
  match s with
  | String c r => (if is_digit c then 1 else 0) + count_digits r
  | EmptyString => 0
  end.

(** [c * n]. *)
Fixpoint str_mul (c : ascii) (n : nat) : string :=
  match n with
  | O => EmptyString
  | S k => String c (str_mul c k)
  end.

(** [int(s)] in base ten: surrounding white space, an optional sign, then
    a decimal literal of at most [MAX_STR_DIGITS] digits.  The limit
    counts the digits, leading zeros included, and neither the sign, the
    underscores nor the white space; in a text that is read to its end
    the digits are those of the literal.  [None] stands for
    [ValueError]. *)
Definition int (s : string) : option Z :=
  let s1 := lstrip s in
  let '(sign, s2) :=
    match s1 with
    | String c r =>
        if Ascii.eqb c "+" then (1, r)
        else if Ascii.eqb c "-" then (-1, r)
        else (1, s1)
    | EmptyString => (1, s1)
    end in
  match s2 with
  | String c r =>
      if is_digit c then
        match int_digits r (digit_val c) with
        | Some (v, rest) =>
            match lstrip rest with
            | EmptyString =>
                if count_digits s <=? MAX_STR_DIGITS then Some (sign * v)
                else None
            | _ => None
            end
        | None => None
        end
      else None
  | EmptyString => None
  end.

(** [a < b] on strings: character by character. *)
Fixpoint str_ltb (a b : string) : bool :=
  match a, b with
  | EmptyString, EmptyString => false
  | EmptyString, String _ _ => true
  | String _ _, EmptyString => false
  | String x a', String y b' =>
      if PyStr.ord x <? PyStr.ord y then true
      else if PyStr.ord y <? PyStr.ord x then false
      else str_ltb a' b'
  end.

End PyStr.

(** ** Python [datetime] *)

Module PyDatetime.

Record date := mkdate { year : Z; month : Z; day : Z }.
Record time := mktime { hour : Z; minute : Z; second : Z; microsecond : Z }.
Record datetime := combine { date_of : date; time_of : time }.

(** A [timedelta] in normal form: days, seconds of the day, microseconds. *)
Record timedelta := mkdelta { td_days : Z; td_seconds : Z; td_microseconds : Z }.

Definition MINYEAR : Z := 1.
Definition MAXYEAR : Z := 9999.

Definition is_leap (y : Z) : bool :=
  (y mod 4 =? 0) && (negb (y mod 100 =? 0) || (y mod 400 =? 0)).

Definition days_in_month (y m : Z) : Z :=
  match m with
  | 2 => if is_leap y then 29 else 28
  | 4 | 6 | 9 | 11 => 30
  | _ => 31
  end.

Definition days_before_year (y : Z) : Z :=
  let p := y - 1 in p * 365 + p / 4 - p / 100 + p / 400.

Definition days_before_month (y m : Z) : Z :=
  (match m with
   | 1 => 0 | 2 => 31 | 3 => 59 | 4 => 90 | 5 => 120 | 6 => 151
   | 7 => 181 | 8 => 212 | 9 => 243 | 10 => 273 | 11 => 304 | _ => 334
   end) + (if (2 <? m) && is_leap y then 1 else 0).

(** [date.toordinal()]: 0001-01-01 is day 1. *)
Definition toordinal (d : date) : Z :=
  days_before_year (year d) + days_before_month (year d) (month d) + day d.

(** [date.weekday()]: Monday is 0, Sunday is 6. *)
Definition weekday (d : date) : Z := (toordinal d + 6) mod 7.

Definition valid_date (d : date) : Prop :=
  MINYEAR <= year d <= MAXYEAR /\ 1 <= month d <= 12 /\
  1 <= day d <= days_in_month (year d) (month d).

Definition valid_time (t : time) : Prop :=
  0 <= hour t < 24 /\ 0 <= minute t < 60 /\ 0 <= second t < 60 /\
  0 <= microsecond t < 1000000.

Definition valid_datetime (x : datetime) : Prop :=
  valid_date (date_of x) /\ valid_time (time_of x).

(** Comparison of dates, times and datetimes is field by field, most
    significant field first. *)
Definition date_lt (a b : date) : Prop :=
  year a < year b \/
  (year a = year b /\ (month a < month b \/ (month a = month b /\ day a < day b))).

Definition time_lt (a b : time) : Prop :=
  hour a < hour b \/
  (hour a = hour b /\
   (minute a < minute b \/
    (minute a = minute b /\
     (second a < second b \/
      (second a = second b /\ microsecond a < microsecond b))))).

Definition datetime_lt (a b : datetime) : Prop :=
  date_lt (date_of a) (date_of b) \/
  (date_of a = date_of b /\ time_lt (time_of a) (time_of b)).

Definition datetime_le (a b : datetime) : Prop := datetime_lt a b \/ a = b.

Definition date_ltb (a b : date) : bool :=
  (year a <? year b) ||
  ((year a =? year b) &&
   ((month a <? month b) || ((month a =? month b) && (day a <? day b)))).

Definition date_eqb (a b : date) : bool :=
  (year a =? year b) && (month a =? month b) && (day a =? day b).

Definition time_ltb (a b : time) : bool :=
  (hour a <? hour b) ||
  ((hour a =? hour b) &&
   ((minute a <? minute b) ||
    ((minute a =? minute b) &&
     ((second a <? second b) ||
      ((second a =? second b) && (microsecond a <? microsecond b)))))).

Definition time_eqb (a b : time) : bool :=
  (hour a =? hour b) && (minute a =? minute b) && (second a =? second b) &&
  (microsecond a =? microsecond b).

Definition datetime_ltb (a b : datetime) : bool :=
  date_ltb (date_of a) (date_of b) ||
  (date_eqb (date_of a) (date_of b) && time_ltb (time_of a) (time_of b)).

Definition datetime_eqb (a b : datetime) : bool :=
  date_eqb (date_of a) (date_of b) && time_eqb (time_of a) (time_of b).

(** [a <= b] on datetimes. *)
Definition datetime_leb (a b : datetime) : bool :=
  datetime_ltb a b || datetime_eqb a b.

(** The day after [d]; [None] is the [OverflowError] past 9999-12-31. *)
Definition next_day (d : date) : option date :=
  if day d <? days_in_month (year d) (month d) then
    Some (mkdate (year d) (month d) (day d + 1))
  else if month d <? 12 then Some (mkdate (year d) (month d + 1) 1)
  else if year d <? MAXYEAR then Some (mkdate (year d + 1) 1 1)
  else None.

(** [d + timedelta(days=n)] for [n >= 0]. *)
Fixpoint add_days (d : date) (n : nat) : option date :=
  match n with
  | O => Some d
  | S k => match next_day d with
           | Some d' => add_days d' k
           | None => None
           end
  end.

Definition seconds_of_time (t : time) : Z :=
  (hour t * 60 + minute t) * 60 + second t.

Definition time_of_seconds (n us : Z) : time :=
  mktime (n / 3600) ((n / 60) mod 60) (n mod 60) us.

(** [x + delta] for a non-negative [delta] in normal form; [None] is the
    [OverflowError] raised when the result would lie past year 9999. *)
Definition datetime_add (x : datetime) (delta : timedelta) : option datetime :=
  let us := microsecond (time_of x) + td_microseconds delta in
  let s := seconds_of_time (time_of x) + td_seconds delta + us / 1000000 in
  match add_days (date_of x) (Z.to_nat (td_days delta + s / 86400)) with
  | Some d => Some (combine d (time_of_seconds (s mod 86400) (us mod 1000000)))
  | None => None
  end.

Definition timedelta_days (n : Z) : timedelta := mkdelta n 0 0.
Definition timedelta_hours (n : Z) : timedelta :=
  mkdelta ((n * 3600) / 86400) ((n * 3600) mod 86400) 0.
Definition timedelta_minutes (n : Z) : timedelta :=
  mkdelta ((n * 60) / 86400) ((n * 60) mod 86400) 0.

(** Microseconds since the start of day 0 of the proleptic calendar: the
    scale on which the difference of two datetimes is taken. *)
Definition to_microseconds (x : datetime) : Z :=
  (toordinal (date_of x) * 86400 + seconds_of_time (time_of x)) * 1000000
  + microsecond (time_of x).

(** [(a - b).total_seconds() < bound] for an integer [bound]; the
    difference is compared exactly, in microseconds. *)
Definition elapsed_lt (a b : datetime) (bound : Z) : bool :=
  to_microseconds a - to_microseconds b <? bound * 1000000.

(** The hour field of [strptime]'s ["%H"]: [2[0-3]], [[0-1]\d] or [\d],
    tried in that order, each followed by the colon of the format. *)
Definition two_digit_hour (c1 c2 : ascii) : bool :=
  (Ascii.eqb c1 "2" && PyStr.in_range "0" "3" c2) ||
  (PyStr.in_range "0" "1" c1 && PyStr.is_digit c2).

(** The minute field of ["%M"]: [[0-5]\d] or [\d], in that order. *)
Definition match_minute (s : string) : option (Z * string) :=
  match s with
  | String c1 r1 =>
      match r1 with
      | String c2 r2 =>
          if PyStr.in_range "0" "5" c1 && PyStr.is_digit c2
          then Some (10 * PyStr.digit_val c1 + PyStr.digit_val c2, r2)
          else if PyStr.is_digit c1 then Some (PyStr.digit_val c1, r1)
          else None
      | EmptyString =>
          if PyStr.is_digit c1 then Some (PyStr.digit_val c1, r1) else None
      end
  | EmptyString => None
  end.

Definition match_hour_minute (s : string) : option (Z * Z * string) :=
  match s with
  | String c1 (String c2 r2) =>
      if Ascii.eqb c2 ":" then
        if PyStr.is_digit c1 then
          match match_minute r2 with
          | Some (m, rest) => Some (PyStr.digit_val c1, m, rest)
          | None => None
          end
        else None
      else
        match r2 with
        | String c3 r3 =>
            if Ascii.eqb c3 ":" && two_digit_hour c1 c2 then
              match match_minute r3 with
              | Some (m, rest) =>
                  Some (10 * PyStr.digit_val c1 + PyStr.digit_val c2, m, rest)
              | None => None
              end
            else None
        | EmptyString => None
        end
  | _ => None
  end.

(** [datetime.strptime(s, "%H:%M").time()]; [None] is [ValueError] (no
    match, or unconverted data after the match). *)
Definition strptime_HM (s : string) : option time :=
  match match_hour_minute s with
  | Some (h, m, EmptyString) => Some (mktime h m 0 0)
  | _ => None
  end.

(** Decimal digits of [n], zero-padded on the left to [width] characters
    ([n] is assumed to fit). *)
Fixpoint zpad (width : nat) (n : Z) : string :=
  match width with
  | O => EmptyString
  | S k => zpad k (n / 10) ++ String (ascii_of_nat (Z.to_nat (48 + n mod 10))) EmptyString
  end.

(** [datetime.isoformat()]. *)
Definition isoformat (x : datetime) : string :=
  let d := date_of x in
  let t := time_of x in
  zpad 4 (year d) ++ "-" ++ zpad 2 (month d) ++ "-" ++ zpad 2 (day d) ++ "T" ++
  zpad 2 (hour t) ++ ":" ++ zpad 2 (minute t) ++ ":" ++ zpad 2 (second t) ++
  (if microsecond t =? 0 then "" else "." ++ zpad 6 (microsecond t)).

(** [datetime(y, m, d, h, mi)]. *)
Definition at_time (y m d h mi : Z) : datetime :=
  combine (mkdate y m d) (mktime h mi 0 0).

End PyDatetime.

Import PyDatetime.

(** A wall clock: every reading is a datetime, and readings never go
    back. *)
Definition clock_ok (clk : nat -> datetime) : Prop :=
  (forall n, valid_datetime (clk n)) /\
  (forall i j, (i <= j)%nat -> datetime_le (clk i) (clk j)).

(** ** Exceptions and the state-and-exception monad *)

Inductive exn : Type :=
| ValueError
| OverflowError
| ZeroDivisionError
| KeyError
| Exception (msg : string).

Inductive result (A : Type) : Type :=
| Ok (a : A)
| Raise (e : exn).
Arguments Ok {A} a.
Arguments Raise {A} e.

(** A computation over a state [S]: it returns a value or raises, and in
    both cases yields the state reached. *)
Definition M (S A : Type) : Type := S -> result A * S.

Definition ret {S A : Type} (a : A) : M S A := fun s => (Ok a, s).

Definition bind {S A B : Type} (m : M S A) (k : A -> M S B) : M S B :=
  fun s => match m s with
           | (Ok a, s') => k a s'
           | (Raise e, s') => (Raise e, s')
           end.

Definition raise {S A : Type} (e : exn) : M S A := fun s => (Raise e, s).

(** [try: body  except Exception as e: handler e]. *)
Definition try_except {S A : Type} (body : M S A) (handler : exn -> M S A) : M S A :=
  fun s => match body s with
           | (Ok a, s') => (Ok a, s')
           | (Raise e, s') => handler e s'
           end.

Definition get {S : Type} : M S S := fun s => (Ok s, s).
Definition modify {S : Type} (f : S -> S) : M S unit := fun s => (Ok tt, f s).

(** A library call that returns [None] where Python raises [e]. *)
Definition or_raise {S A : Type} (e : exn) (o : option A) : M S A :=
  match o with
  | Some a => ret a
  | None => raise e
  end.

(** The outcome of a call into code that does not touch the state. *)
Definition of_result {S A : Type} (r : result A) : M S A := fun s => (r, s).

Declare Scope py_scope.
Delimit Scope py_scope with py.
Notation "x <- m ;; k" := (bind m (fun x => k))
  (at level 100, m at next level, right associativity) : py_scope.
Notation "'do' m ;; k" := (bind m (fun _ => k))
  (at level 100, m at next level, right associativity) : py_scope.
Local Open Scope py_scope.

(** [for x in l: body x]; an exception in [body] leaves the loop. *)
Fixpoint for_each {S A : Type} (l : list A) (body : A -> M S unit) : M S unit :=
  match l with
  | [] => ret tt
  | x :: r => do body x ;; for_each r body
  end.

(** [m] relates the state it starts in to the state it ends in by [R],
    whether it returns or raises. *)
Definition preserves {S A : Type} (R : S -> S -> Prop) (m : M S A) : Prop :=
  forall s x s', m s = (x, s') -> R s s'.

(** ** Python [dict] with string keys, in insertion order *)

Section Dict.
Context {V : Type}.

Fixpoint dict_get (k : string) (d : list (string * V)) : option V :=
  match d with
  | [] => None
  | (k', v) :: r => if String.eqb k k' then Some v else dict_get k r
  end.

(** [d[k] = v]: an existing key keeps its place, a new key goes last. *)
Fixpoint dict_set (k : string) (v : V) (d : list (string * V)) : list (string * V) :=
  match d with
  | [] => [(k, v)]
  | (k', v') :: r =>
      if String.eqb k k' then (k, v) :: r else (k', v') :: dict_set k v r
  end.

(** The object stored under [k], changed in place by [f]. *)
Fixpoint dict_alter (f : V -> V) (k : string) (d : list (string * V)) : list (string * V) :=
  match d with
  | [] => []
  | (k', v) :: r =>
      if String.eqb k k' then (k', f v) :: r else (k', v) :: dict_alter f k r
  end.

Definition dict_values (d : list (string * V)) : list V := map snd d.

End Dict.

(** ** [scheduler.py] *)

Module TaskType.
Inductive t : Type :=
| COLLECT_LINKS | AUTO_POST | AUTO_JOIN | BACKUP | CLEANUP | CUSTOM.

Definition value (x : t) : string :=
  match x with
  | COLLECT_LINKS => "collect_links"
  | AUTO_POST => "auto_post"
  | AUTO_JOIN => "auto_join"
  | BACKUP => "backup"
  | CLEANUP => "cleanup"
  | CUSTOM => "custom"
  end.
End TaskType.

Module ScheduleFrequency.
Inductive t : Type := HOURLY | DAILY | WEEKLY | MONTHLY | CUSTOM.

Definition value (x : t) : string :=
  match x with
  | HOURLY => "hourly"
  | DAILY => "daily"
  | WEEKLY => "weekly"
  | MONTHLY => "monthly"
  | CUSTOM => "custom"
  end.
End ScheduleFrequency.

Module Scheduler.

(** The configuration map handed to a handler. *)
Definition Config : Type := list (string * string).

(** A caller-supplied handler: what awaiting it on a configuration gives,
    a truth value or an exception. *)
Definition Callback : Type := Config -> result bool.

Record ScheduledTask := mkTask {
  id : string;
  name : string;
  task_type : TaskType.t;
  frequency : ScheduleFrequency.t;
  schedule_time : string;
  is_active : bool;
  last_run : option datetime;
  next_run : option datetime;
  total_runs : Z;
  success_count : Z;
  fail_count : Z;
  config : Config;
  callback : option Callback
}.

Definition set_last_run (v : option datetime) (t : ScheduledTask) : ScheduledTask :=
  mkTask (id t) (name t) (task_type t) (frequency t) (schedule_time t)
    (is_active t) v (next_run t) (total_runs t) (success_count t)
    (fail_count t) (config t) (callback t).

Definition set_next_run (v : option datetime) (t : ScheduledTask) : ScheduledTask :=
  mkTask (id t) (name t) (task_type t) (frequency t) (schedule_time t)
    (is_active t) (last_run t) v (total_runs t) (success_count t)
    (fail_count t) (config t) (callback t).

Definition set_total_runs (v : Z) (t : ScheduledTask) : ScheduledTask :=
  mkTask (id t) (name t) (task_type t) (frequency t) (schedule_time t)
    (is_active t) (last_run t) (next_run t) v (success_count t)
    (fail_count t) (config t) (callback t).

Definition set_success_count (v : Z) (t : ScheduledTask) : ScheduledTask :=
  mkTask (id t) (name t) (task_type t) (frequency t) (schedule_time t)
    (is_active t) (last_run t) (next_run t) (total_runs t) v
    (fail_count t) (config t) (callback t).

Definition set_fail_count (v : Z) (t : ScheduledTask) : ScheduledTask :=
  mkTask (id t) (name t) (task_type t) (frequency t) (schedule_time t)
    (is_active t) (last_run t) (next_run t) (total_runs t) (success_count t)
    v (config t) (callback t).

(** A trigger of the timer library. *)
Inductive Trigger : Type :=
| CronTrigger (expr : string)
| IntervalTrigger (seconds : Z).

(** The scheduler object.  [jobs] is the job store of the timer library,
    keyed by job id; [clock] and [ticks] are the wall clock read by
    [datetime.now()]. *)
Record State := mkState {
  db : bool;
  running : bool;
  jobs : list (string * (string * Trigger));
  scheduled_tasks : list (string * ScheduledTask);
  clock : nat -> datetime;
  ticks : nat
}.

Definition with_jobs (v : list (string * (string * Trigger))) (s : State) : State :=
  mkState (db s) (running s) v (scheduled_tasks s) (clock s) (ticks s).

Definition with_tasks (v : list (string * ScheduledTask)) (s : State) : State :=
  mkState (db s) (running s) (jobs s) v (clock s) (ticks s).

Definition with_ticks (v : nat) (s : State) : State :=
  mkState (db s) (running s) (jobs s) (scheduled_tasks s) (clock s) v.

(** [datetime.now()]. *)
Definition datetime_now : M State datetime :=
  fun s => (Ok (clock s (ticks s)), with_ticks (S (ticks s)) s).

(** [datetime(year, month, 1, hour, minute)]; a year out of range is a
    [ValueError]. *)
Definition datetime_first_of_month (y m : Z) (t : time) : option datetime :=
  if (MINYEAR <=? y) && (y <=? MAXYEAR) && (1 <=? m) && (m <=? 12)
  then Some (combine (mkdate y m 1) (mktime (hour t) (minute t) 0 0))
  else None.

Definition _validate_schedule_time
  (schedule_time : string) (frequency : ScheduleFrequency.t) : bool :=
  match frequency with
  | ScheduleFrequency.CUSTOM => true
  | _ =>
      if PyStr.contains ":" schedule_time then
        match map PyStr.int (PyStr.split ":" schedule_time) with
        | [Some hours; Some minutes] =>
            (0 <=? hours) && (hours <? 24) && (0 <=? minutes) && (minutes <? 60)
        | _ => false
        end
      else false
  end.

(** The [try] block of [_calculate_next_run]. *)
Definition next_run_try (task : ScheduledTask) : M State datetime :=
  now <- datetime_now ;;
  match frequency task with
  | ScheduleFrequency.HOURLY =>
      or_raise OverflowError (datetime_add now (timedelta_hours 1))
  | ScheduleFrequency.DAILY =>
      schedule_time <- or_raise ValueError (strptime_HM (schedule_time task)) ;;
      let next_run := combine (date_of now) schedule_time in
      if datetime_leb next_run now
      then or_raise OverflowError (datetime_add next_run (timedelta_days 1))
      else ret next_run
  | ScheduleFrequency.WEEKLY =>
      schedule_time <- or_raise ValueError (strptime_HM (schedule_time task)) ;;
      let next_run := combine (date_of now) schedule_time in
      or_raise OverflowError
        (datetime_add next_run (timedelta_days (7 - weekday (date_of now))))
  | ScheduleFrequency.MONTHLY =>
      schedule_time <- or_raise ValueError (strptime_HM (schedule_time task)) ;;
      let next_month :=
        if month (date_of now) <? 12 then month (date_of now) + 1 else 1 in
      let next_year :=
        if month (date_of now) <? 12 then year (date_of now)
        else year (date_of now) + 1 in
      or_raise ValueError
        (datetime_first_of_month next_year next_month schedule_time)
  | ScheduleFrequency.CUSTOM =>
      or_raise OverflowError (datetime_add now (timedelta_minutes 5))
  end.

(** Its [except] block: five minutes after a fresh reading of the clock. *)
Definition next_run_except : M State datetime :=
  now <- datetime_now ;;
  or_raise OverflowError (datetime_add now (timedelta_minutes 5)).

Definition _calculate_next_run (task : ScheduledTask) : M State datetime :=
  try_except (next_run_try task) (fun _ => next_run_except).

Section WithTimerLibrary.

(** Whether [CronTrigger.from_crontab] accepts an expression; it raises
    [ValueError] on the others. *)
Variable crontab_ok : string -> bool.

Definition from_crontab (expr : string) : M State Trigger :=
  if crontab_ok expr then ret (CronTrigger expr) else raise ValueError.

(** [add_job(..., id=task.id, replace_existing=True)]: one job per id. *)
Definition add_job (task : ScheduledTask) (trigger : Trigger) : M State unit :=
  modify (fun s => with_jobs (dict_set (id task) (name task, trigger) (jobs s)) s).

Definition _add_to_scheduler (task : ScheduledTask) : M State unit :=
  try_except
    (trigger <-
       match frequency task with
       | ScheduleFrequency.CUSTOM => from_crontab (schedule_time task)
       | ScheduleFrequency.HOURLY => ret (IntervalTrigger 3600)
       | ScheduleFrequency.DAILY => ret (IntervalTrigger 86400)
       | ScheduleFrequency.WEEKLY => ret (IntervalTrigger 604800)
       | ScheduleFrequency.MONTHLY => ret (IntervalTrigger 2592000)
       end ;;
     add_job task trigger)
    (fun _ => ret tt).

(** The body of [_save_task_to_db] is [pass]. *)
Definition _save_task_to_db (task : ScheduledTask) : M State unit :=
  try_except (ret tt) (fun _ => ret tt).

Definition schedule_task (task : ScheduledTask) : M State bool :=
  try_except
    (if negb (_validate_schedule_time (schedule_time task) (frequency task))
     then ret false
     else
       next <- _calculate_next_run task ;;
       let task := set_next_run (Some next) task in
       do _add_to_scheduler task ;;
       do modify (fun s => with_tasks (dict_set (id task) task (scheduled_tasks s)) s) ;;
       s <- get ;;
       do (if db s then _save_task_to_db task else ret tt) ;;
       ret true)
    (fun _ => ret false).

End WithTimerLibrary.

Definition _handle_collect_links (config : Config) : M State bool :=
  try_except (ret true) (fun _ => ret false).
Definition _handle_auto_post (config : Config) : M State bool :=
  try_except (ret true) (fun _ => ret false).
Definition _handle_auto_join (config : Config) : M State bool :=
  try_except (ret true) (fun _ => ret false).
Definition _handle_backup (config : Config) : M State bool :=
  try_except (ret true) (fun _ => ret false).
Definition _handle_cleanup (config : Config) : M State bool :=
  try_except (ret true) (fun _ => ret false).

(** [self.task_handlers.get(task_type)]: no entry for [CUSTOM]. *)
Definition task_handlers (ty : TaskType.t) : option (Config -> M State bool) :=
  match ty with
  | TaskType.COLLECT_LINKS => Some _handle_collect_links
  | TaskType.AUTO_POST => Some _handle_auto_post
  | TaskType.AUTO_JOIN => Some _handle_auto_join
  | TaskType.BACKUP => Some _handle_backup
  | TaskType.CLEANUP => Some _handle_cleanup
  | TaskType.CUSTOM => None
  end.

Definition _run_task_handler (task : ScheduledTask) : M State bool :=
  try_except
    (match task_handlers (task_type task) with
     | Some handler => handler (config task)
     | None =>
         match callback task with
         | Some cb => of_result (cb (config task))
         | None => ret false
         end
     end)
    (fun _ => ret false).

(** The task object registered under [task_id]. *)
Definition deref (task_id : string) : M State ScheduledTask :=
  s <- get ;; or_raise KeyError (dict_get task_id (scheduled_tasks s)).

(** An assignment to an attribute of the task object registered under
    [task_id]: the object is shared with the registry, so the registry
    entry changes. *)
Definition setattr (task_id : string) (f : ScheduledTask -> ScheduledTask) : M State unit :=
  modify (fun s => with_tasks (dict_alter f task_id (scheduled_tasks s)) s).

Definition _execute_task (task_id : string) : M State unit :=
  try_except
    (s <- get ;;
     match dict_get task_id (scheduled_tasks s) with
     | None => ret tt
     | Some task =>
         if negb (is_active task) then ret tt
         else
           now <- datetime_now ;;
           do setattr task_id (set_last_run (Some now)) ;;
           do setattr task_id (fun t => set_total_runs (total_runs t + 1) t) ;;
           try_except
             (task <- deref task_id ;;
              success <- _run_task_handler task ;;
              do (if success
                  then setattr task_id
                         (fun t => set_success_count (success_count t + 1) t)
                  else setattr task_id
                         (fun t => set_fail_count (fail_count t + 1) t)) ;;
              task <- deref task_id ;;
              next <- _calculate_next_run task ;;
              do setattr task_id (set_next_run (Some next)) ;;
              s <- get ;;
              task <- deref task_id ;;
              if db s then _save_task_to_db task else ret tt)
             (fun _ =>
                setattr task_id (fun t => set_fail_count (fail_count t + 1) t))
     end)
    (fun _ => ret tt).

Definition run_task_now (task_id : string) : M State bool :=
  try_except
    (s <- get ;;
     match dict_get task_id (scheduled_tasks s) with
     | Some task =>
         success <- _run_task_handler task ;;
         do (if success
             then setattr task_id
                    (fun t => set_success_count (success_count t + 1) t)
             else setattr task_id
                    (fun t => set_fail_count (fail_count t + 1) t)) ;;
         ret success
     | None => ret false
     end)
    (fun _ => ret false).

(** [a / b] on integers.  The quotient is kept exact; Python rounds it to
    a double. *)
Definition truediv (a b : Z) : result Q :=
  if b =? 0 then Raise ZeroDivisionError
  else Ok (inject_Z a / inject_Z b)%Q.

(** [(success / total * 100) if total > 0 else 0]. *)
Definition success_rate_of (success total : Z) : M State Q :=
  if total >? 0 then
    q <- of_result (truediv success total) ;;
    ret (q * inject_Z 100)%Q
  else ret (inject_Z 0).

Record TaskSummary := mkSummary {
  s_id : string;
  s_name : string;
  s_task_type : string;
  s_frequency : string;
  s_schedule_time : string;
  s_is_active : bool;
  s_last_run : option string;
  s_next_run : option string;
  s_total_runs : Z;
  s_success_count : Z;
  s_fail_count : Z;
  s_success_rate : Q
}.

Definition summary (task : ScheduledTask) : M State TaskSummary :=
  rate <- success_rate_of (success_count task) (total_runs task) ;;
  ret (mkSummary (id task) (name task) (TaskType.value (task_type task))
         (ScheduleFrequency.value (frequency task)) (schedule_time task)
         (is_active task) (option_map isoformat (last_run task))
         (option_map isoformat (next_run task)) (total_runs task)
         (success_count task) (fail_count task) rate).

(** The loop of [get_tasks] over the registry's values. *)
Fixpoint summaries (active_only : bool) (tasks : list ScheduledTask) : M State (list TaskSummary) :=
  match tasks with
  | [] => ret []
  | task :: rest =>
      if active_only && negb (is_active task) then summaries active_only rest
      else
        x <- summary task ;;
        l <- summaries active_only rest ;;
        ret (x :: l)
  end.

(** [x['next_run'] or '9999-12-31']. *)
Definition sort_key (x : TaskSummary) : string :=
  match s_next_run x with
  | Some k => k
  | None => "9999-12-31"
  end.

Fixpoint insert_by_key (x : TaskSummary) (l : list TaskSummary) : list TaskSummary :=
  match l with
  | [] => [x]
  | y :: r =>
      if PyStr.str_ltb (sort_key x) (sort_key y) then x :: y :: r
      else y :: insert_by_key x r
  end.

(** [list.sort(key=...)]: a stable sort. *)
Definition sort_by_key (l : list TaskSummary) : list TaskSummary :=
  fold_left (fun acc x => insert_by_key x acc) l [].

Definition get_tasks (active_only : bool) : M State (list TaskSummary) :=
  s <- get ;;
  tasks_list <- summaries active_only (dict_values (scheduled_tasks s)) ;;
  ret (sort_by_key tasks_list).

Record Stats := mkStats {
  st_total_tasks : Z;
  st_active_tasks : Z;
  st_total_runs : Z;
  st_total_success : Z;
  st_total_fail : Z;
  st_success_rate : Q;
  st_upcoming_tasks : list (string * string * string);
  st_scheduler_running : bool
}.

Definition sum_of (f : ScheduledTask -> Z) (tasks : list ScheduledTask) : Z :=
  fold_left (fun acc t => acc + f t) tasks 0.

Definition upcoming (one_hour_later : datetime) (task : ScheduledTask)
  : list (string * string * string) :=
  match next_run task with
  | Some nr =>
      if is_active task && datetime_leb nr one_hour_later
      then [(name task, isoformat nr, TaskType.value (task_type task))]
      else []
  | None => []
  end.

Definition get_scheduler_stats : M State Stats :=
  s <- get ;;
  let tasks := dict_values (scheduled_tasks s) in
  let total_tasks := Z.of_nat (length tasks) in
  let active_tasks := Z.of_nat (length (List.filter is_active tasks)) in
  let total_runs := sum_of total_runs tasks in
  let total_success := sum_of success_count tasks in
  let total_fail := sum_of fail_count tasks in
  now <- datetime_now ;;
  one_hour_later <- or_raise OverflowError (datetime_add now (timedelta_hours 1)) ;;
  let upcoming_tasks := concat (map (upcoming one_hour_later) tasks) in
  rate <- success_rate_of total_success total_runs ;;
  s <- get ;;
  ret (mkStats total_tasks active_tasks total_runs total_success total_fail
         rate upcoming_tasks (running s)).

(** The counters of a task are consistent when no more outcomes were
    recorded than runs. *)
Definition counters_ok (t : ScheduledTask) : Prop :=
  success_count t + fail_count t <= total_runs t.

(** The weekly trigger as the design describes it: the time of day on the
    next date that falls on the weekday [anchor], one week later when
    that instant is not after [now]. *)
Definition weekly_as_described (anchor : Z) (t : time) (now : datetime)
  : option datetime :=
  match add_days (date_of now)
          (Z.to_nat ((anchor - weekday (date_of now)) mod 7)) with
  | Some d =>
      let candidate := combine d t in
      if datetime_ltb now candidate then Some candidate
      else datetime_add candidate (timedelta_days 7)
  | None => None
  end.

(** [len(expr.split()) == 5]: the first thing [from_crontab] asks of an
    expression, counted here over blanks only. *)
Fixpoint count_fields (in_field : bool) (s : string) : nat :=
  match s with
  | EmptyString => O
  | String c r =>
      if PyStr.is_str_space c then count_fields false r
      else if in_field then count_fields true r
      else Datatypes.S (count_fields true r)
  end.

Definition five_fields (expr : string) : bool :=
  Nat.eqb (count_fields false expr) 5.

(** The success rate of a summary is the quotient only when there were
    runs. *)
Definition rate_guarded (x : TaskSummary) : Prop :=
  s_success_rate x =
  if s_total_runs x >? 0
  then (inject_Z (s_success_count x) / inject_Z (s_total_runs x) * inject_Z 100)%Q
  else inject_Z 0.

(** A scheduler whose clock stands at [now], holding [tasks]. *)
Definition scheduler_at (now : datetime) (tasks : list (string * ScheduledTask)) : State :=
  mkState false false [] tasks (fun _ => now) O.

(** A fresh task, as [create_task] builds it. *)
Definition new_task (i : string) (ty : TaskType.t) (f : ScheduleFrequency.t)
  (spec : string) : ScheduledTask :=
  mkTask i i ty f spec true None None 0 0 0 [] None.

End Scheduler.

(** ** [auto_collector.py] *)

Module AutoCollector.

(** A group as listed by the group directory. *)
Record Group := mkGroup { group_id : string; group_name : string }.

(** A message as returned by the message source; a missing key reads as
    the empty string. *)
Record Message := mkMessage { body : string; message_id : string; sender : string }.

(** The record handed to the persistence gateway. *)
Record LinkData := mkLink {
  l_session_id : string;
  l_url : string;
  l_found_in : string;
  l_group_id : string;
  l_message_id : string;
  l_category : string;
  l_group_name : string;
  l_sender : string;
  l_message_preview : string
}.

(** [self.collection_stats]. *)
Record CollectionStats := mkStats {
  total_links : Z;
  last_collection : option string;
  collections_today : Z;
  last_collection_date : option date
}.

(** [s[:n]]. *)
Fixpoint prefix (n : nat) (s : string) : string :=
  match n, s with
  | S k, String c r => String c (prefix k r)
  | _, _ => EmptyString
  end.

Section WithCollaborators.

(** The collaborators of the engine.  [W] is the state of everything
    outside it (the messaging session and the database); the group
    directory, the message source and the persistence gateway act on it
    and may raise.  The link scraper is code of its own that does not
    touch the engine. *)
Context {W : Type}.
Variable get_all_groups : M W (list Group).
Variable get_group_messages : string -> bool -> Z -> M W (list Message).
Variable save_link : LinkData -> M W bool.
Variable extract_links : string -> result (list string).
Variable categorize_link : string -> result string.

Record State := mkState {
  is_collecting : bool;
  has_db : bool;
  session_id : option string;
  collection_stats : CollectionStats;
  collected_urls : gset string;
  collection_interval : Z;
  last_group_check : gmap string datetime;
  world : W;
  clock : nat -> datetime;
  ticks : nat;
  slept : list Z
}.

Definition with_is_collecting (v : bool) (s : State) : State :=
  mkState v (has_db s) (session_id s) (collection_stats s) (collected_urls s)
    (collection_interval s) (last_group_check s) (world s) (clock s) (ticks s)
    (slept s).

Definition with_stats (v : CollectionStats) (s : State) : State :=
  mkState (is_collecting s) (has_db s) (session_id s) v (collected_urls s)
    (collection_interval s) (last_group_check s) (world s) (clock s) (ticks s)
    (slept s).

Definition with_collected_urls (v : gset string) (s : State) : State :=
  mkState (is_collecting s) (has_db s) (session_id s) (collection_stats s) v
    (collection_interval s) (last_group_check s) (world s) (clock s) (ticks s)
    (slept s).

Definition with_last_group_check (v : gmap string datetime) (s : State) : State :=
  mkState (is_collecting s) (has_db s) (session_id s) (collection_stats s)
    (collected_urls s) (collection_interval s) v (world s) (clock s) (ticks s)
    (slept s).

Definition with_world (v : W) (s : State) : State :=
  mkState (is_collecting s) (has_db s) (session_id s) (collection_stats s)
    (collected_urls s) (collection_interval s) (last_group_check s) v (clock s)
    (ticks s) (slept s).

Definition with_ticks (v : nat) (s : State) : State :=
  mkState (is_collecting s) (has_db s) (session_id s) (collection_stats s)
    (collected_urls s) (collection_interval s) (last_group_check s) (world s)
    (clock s) v (slept s).

Definition with_slept (v : list Z) (s : State) : State :=
  mkState (is_collecting s) (has_db s) (session_id s) (collection_stats s)
    (collected_urls s) (collection_interval s) (last_group_check s) (world s)
    (clock s) (ticks s) v.

(** [datetime.now()]. *)
Definition datetime_now : M State datetime :=
  fun s => (Ok (clock s (ticks s)), with_ticks (S (ticks s)) s).

(** [await asyncio.sleep(seconds)]: the suspension is recorded. *)
Definition asyncio_sleep (seconds : Z) : M State unit :=
  modify (fun s => with_slept (slept s ++ [seconds]) s).

(** A call to a collaborator. *)
Definition in_world {A : Type} (m : M W A) : M State A :=
  fun s => let '(r, w) := m (world s) in (r, with_world w s).

(** The running [_process_group_messages]: the engine and the local
    counter, which keeps its value when an exception is caught. *)
Record Frame := mkFrame { self : State; links_collected : Z }.

Definition in_self {A : Type} (m : M State A) : M Frame A :=
  fun fr => let '(r, s) := m (self fr) in (r, mkFrame s (links_collected fr)).

(** The record built for [link] found in [message]. *)
Definition link_data (s : State) (message : Message)
  (group_id group_name link category : string) : LinkData :=
  mkLink (match session_id s with Some i => i | None => "unknown" end)
    link (group_name ++ " - " ++ sender message) group_id
    (message_id message) category group_name (sender message)
    (prefix 100 (body message)).

(** The body of [for link in all_links]. *)
Definition process_link (message : Message) (group_id group_name link : string)
  : M Frame unit :=
  fr <- get ;;
  if bool_decide (link ∈ collected_urls (self fr)) then ret tt
  else
    category <- of_result (categorize_link link) ;;
    if has_db (self fr) then
      success <- in_self (in_world (save_link
        (link_data (self fr) message group_id group_name link category))) ;;
      if success then
        do modify (fun fr => mkFrame (self fr) (links_collected fr + 1)) ;;
        modify (fun fr =>
          mkFrame (with_collected_urls ({[link]} ∪ collected_urls (self fr)) (self fr))
                  (links_collected fr))
      else ret tt
    else ret tt.

(** The body of [for message in messages]. *)
Definition process_message (group_id group_name : string) (message : Message)
  : M Frame unit :=
  try_except
    (match body message with
     | EmptyString => ret tt
     | _ =>
         all_links <- of_result (extract_links (body message)) ;;
         for_each all_links (process_link message group_id group_name)
     end)
    (fun _ => ret tt).

Definition _process_group_messages
  (messages : list Message) (group_id group_name : string) : M State Z :=
  fun s =>
    let '(r, fr) :=
      try_except
        (do for_each messages (process_message group_id group_name) ;;
         fr <- get ;;
         ret (links_collected fr))
        (fun _ => ret 0)
        (mkFrame s 0) in
    (r, self fr).

(** The [try] block run for one group; the value is what the group adds
    to [total_links_collected] (nothing when the group is skipped). *)
Definition collect_from_group (group : Group) : M State Z :=
  s <- get ;;
  checked_recently <-
    match last_group_check s !! group_id group with
    | Some last_check =>
        now <- datetime_now ;;
        ret (elapsed_lt now last_check 3600)
    | None => ret false
    end ;;
  if checked_recently then ret 0
  else
    messages <- in_world (get_group_messages (group_id group) false 100) ;;
    links_collected <-
      _process_group_messages messages (group_id group) (group_name group) ;;
    now <- datetime_now ;;
    do modify (fun s =>
         with_last_group_check (<[group_id group := now]> (last_group_check s)) s) ;;
    do asyncio_sleep 2 ;;
    ret links_collected.

(** [for group in groups], with the running total. *)
Fixpoint collect_groups (groups : list Group) (total_links_collected : Z) : M State Z :=
  match groups with
  | [] => ret total_links_collected
  | group :: rest =>
      s <- get ;;
      if negb (is_collecting s) then ret total_links_collected
      else
        n <- try_except (collect_from_group group) (fun _ => ret 0) ;;
        collect_groups rest (total_links_collected + n)
  end.

Definition _collect_from_all_groups : M State unit :=
  try_except
    (groups <- in_world get_all_groups ;;
     match groups with
     | [] => ret tt
     | _ =>
         total_links_collected <- collect_groups groups 0 ;;
         do modify (fun s =>
              let st := collection_stats s in
              with_stats (mkStats (total_links st + total_links_collected)
                            (last_collection st) (collections_today st)
                            (last_collection_date st)) s) ;;
         now <- datetime_now ;;
         modify (fun s =>
           let st := collection_stats s in
           with_stats (mkStats (total_links st) (Some (isoformat now))
                         (collections_today st) (last_collection_date st)) s)
     end)
    (fun _ => ret tt).

(** [last_collection_date != today]. *)
Definition date_differs (stored : option date) (today : date) : bool :=
  match stored with
  | Some d => negb (date_eqb d today)
  | None => true
  end.

Definition _reset_daily_counter_if_needed : M State unit :=
  try_except
    (now <- datetime_now ;;
     let today := date_of now in
     s <- get ;;
     if date_differs (last_collection_date (collection_stats s)) today then
       let st := collection_stats s in
       modify (with_stats (mkStats (total_links st) (last_collection st) 0 (Some today)))
     else ret tt)
    (fun _ => ret tt).

(** One turn of the [while] loop of [_collection_loop]. *)
Definition loop_body (interval : Z) : M State unit :=
  try_except
    (do _reset_daily_counter_if_needed ;;
     s <- get ;;
     if 50 <=? collections_today (collection_stats s) then asyncio_sleep 3600
     else
       do _collect_from_all_groups ;;
       do modify (fun s =>
            let st := collection_stats s in
            with_stats (mkStats (total_links st) (last_collection st)
                          (collections_today st + 1) (last_collection_date st)) s) ;;
       asyncio_sleep interval)
    (fun _ => asyncio_sleep 60).

(** [_collection_loop], cut after [turns] turns of its loop. *)
Fixpoint while_collecting (interval : Z) (turns : nat) : M State unit :=
  match turns with
  | O => ret tt
  | S k =>
      s <- get ;;
      if is_collecting s
      then do loop_body interval ;; while_collecting interval k
      else ret tt
  end.

Definition _collection_loop (interval : Z) (turns : nat) : M State unit :=
  try_except (while_collecting interval turns)
    (fun _ => modify (with_is_collecting false)).

(** Whether the loop over the groups skips [group]: it was checked less
    than an hour before the reading of the clock. *)
Definition checked_recently (group : Group) (s : State) : bool :=
  match last_group_check s !! group_id group with
  | Some last_check => elapsed_lt (clock s (ticks s)) last_check 3600
  | None => false
  end.

(** The engine once that test is made: the clock was read when the group
    had a last check. *)
Definition after_recency_check (group : Group) (s : State) : State :=
  match last_group_check s !! group_id group with
  | Some _ => with_ticks (S (ticks s)) s
  | None => s
  end.

(** Everything but the dedup set and the outside world is as before. *)
Definition only_urls_and_world (s s' : State) : Prop :=
  is_collecting s' = is_collecting s /\ has_db s' = has_db s /\
  session_id s' = session_id s /\ collection_stats s' = collection_stats s /\
  collection_interval s' = collection_interval s /\
  last_group_check s' = last_group_check s /\
  clock s' = clock s /\ ticks s' = ticks s /\ slept s' = slept s.

(** The daily quota, the running flag and the clock are as before. *)
Definition same_quota (s s' : State) : Prop :=
  collections_today (collection_stats s') = collections_today (collection_stats s) /\
  last_collection_date (collection_stats s') = last_collection_date (collection_stats s) /\
  is_collecting s' = is_collecting s /\
  clock s' = clock s.

(** Over a pass: the dedup set only grows, and the number of links
    recorded grows with it. *)
Definition pass_growth (s s' : State) : Prop :=
  collected_urls s ⊆ collected_urls s' /\
  total_links (collection_stats s') - total_links (collection_stats s) =
  Z.of_nat (size (collected_urls s')) - Z.of_nat (size (collected_urls s)).

(** The dedup set only grows, and the local counter grows with it. *)
Definition counts_growth (fr fr' : Frame) : Prop :=
  collected_urls (self fr) ⊆ collected_urls (self fr') /\
  links_collected fr' - links_collected fr =
  Z.of_nat (size (collected_urls (self fr'))) -
  Z.of_nat (size (collected_urls (self fr))).

End WithCollaborators.

(** An engine that is running, with a database, an empty dedup set and no
    group checked yet, whose clock stands at [now]. *)
Definition engine_at {W : Type} (now : datetime) (today_count : Z)
  (stored : option date) (w : W) : State :=
  mkState true true (Some "session-1") (mkStats 0 None today_count stored)
    ∅ 300 ∅ w (fun _ => now) O [].

Definition example_engine : @State (list string) :=
  engine_at (at_time 2024 1 1 3 0) 0 None [].

(** Collaborators for the examples: a directory with one group, a message
    source that fails or returns two messages, a gateway that stores URLs
    and reports whether the URL is new, a scraper for which the text of a
    message is the link. *)
Definition one_group : M (list string) (list Group) :=
  ret [mkGroup "g1" "Group one"].

Definition failing_source (group_id : string) (include_old : bool) (limit : Z)
  : M (list string) (list Message) :=
  raise (Exception "fetch failed").

Definition two_messages (group_id : string) (include_old : bool) (limit : Z)
  : M (list string) (list Message) :=
  ret [mkMessage "http://a.example/1" "m1" "alice";
       mkMessage "http://a.example/1" "m2" "bob"].

(** A directory with two groups and a source that returns, for each of
    them, one message with the same URL. *)
Definition two_groups : M (list string) (list Group) :=
  ret [mkGroup "g1" "Group one"; mkGroup "g2" "Group two"].

Definition one_message_each (group_id : string) (include_old : bool) (limit : Z)
  : M (list string) (list Message) :=
  ret [mkMessage "http://a.example/1" (group_id ++ "-m1") "alice"].

Definition storing_gateway (data : LinkData) : M (list string) bool :=
  fun w =>
    if existsb (String.eqb (l_url data)) w then (Ok false, w)
    else (Ok true, l_url data :: w).

Definition text_is_link (text : string) : result (list string) := Ok [text].

Definition any_category (link : string) : result string := Ok "other".

End AutoCollector.

(** ** [scheduler.py]: default tasks, creating, updating and deleting *)

(** [x.strftime("%Y%m%d_%H%M%S")], for a year of four digits. *)
Definition strftime_stamp (x : datetime) : string :=
  let d := date_of x in
  let t := time_of x in
  zpad 4 (year d) ++ zpad 2 (month d) ++ zpad 2 (day d) ++ "_" ++
  zpad 2 (hour t) ++ zpad 2 (minute t) ++ zpad 2 (second t).

(** [del d[k]], for a key that is present. *)
Fixpoint dict_del {V : Type} (k : string) (d : list (string * V)) : list (string * V) :=
  match d with
  | [] => []
  | (k', v) :: r =>
      if String.eqb k k' then r else (k', v) :: dict_del k r
  end.

(** [d.update(other)]. *)
Definition dict_update {V : Type} (other d : list (string * V)) : list (string * V) :=
  fold_left (fun acc kv => dict_set (fst kv) (snd kv) acc) other d.

Module SchedulerApi.
Import Scheduler.

(** [TaskType(value)]: the member with that value; there is none for the
    other strings, and the call raises [ValueError]. *)
Definition TaskType_of (value : string) : option TaskType.t :=
  if String.eqb value "collect_links" then Some TaskType.COLLECT_LINKS
  else if String.eqb value "auto_post" then Some TaskType.AUTO_POST
  else if String.eqb value "auto_join" then Some TaskType.AUTO_JOIN
  else if String.eqb value "backup" then Some TaskType.BACKUP
  else if String.eqb value "cleanup" then Some TaskType.CLEANUP
  else if String.eqb value "custom" then Some TaskType.CUSTOM
  else None.

(** [ScheduleFrequency(value)]. *)
Definition ScheduleFrequency_of (value : string) : option ScheduleFrequency.t :=
  if String.eqb value "hourly" then Some ScheduleFrequency.HOURLY
  else if String.eqb value "daily" then Some ScheduleFrequency.DAILY
  else if String.eqb value "weekly" then Some ScheduleFrequency.WEEKLY
  else if String.eqb value "monthly" then Some ScheduleFrequency.MONTHLY
  else if String.eqb value "custom" then Some ScheduleFrequency.CUSTOM
  else None.

Definition set_name (v : string) (t : ScheduledTask) : ScheduledTask :=
  mkTask (id t) v (task_type t) (frequency t) (schedule_time t)
    (is_active t) (last_run t) (next_run t) (total_runs t) (success_count t)
    (fail_count t) (config t) (callback t).

Definition set_task_type (v : TaskType.t) (t : ScheduledTask) : ScheduledTask :=
  mkTask (id t) (name t) v (frequency t) (schedule_time t)
    (is_active t) (last_run t) (next_run t) (total_runs t) (success_count t)
    (fail_count t) (config t) (callback t).

Definition set_frequency (v : ScheduleFrequency.t) (t : ScheduledTask) : ScheduledTask :=
  mkTask (id t) (name t) (task_type t) v (schedule_time t)
    (is_active t) (last_run t) (next_run t) (total_runs t) (success_count t)
    (fail_count t) (config t) (callback t).

Definition set_schedule_time (v : string) (t : ScheduledTask) : ScheduledTask :=
  mkTask (id t) (name t) (task_type t) (frequency t) v
    (is_active t) (last_run t) (next_run t) (total_runs t) (success_count t)
    (fail_count t) (config t) (callback t).

Definition set_is_active (v : bool) (t : ScheduledTask) : ScheduledTask :=
  mkTask (id t) (name t) (task_type t) (frequency t) (schedule_time t)
    v (last_run t) (next_run t) (total_runs t) (success_count t)
    (fail_count t) (config t) (callback t).

Definition set_config (v : Config) (t : ScheduledTask) : ScheduledTask :=
  mkTask (id t) (name t) (task_type t) (frequency t) (schedule_time t)
    (is_active t) (last_run t) (next_run t) (total_runs t) (success_count t)
    (fail_count t) v (callback t).

Definition set_callback (v : option Callback) (t : ScheduledTask) : ScheduledTask :=
  mkTask (id t) (name t) (task_type t) (frequency t) (schedule_time t)
    (is_active t) (last_run t) (next_run t) (total_runs t) (success_count t)
    (fail_count t) (config t) v.

(** The dictionary given to [create_task]: a key that is absent is
    [None]. *)
Record TaskData := mkTaskData {
  td_id : option string;
  td_name : option string;
  td_task_type : option string;
  td_frequency : option string;
  td_schedule_time : option string;
  td_is_active : option bool;
  td_config : option Config;
  td_callback : option Callback
}.

(** The dictionary given to [update_task]. *)
Record Updates := mkUpdates {
  u_name : option string;
  u_task_type : option string;
  u_frequency : option string;
  u_schedule_time : option string;
  u_is_active : option bool;
  u_config : option Config
}.

(** The tasks built by [_add_default_tasks]; the numbers of their
    configurations are written as text. *)
Definition default_tasks : list ScheduledTask :=
  [ mkTask "daily_backup" "نسخة احتياطية يومية" TaskType.BACKUP
      ScheduleFrequency.DAILY "02:00" true None None 0 0 0
      [("backup_type", "full")] None;
    mkTask "hourly_collection" "تجميع ساعي" TaskType.COLLECT_LINKS
      ScheduleFrequency.HOURLY "*/60" true None None 0 0 0
      [("interval", "3600")] None;
    mkTask "weekly_cleanup" "تنظيف أسبوعي" TaskType.CLEANUP
      ScheduleFrequency.WEEKLY "04:00" true None None 0 0 0
      [("days_to_keep", "30")] None ].

Section WithTimerLibrary.

Variable crontab_ok : string -> bool.

(** The trigger [_add_to_scheduler] builds for [task]; there is none when
    [from_crontab] refuses the expression. *)
Definition trigger_for (task : ScheduledTask) : option Trigger :=
  match frequency task with
  | ScheduleFrequency.CUSTOM =>
      if crontab_ok (schedule_time task)
      then Some (CronTrigger (schedule_time task)) else None
  | ScheduleFrequency.HOURLY => Some (IntervalTrigger 3600)
  | ScheduleFrequency.DAILY => Some (IntervalTrigger 86400)
  | ScheduleFrequency.WEEKLY => Some (IntervalTrigger 604800)
  | ScheduleFrequency.MONTHLY => Some (IntervalTrigger 2592000)
  end.

Definition _add_default_tasks : M State unit :=
  for_each default_tasks
    (fun task => do schedule_task crontab_ok task ;; ret tt).

Definition _load_saved_tasks : M State unit :=
  try_except
    (s <- get ;;
     do (if db s then ret tt else ret tt) ;;
     _add_default_tasks)
    (fun _ => ret tt).

Definition create_task (task_data : TaskData) : M State string :=
  try_except
    (now <- datetime_now ;;
     let task_id :=
       match td_id task_data with
       | Some i => i
       | None => "task_" ++ strftime_stamp now
       end in
     name <- or_raise KeyError (td_name task_data) ;;
     type_value <- or_raise KeyError (td_task_type task_data) ;;
     task_type <- or_raise ValueError (TaskType_of type_value) ;;
     frequency_value <- or_raise KeyError (td_frequency task_data) ;;
     frequency <- or_raise ValueError (ScheduleFrequency_of frequency_value) ;;
     schedule_time <- or_raise KeyError (td_schedule_time task_data) ;;
     let task :=
       mkTask task_id name task_type frequency schedule_time
         (match td_is_active task_data with Some b => b | None => true end)
         None None 0 0 0
         (match td_config task_data with Some c => c | None => [] end)
         None in
     let task :=
       match td_callback task_data with
       | Some cb => set_callback (Some cb) task
       | None => task
       end in
     success <- schedule_task crontab_ok task ;;
     if success then ret task_id else ret "")
    (fun _ => ret "").

(** [self.schedule_task(task)] for the task object registered under
    [task_id]: the assignment to [task.next_run] changes the registry
    entry at once. *)
Definition schedule_registered (task_id : string) : M State bool :=
  try_except
    (task <- deref task_id ;;
     if negb (_validate_schedule_time (schedule_time task) (frequency task))
     then ret false
     else
       next <- _calculate_next_run task ;;
       do setattr task_id (set_next_run (Some next)) ;;
       task <- deref task_id ;;
       do _add_to_scheduler crontab_ok task ;;
       do modify (fun s => with_tasks (dict_set (id task) task (scheduled_tasks s)) s) ;;
       s <- get ;;
       do (if db s then _save_task_to_db task else ret tt) ;;
       ret true)
    (fun _ => ret false).

Definition update_task (task_id : string) (updates : Updates) : M State bool :=
  try_except
    (s <- get ;;
     match dict_get task_id (scheduled_tasks s) with
     | None => ret false
     | Some _ =>
         do (match u_name updates with
             | Some v => setattr task_id (set_name v)
             | None => ret tt
             end) ;;
         do (match u_task_type updates with
             | Some v =>
                 ty <- or_raise ValueError (TaskType_of v) ;;
                 setattr task_id (set_task_type ty)
             | None => ret tt
             end) ;;
         do (match u_frequency updates with
             | Some v =>
                 fr <- or_raise ValueError (ScheduleFrequency_of v) ;;
                 setattr task_id (set_frequency fr)
             | None => ret tt
             end) ;;
         do (match u_schedule_time updates with
             | Some v => setattr task_id (set_schedule_time v)
             | None => ret tt
             end) ;;
         do (match u_is_active updates with
             | Some v => setattr task_id (set_is_active v)
             | None => ret tt
             end) ;;
         do (match u_config updates with
             | Some v =>
                 setattr task_id (fun t => set_config (dict_update v (config t)) t)
             | None => ret tt
             end) ;;
         do schedule_registered task_id ;;
         ret true
     end)
    (fun _ => ret false).

(** [self.scheduler.remove_job(job_id)]: [JobLookupError], a [KeyError],
    when the job store has no such job. *)
Definition remove_job (job_id : string) : M State unit :=
  s <- get ;;
  match dict_get job_id (jobs s) with
  | Some _ => modify (fun s => with_jobs (dict_del job_id (jobs s)) s)
  | None => raise KeyError
  end.

Definition delete_task (task_id : string) : M State bool :=
  try_except
    (s <- get ;;
     match dict_get task_id (scheduled_tasks s) with
     | Some task =>
         do remove_job task_id ;;
         do modify (fun s => with_tasks (dict_del task_id (scheduled_tasks s)) s) ;;
         ret true
     | None => ret false
     end)
    (fun _ => ret false).

End WithTimerLibrary.

(** Between two states of the scheduler, nothing differs but the record
    of the task registered under [task_id] and the number of readings of
    the clock: the registry has the same ids in the same order, and the
    job store is the same. *)
Definition only_task (task_id : string) (s s' : State) : Prop :=
  db s' = db s /\ running s' = running s /\ jobs s' = jobs s /\
  clock s' = clock s /\
  map fst (scheduled_tasks s') = map fst (scheduled_tasks s) /\
  forall k, k <> task_id ->
    dict_get k (scheduled_tasks s') = dict_get k (scheduled_tasks s).

(** The summaries are in ascending order of their sort keys: none has a
    key below the key of one that comes before it. *)
Fixpoint ascending (l : list TaskSummary) : Prop :=
  match l with
  | [] => True
  | x :: r =>
      Forall (fun y => PyStr.str_ltb (sort_key y) (sort_key x) = false) r /\
      ascending r
  end.

(** The tasks [get_tasks] lists. *)
Definition listed (active_only : bool) (task : ScheduledTask) : bool :=
  negb (active_only && negb (is_active task)).

(** Two records of a task with the same id, callback, run statistics and
    last run. *)
Definition same_statistics (t t' : ScheduledTask) : Prop :=
  id t' = id t /\ callback t' = callback t /\ last_run t' = last_run t /\
  total_runs t' = total_runs t /\ success_count t' = success_count t /\
  fail_count t' = fail_count t.

(** The task registered under [task_id], when there is one, keeps its
    statistics from [s] to [s']. *)
Definition keeps_statistics (task_id : string) (s s' : State) : Prop :=
  forall t, dict_get task_id (scheduled_tasks s) = Some t ->
  exists t', dict_get task_id (scheduled_tasks s') = Some t' /\
             same_statistics t t'.

End SchedulerApi.

(** ** [db_handler.py]: the two methods the collection engine calls *)

Module Database.
Import AutoCollector.

(** A value read from a dictionary: the key is absent, the value is
    [None], or the value is a string. *)
Inductive field : Type :=
| Missing
| PyNone
| Str (text : string).

(** A link as [get_links] returns it; of its keys, the ones the engine
    reads. *)
Record LinkRow := mkRow {
  r_url : field;
  r_title : field;
  r_description : field;
  r_found_in : field;
  r_category : field;
  r_found_at : field
}.

Section WithSession.

(** [D] is the state of the database, [Session] a session of the object
    mapper; the statements under [async with ... as session] are left
    open. *)
Context {D Session : Type}.
Variable save_link_body : Session -> LinkData -> M D bool.
Variable get_links_body : Session -> string -> option string -> Z -> M D (list LinkRow).

(** [self.get_session()].  The class body binds the name [get_session]
    twice: first to the context manager, then to the coroutine function
    [get_session(self, session_id)], and the second binding is the one
    the methods see.  Called without [session_id] it raises [TypeError]. *)
Definition get_session : M D Session :=
  raise (Exception "TypeError: get_session() missing 1 required positional argument: 'session_id'").

Definition save_link (link_data : LinkData) : M D bool :=
  try_except
    (session <- get_session ;;
     save_link_body session link_data)
    (fun _ => ret false).

Definition get_links (session_id : string) (category : option string) (limit : Z)
  : M D (list LinkRow) :=
  try_except
    (session <- get_session ;;
     get_links_body session session_id category limit)
    (fun _ => ret []).

End WithSession.

End Database.

(** ** [auto_collector.py]: collection on demand, the cache, export,
    statistics and search *)

Module CollectorApi.
Import AutoCollector.
Import Database.

(** [c.lower()] and [s.lower()], on ASCII text. *)
Definition lower_char (c : ascii) : ascii :=
  if (65 <=? PyStr.ord c) && (PyStr.ord c <=? 90)
  then ascii_of_nat (nat_of_ascii c + 32)
  else c.

Fixpoint lower (s : string) : string :=
  match s with
  | EmptyString => EmptyString
  | String c r => String (lower_char c) (lower r)
  end.

Fixpoint starts_with (p s : string) : bool :=
  match p, s with
  | EmptyString, _ => true
  | String a p', String b s' => Ascii.eqb a b && starts_with p' s'
  | String _ _, EmptyString => false
  end.

(** [sub in s]. *)
Fixpoint str_in (sub s : string) : bool :=
  starts_with sub s ||
  match s with
  | EmptyString => false
  | String _ r => str_in sub r
  end.

(** [link[key]]: [KeyError] when the key is absent. *)
Definition subscript (f : field) : result (option string) :=
  match f with
  | Missing => Raise KeyError
  | PyNone => Ok None
  | Str text => Ok (Some text)
  end.

(** [link.get(key, '').lower()]: [None] has no method [lower]. *)
Definition get_lower (f : field) : result string :=
  match f with
  | Missing => Ok (lower "")
  | PyNone =>
      Raise (Exception "AttributeError: 'NoneType' object has no attribute 'lower'")
  | Str text => Ok (lower text)
  end.

(** Equality of dictionary keys that are strings or [None]. *)
Definition key_eqb (a b : option string) : bool :=
  match a, b with
  | None, None => true
  | Some x, Some y => String.eqb x y
  | _, _ => false
  end.

(** [d.setdefault(category, []).append(url)] on [categorized_links]. *)
Fixpoint append_under (category url : option string)
  (d : list (option string * list (option string)))
  : list (option string * list (option string)) :=
  match d with
  | [] => [(category, [url])]
  | (c, urls) :: r =>
      if key_eqb category c then (c, (urls ++ [url])%list) :: r
      else (c, urls) :: append_under category url r
  end.

(** The loop of [export_collected_links] that groups the URLs. *)
Fixpoint categorize (links : list LinkRow)
  (categorized_links : list (option string * list (option string)))
  : result (list (option string * list (option string))) :=
  match links with
  | [] => Ok categorized_links
  | link :: rest =>
      match subscript (r_category link) with
      | Raise e => Raise e
      | Ok category =>
          match subscript (r_url link) with
          | Raise e => Raise e
          | Ok url => categorize rest (append_under category url categorized_links)
          end
      end
  end.

(** [category_stats[category] += 1], from 0 for a new category. *)
Fixpoint count_up (category : option string) (d : list (option string * Z))
  : list (option string * Z) :=
  match d with
  | [] => [(category, 1)]
  | (c, n) :: r =>
      if key_eqb category c then (c, n + 1) :: r
      else (c, n) :: count_up category r
  end.

(** The loop of [get_link_statistics] that counts by category. *)
Fixpoint count_categories (links : list LinkRow)
  (category_stats : list (option string * Z))
  : result (list (option string * Z)) :=
  match links with
  | [] => Ok category_stats
  | link :: rest =>
      match subscript (r_category link) with
      | Raise e => Raise e
      | Ok category => count_categories rest (count_up category category_stats)
      end
  end.

(** What [group_manager.get_group_info] returns for a group it knows:
    a dictionary, of which the engine reads the key [name]. *)
Record GroupInfo := mkInfo { info_name : option string }.

(** The dictionary [collect_from_specific_group] returns. *)
Inductive CollectResult : Type :=
| Collected (name : option string) (messages_processed collected total_links_now : Z)
| GroupNotFound
| CollectFailed (error : exn).

(** The dictionary [get_link_statistics] returns. *)
Inductive LinkStatistics : Type :=
| MemoryOnly (unique_urls : Z)
| FromDatabase (total today : Z) (categories : list (option string * Z))
    (unique_in_memory : Z)
| Unavailable.

Section WithCollaborators.

Context {W : Type}.
Variable get_group_info : string -> M W (option GroupInfo).
Variable get_group_messages : string -> bool -> Z -> M W (list Message).
Variable save_link : LinkData -> M W bool.
Variable extract_links : string -> result (list string).
Variable categorize_link : string -> result string.
Variable get_links : string -> option string -> Z -> M W (list LinkRow).

(** [datetime.fromisoformat(text.replace('Z', '+00:00')).date()]; [None]
    where it raises. *)
Variable found_on : string -> option date.

(** The statements of [export_collected_links] that write the file at a
    path, for a format. *)
Variable write_export :
  string -> string -> list (option string * list (option string)) -> M W unit.

(** [self.client.session_id if hasattr(self.client, 'session_id') else
    'unknown']. *)
Definition session_of (s : @State W) : string :=
  match session_id s with
  | Some i => i
  | None => "unknown"
  end.

Definition collect_from_specific_group (group_id : string) (limit : Z)
  : M (@State W) CollectResult :=
  try_except
    (group_info <- in_world (get_group_info group_id) ;;
     match group_info with
     | None => ret GroupNotFound
     | Some info =>
         messages <- in_world (get_group_messages group_id true limit) ;;
         links_collected <-
           _process_group_messages save_link extract_links categorize_link
             messages group_id
             (match info_name info with Some n => n | None => "غير معروف" end) ;;
         do modify (fun s =>
              let st := collection_stats s in
              with_stats (mkStats (total_links st + links_collected)
                            (last_collection st) (collections_today st)
                            (last_collection_date st)) s) ;;
         s <- get ;;
         ret (Collected (info_name info) (Z.of_nat (length messages))
                links_collected (total_links (collection_stats s)))
     end)
    (fun e => ret (CollectFailed e)).

Definition clear_collected_urls : M (@State W) Z :=
  try_except
    (s <- get ;;
     let count := Z.of_nat (size (collected_urls s)) in
     do modify (with_collected_urls ∅) ;;
     ret count)
    (fun _ => ret 0).

(** [os.makedirs(...)]: the module does not import [os], so the name is
    not bound and its evaluation raises [NameError]. *)
Definition os_makedirs : M (@State W) unit :=
  raise (Exception "NameError: name 'os' is not defined").

Definition export_collected_links (format : string) : M (@State W) (option string) :=
  try_except
    (s <- get ;;
     if negb (has_db s) then ret None
     else
       links <- in_world (get_links (session_of s) None 10000) ;;
       match links with
       | [] => ret None
       | _ =>
           categorized_links <- of_result (categorize links []) ;;
           now <- datetime_now ;;
           let timestamp := strftime_stamp now in
           if String.eqb format "txt" then
             let filepath := "data/exports/" ++ ("collected_links_" ++ timestamp ++ ".txt") in
             do os_makedirs ;;
             do in_world (write_export format filepath categorized_links) ;;
             ret (Some filepath)
           else if String.eqb format "json" then
             let filepath := "data/exports/" ++ ("collected_links_" ++ timestamp ++ ".json") in
             do os_makedirs ;;
             do in_world (write_export format filepath categorized_links) ;;
             ret (Some filepath)
           else ret None
       end)
    (fun _ => ret None).

(** The loop of [get_link_statistics] that counts the links of today; a
    link whose date cannot be read is passed over. *)
Fixpoint count_today (today : date) (links : list LinkRow) (today_links : Z) : Z :=
  match links with
  | [] => today_links
  | link :: rest =>
      count_today today rest
        (match r_found_at link with
         | Str text =>
             match found_on text with
             | Some d => if date_eqb d today then today_links + 1 else today_links
             | None => today_links
             end
         | _ => today_links
         end)
  end.

Definition get_link_statistics : M (@State W) LinkStatistics :=
  try_except
    (s <- get ;;
     if negb (has_db s)
     then ret (MemoryOnly (Z.of_nat (size (collected_urls s))))
     else
       links <- in_world (get_links (session_of s) None 10000) ;;
       let total_links := Z.of_nat (length links) in
       category_stats <- of_result (count_categories links []) ;;
       now <- datetime_now ;;
       let today := date_of now in
       let today_links := count_today today links 0 in
       s <- get ;;
       ret (FromDatabase total_links today_links category_stats
              (Z.of_nat (size (collected_urls s)))))
    (fun _ => ret Unavailable).

(** Whether [link] goes into the results: the test of the loop of
    [search_links], which raises when one of the four values is [None]. *)
Definition matches (keyword_lower : string) (link : LinkRow) : result bool :=
  match get_lower (r_url link) with
  | Raise e => Raise e
  | Ok url =>
      match get_lower (r_title link) with
      | Raise e => Raise e
      | Ok title =>
          match get_lower (r_description link) with
          | Raise e => Raise e
          | Ok description =>
              match get_lower (r_found_in link) with
              | Raise e => Raise e
              | Ok found_in =>
                  Ok (str_in keyword_lower url || str_in keyword_lower title ||
                      str_in keyword_lower description ||
                      str_in keyword_lower found_in)
              end
          end
      end
  end.

(** The links that go into the results: the test holds, and does not
    raise. *)
Definition is_match (keyword_lower : string) (link : LinkRow) : bool :=
  match matches keyword_lower link with
  | Ok found => found
  | Raise _ => false
  end.

(** [for link in links] of [search_links]. *)
Fixpoint search_loop (keyword_lower : string) (links results : list LinkRow)
  : M (@State W) (list LinkRow) :=
  match links with
  | [] => ret results
  | link :: rest =>
      results <-
        try_except
          (found <- of_result (matches keyword_lower link) ;;
           if found then ret (results ++ [link])%list else ret results)
          (fun _ => ret results) ;;
      search_loop keyword_lower rest results
  end.

Definition search_links (keyword : string) (category : option string)
  : M (@State W) (list LinkRow) :=
  try_except
    (s <- get ;;
     if negb (has_db s) then ret []
     else
       links <- in_world (get_links (session_of s) category 1000) ;;
       search_loop (lower keyword) links [])
    (fun _ => ret []).

(** Between two states of the engine: the daily quota, the running flag,
    the clock and the times of the last checks are the same. *)
Definition outside_schedule (s s' : @State W) : Prop :=
  same_quota s s' /\ last_group_check s' = last_group_check s /\
  ticks s' = ticks s /\ slept s' = slept s.

End WithCollaborators.

(** The sum of the counts of a category table. *)
Definition total_count (d : list (option string * Z)) : Z :=
  fold_right (fun kv acc => snd kv + acc) 0 d.

(** A list of messages and one of links for the examples. *)
Definition titled (url title : string) : LinkRow :=
  mkRow (Str url) (Str title) (Str "") (Str "Group one - alice") (Str "other")
    (Str "2024-01-01T03:00:00").

Definition untitled (url : string) : LinkRow :=
  mkRow (Str url) PyNone PyNone (Str "Group one - alice") (Str "other")
    (Str "2024-01-01T03:00:00").

End CollectorApi.

(** * Facts *)

Set Default Proof Using "Type".

(** ** Calendar arithmetic *)

Section CalendarFacts.

Lemma month_cases (m : Z) :
  1 <= m <= 12 ->
  m = 1 \/ m = 2 \/ m = 3 \/ m = 4 \/ m = 5 \/ m = 6 \/
  m = 7 \/ m = 8 \/ m = 9 \/ m = 10 \/ m = 11 \/ m = 12.
Proof. lia. Qed.

Lemma days_in_month_bounds y m : 28 <= days_in_month y m <= 31.
Proof.
  unfold days_in_month.
  destruct m as [|p|p]; [lia| |lia].
  do 4 (try destruct p as [p|p|]); simpl; destruct (is_leap y); lia.
Qed.

Lemma days_before_year_succ y :
  days_before_year (y + 1) =
  days_before_year y + 365 + (if is_leap y then 1 else 0).
Proof.
  unfold days_before_year, is_leap.
  replace (y + 1 - 1) with y by lia.
  destruct (Z.eqb_spec (y mod 4) 0), (Z.eqb_spec (y mod 100) 0),
    (Z.eqb_spec (y mod 400) 0); simpl; Z.div_mod_to_equations; lia.
Qed.

Lemma days_before_month_succ y m :
  1 <= m < 12 ->
  days_before_month y (m + 1) = days_before_month y m + days_in_month y m.
Proof.
  intros Hm. unfold days_before_month, days_in_month.
  assert (H : m = 1 \/ m = 2 \/ m = 3 \/ m = 4 \/ m = 5 \/ m = 6 \/
              m = 7 \/ m = 8 \/ m = 9 \/ m = 10 \/ m = 11) by lia.
  destruct (is_leap y);
    repeat (destruct H as [->|H]; [reflexivity|]); subst; reflexivity.
Qed.

Lemma days_before_december y :
  days_before_month y 12 + days_in_month y 12 =
  365 + (if is_leap y then 1 else 0).
Proof. unfold days_before_month, days_in_month. simpl. destruct (is_leap y); lia. Qed.

Lemma next_day_spec d d' :
  valid_date d -> next_day d = Some d' ->
  valid_date d' /\ date_lt d d' /\ toordinal d' = toordinal d + 1.
Proof.
  intros (Hy & Hm & Hd) H. unfold next_day in H.
  destruct d as [y m dd]; simpl in *.
  unfold MINYEAR, MAXYEAR in *.
  destruct (Z.ltb_spec dd (days_in_month y m)).
  { inversion H; subst; clear H. unfold valid_date, date_lt, toordinal; simpl.
    unfold MINYEAR, MAXYEAR. lia. }
  destruct (Z.ltb_spec m 12).
  { inversion H; subst; clear H. unfold valid_date, date_lt, toordinal; simpl.
    pose proof (days_in_month_bounds y (m + 1)).
    rewrite days_before_month_succ by lia.
    unfold MINYEAR, MAXYEAR. lia. }
  destruct (Z.ltb_spec y 9999); [|discriminate].
  inversion H; subst; clear H. unfold valid_date, date_lt, toordinal; simpl.
  assert (m = 12) by lia. subst m.
  rewrite days_before_year_succ.
  pose proof (days_before_december y).
  unfold MINYEAR, MAXYEAR.
  replace (days_before_month (y + 1) 1) with 0 by reflexivity.
  replace (days_in_month (y + 1) 1) with 31 by reflexivity.
  lia.
Qed.

Lemma next_day_none d :
  valid_date d -> next_day d = None -> year d = MAXYEAR.
Proof.
  intros (Hy & Hm & Hd) H. unfold next_day in H.
  destruct (day d <? _); [discriminate|].
  destruct (month d <? 12); [discriminate|].
  destruct (Z.ltb_spec (year d) MAXYEAR); [discriminate|]. lia.
Qed.

Lemma date_lt_trans a b c : date_lt a b -> date_lt b c -> date_lt a c.
Proof. unfold date_lt. lia. Qed.

Lemma add_days_spec n : forall d d',
  valid_date d -> add_days d n = Some d' ->
  valid_date d' /\ toordinal d' = toordinal d + Z.of_nat n /\
  (n <> O -> date_lt d d').
Proof.
  induction n as [|n IH]; intros d d' Hv H; simpl in H.
  - inversion H; subst. repeat split; [apply Hv..|lia|congruence].
  - destruct (next_day d) as [d1|] eqn:E; [|discriminate].
    destruct (next_day_spec _ _ Hv E) as (Hv1 & Hlt & Hord).
    destruct (IH _ _ Hv1 H) as (Hv' & Hord' & Hlt').
    split; [exact Hv'|]. split; [lia|].
    intros _. destruct n as [|n'].
    + simpl in H. inversion H; subst. exact Hlt.
    + eapply date_lt_trans; [exact Hlt|]. apply Hlt'. discriminate.
Qed.

Lemma toordinal_upper d :
  valid_date d -> toordinal d <= days_before_year (year d + 1).
Proof.
  intros (Hy & Hm & Hd). rewrite days_before_year_succ.
  unfold toordinal. destruct d as [y m dd]; simpl in *.
  pose proof (days_before_december y) as H12.
  assert (days_before_month y m + days_in_month y m <=
          days_before_month y 12 + days_in_month y 12); [|lia].
  clear Hd H12 Hy. unfold days_before_month, days_in_month.
  destruct (month_cases m Hm) as [H|H];
    repeat (destruct H as [->|H]; [simpl; destruct (is_leap y); lia|]);
    subst; simpl; destruct (is_leap y); lia.
Qed.

Lemma days_before_year_mono y1 y2 :
  1 <= y1 <= y2 -> days_before_year y1 <= days_before_year y2.
Proof.
  intros H. unfold days_before_year. Z.div_mod_to_equations. lia.
Qed.

(** Adding at most a year to a date before the last year succeeds. *)
Lemma add_days_some n : forall d,
  valid_date d ->
  toordinal d + Z.of_nat n <= days_before_year (MAXYEAR + 1) ->
  exists d', add_days d n = Some d'.
Proof.
  induction n as [|n IH]; intros d Hv Hb; simpl.
  - eauto.
  - destruct (next_day d) as [d1|] eqn:E.
    + destruct (next_day_spec _ _ Hv E) as (Hv1 & _ & Hord).
      apply IH; [exact Hv1|lia].
    + exfalso. unfold next_day in E.
      destruct Hv as (Hy & Hm & Hd).
      destruct (Z.ltb_spec (day d) (days_in_month (year d) (month d))); [discriminate|].
      destruct (Z.ltb_spec (month d) 12); [discriminate|].
      destruct (Z.ltb_spec (year d) MAXYEAR); [discriminate|].
      assert (Hy' : year d = MAXYEAR) by lia.
      assert (Hm' : month d = 12) by lia.
      assert (Hd' : day d = 31).
      { rewrite Hm' in *. unfold days_in_month in *. lia. }
      unfold toordinal in Hb. rewrite Hy', Hm', Hd' in Hb.
      assert (days_before_year MAXYEAR + days_before_month MAXYEAR 12 + 31 =
              days_before_year (MAXYEAR + 1)) by reflexivity.
      lia.
Qed.

Lemma add_days_some_before_last_year d n :
  valid_date d -> year d < MAXYEAR -> (n <= 365)%nat ->
  exists d', add_days d n = Some d'.
Proof.
  intros Hv Hy Hn. apply add_days_some; [exact Hv|].
  pose proof (toordinal_upper d Hv).
  assert (days_before_year (year d + 1) <= days_before_year MAXYEAR).
  { apply days_before_year_mono. destruct Hv as ((?&?)&_). unfold MINYEAR in *. lia. }
  assert (days_before_year (MAXYEAR + 1) = days_before_year MAXYEAR + 365)
    by reflexivity.
  lia.
Qed.

End CalendarFacts.

(** ** Order and addition on datetimes *)

Section DatetimeFacts.

Lemma date_eq_fields a b :
  a = b <-> year a = year b /\ month a = month b /\ day a = day b.
Proof.
  destruct a, b; simpl. split.
  - intros H; inversion H; auto.
  - intros (-> & -> & ->); reflexivity.
Qed.

Lemma time_eq_fields a b :
  a = b <->
  hour a = hour b /\ minute a = minute b /\ second a = second b /\
  microsecond a = microsecond b.
Proof.
  destruct a, b; simpl. split.
  - intros H; inversion H; auto.
  - intros (-> & -> & -> & ->); reflexivity.
Qed.

Lemma date_ltb_lt a b : date_ltb a b = true <-> date_lt a b.
Proof.
  unfold date_ltb, date_lt.
  rewrite !orb_true_iff, !andb_true_iff, !orb_true_iff, !andb_true_iff,
    !Z.ltb_lt, !Z.eqb_eq. tauto.
Qed.

Lemma date_eqb_eq a b : date_eqb a b = true <-> a = b.
Proof.
  unfold date_eqb. rewrite date_eq_fields, !andb_true_iff, !Z.eqb_eq. tauto.
Qed.

Lemma time_ltb_lt a b : time_ltb a b = true <-> time_lt a b.
Proof.
  unfold time_ltb, time_lt.
  rewrite !orb_true_iff, !andb_true_iff, !orb_true_iff, !andb_true_iff,
    !orb_true_iff, !andb_true_iff, !Z.ltb_lt, !Z.eqb_eq. tauto.
Qed.

Lemma time_eqb_eq a b : time_eqb a b = true <-> a = b.
Proof.
  unfold time_eqb. rewrite time_eq_fields, !andb_true_iff, !Z.eqb_eq. tauto.
Qed.

Lemma datetime_ltb_lt a b : datetime_ltb a b = true <-> datetime_lt a b.
Proof.
  unfold datetime_ltb, datetime_lt.
  rewrite orb_true_iff, andb_true_iff, date_ltb_lt, date_eqb_eq, time_ltb_lt.
  tauto.
Qed.

Lemma datetime_eqb_eq a b : datetime_eqb a b = true <-> a = b.
Proof.
  unfold datetime_eqb. rewrite andb_true_iff, date_eqb_eq, time_eqb_eq.
  destruct a, b; simpl. split.
  - intros (-> & ->); reflexivity.
  - intros H; inversion H; auto.
Qed.

Lemma datetime_leb_le a b : datetime_leb a b = true <-> datetime_le a b.
Proof.
  unfold datetime_leb, datetime_le.
  rewrite orb_true_iff, datetime_ltb_lt, datetime_eqb_eq. tauto.
Qed.

Lemma date_trichotomy a b : date_lt a b \/ a = b \/ date_lt b a.
Proof. rewrite date_eq_fields. unfold date_lt. lia. Qed.

Lemma time_trichotomy a b : time_lt a b \/ a = b \/ time_lt b a.
Proof. rewrite time_eq_fields. unfold time_lt. lia. Qed.

Lemma date_lt_irrefl a : ~ date_lt a a.
Proof. unfold date_lt. lia. Qed.

Lemma time_lt_irrefl a : ~ time_lt a a.
Proof. unfold time_lt. lia. Qed.

Lemma time_lt_trans a b c : time_lt a b -> time_lt b c -> time_lt a c.
Proof. unfold time_lt. lia. Qed.

(** The order is total: when [a <= b] fails, [b < a]. *)
Lemma datetime_leb_false a b : datetime_leb a b = false -> datetime_lt b a.
Proof.
  intros H.
  destruct (date_trichotomy (date_of a) (date_of b)) as [Hd|[Hd|Hd]].
  - assert (datetime_leb a b = true); [|congruence].
    apply datetime_leb_le. left. left. exact Hd.
  - destruct (time_trichotomy (time_of a) (time_of b)) as [Ht|[Ht|Ht]].
    + assert (datetime_leb a b = true); [|congruence].
      apply datetime_leb_le. left. right. auto.
    + assert (datetime_leb a b = true); [|congruence].
      apply datetime_leb_le. right. destruct a, b; simpl in *; congruence.
    + right. auto.
  - left. exact Hd.
Qed.

Lemma datetime_lt_trans a b c :
  datetime_lt a b -> datetime_lt b c -> datetime_lt a c.
Proof.
  unfold datetime_lt. intros [H1|[E1 H1]] [H2|[E2 H2]].
  - left. eapply date_lt_trans; eauto.
  - left. rewrite <- E2. exact H1.
  - left. rewrite E1. exact H2.
  - right. split; [congruence|]. eapply time_lt_trans; eauto.
Qed.

Lemma datetime_le_lt_trans a b c :
  datetime_le a b -> datetime_lt b c -> datetime_lt a c.
Proof. intros [H| ->] ?; [eapply datetime_lt_trans; eauto|assumption]. Qed.

Lemma datetime_lt_irrefl a : ~ datetime_lt a a.
Proof.
  intros [H|[_ H]]; [exact (date_lt_irrefl _ H)|exact (time_lt_irrefl _ H)].
Qed.

Lemma datetime_le_year a b :
  datetime_le a b -> year (date_of a) <= year (date_of b).
Proof.
  intros [[H|[E _]]| ->]; [unfold date_lt in H; lia|rewrite E; lia|lia].
Qed.

Lemma seconds_of_time_bounds t :
  valid_time t -> 0 <= seconds_of_time t < 86400.
Proof. unfold valid_time, seconds_of_time. lia. Qed.

Lemma time_of_seconds_valid n us :
  0 <= n < 86400 -> 0 <= us < 1000000 -> valid_time (time_of_seconds n us).
Proof.
  intros. unfold valid_time, time_of_seconds; simpl.
  Z.div_mod_to_equations. lia.
Qed.

Lemma time_lt_of_seconds t n us :
  valid_time t -> 0 <= n < 86400 -> 0 <= us < 1000000 ->
  seconds_of_time t * 1000000 + microsecond t < n * 1000000 + us ->
  time_lt t (time_of_seconds n us).
Proof.
  intros Hv Hn Hus H. unfold valid_time, seconds_of_time in *.
  unfold time_lt, time_of_seconds; simpl.
  Z.div_mod_to_equations. lia.
Qed.

(** Adding a positive [timedelta] moves a datetime strictly forward. *)
Lemma datetime_add_spec x delta r :
  valid_datetime x ->
  0 <= td_days delta -> 0 <= td_seconds delta < 86400 ->
  0 <= td_microseconds delta < 1000000 ->
  0 < td_days delta + td_seconds delta + td_microseconds delta ->
  datetime_add x delta = Some r ->
  valid_datetime r /\ datetime_lt x r.
Proof.
  intros [Hd Ht] Hdays Hsec Hus Hpos H. unfold datetime_add in H.
  pose proof (seconds_of_time_bounds _ Ht) as Hs.
  assert (Hu : 0 <= microsecond (time_of x) < 1000000) by (apply Ht).
  set (us := microsecond (time_of x) + td_microseconds delta) in *.
  set (s := seconds_of_time (time_of x) + td_seconds delta + us / 1000000) in *.
  destruct (add_days (date_of x) (Z.to_nat (td_days delta + s / 86400)))
    as [d|] eqn:E; [|discriminate].
  inversion H; subst r; clear H.
  destruct (add_days_spec _ _ _ Hd E) as (Hvd & _ & Hlt).
  assert (Hs' : 0 <= s mod 86400 < 86400) by (apply Z.mod_pos_bound; lia).
  assert (Hu' : 0 <= us mod 1000000 < 1000000) by (apply Z.mod_pos_bound; lia).
  split.
  - split; simpl; [exact Hvd|apply time_of_seconds_valid; assumption].
  - destruct (Z_lt_le_dec 0 (td_days delta + s / 86400)) as [Hp|Hz].
    + left. simpl. apply Hlt. lia.
    + right. simpl.
      assert (Hq : 0 <= s / 86400).
      { apply Z.div_pos; [|lia]. subst s us.
        assert (0 <= (microsecond (time_of x) + td_microseconds delta) / 1000000)
          by (apply Z.div_pos; lia). lia. }
      assert (Hn : Z.to_nat (td_days delta + s / 86400) = O) by lia.
      rewrite Hn in E. simpl in E. inversion E; subst d. split; [reflexivity|].
      apply time_lt_of_seconds; try assumption.
      subst s us. Z.div_mod_to_equations. lia.
Qed.

Lemma datetime_add_some x delta :
  valid_datetime x -> year (date_of x) < MAXYEAR ->
  0 <= td_days delta <= 300 -> 0 <= td_seconds delta < 86400 ->
  0 <= td_microseconds delta < 1000000 ->
  exists r, datetime_add x delta = Some r.
Proof.
  intros [Hd Ht] Hy Hdays Hsec Hus. unfold datetime_add.
  pose proof (seconds_of_time_bounds _ Ht) as Hs.
  assert (Hu : 0 <= microsecond (time_of x) < 1000000) by (apply Ht).
  set (us := microsecond (time_of x) + td_microseconds delta) in *.
  set (s := seconds_of_time (time_of x) + td_seconds delta + us / 1000000) in *.
  destruct (add_days_some_before_last_year (date_of x)
              (Z.to_nat (td_days delta + s / 86400)) Hd Hy) as [d E].
  - subst s us. Z.div_mod_to_equations. lia.
  - rewrite E. eauto.
Qed.

End DatetimeFacts.

(** ** [strptime] with the format ["%H:%M"] *)

Section StrptimeFacts.

Lemma is_digit_val c : PyStr.is_digit c = true -> 0 <= PyStr.digit_val c <= 9.
Proof.
  unfold PyStr.is_digit, PyStr.digit_val. intros H.
  apply andb_true_iff in H. destruct H as [H1 H2].
  apply Z.leb_le in H1, H2. lia.
Qed.

Lemma in_range_val lo hi c :
  PyStr.in_range lo hi c = true ->
  PyStr.ord lo - 48 <= PyStr.digit_val c <= PyStr.ord hi - 48.
Proof.
  unfold PyStr.in_range, PyStr.digit_val. intros H.
  apply andb_true_iff in H. destruct H as [H1 H2].
  apply Z.leb_le in H1, H2. lia.
Qed.

Lemma match_minute_range s m rest :
  match_minute s = Some (m, rest) -> 0 <= m < 60.
Proof.
  unfold match_minute. intros H.
  destruct s as [|c1 [|c2 r2]]; [discriminate| |].
  - destruct (PyStr.is_digit c1) eqn:D; [|discriminate].
    inversion H; subst. apply is_digit_val in D. lia.
  - destruct (PyStr.in_range "0" "5" c1 && PyStr.is_digit c2) eqn:D.
    + inversion H; subst. apply andb_true_iff in D. destruct D as [D1 D2].
      apply in_range_val in D1. apply is_digit_val in D2.
      change (PyStr.ord "0") with 48 in D1. change (PyStr.ord "5") with 53 in D1.
      lia.
    + destruct (PyStr.is_digit c1) eqn:D1; [|discriminate].
      inversion H; subst. apply is_digit_val in D1. lia.
Qed.

Lemma two_digit_hour_range c1 c2 :
  two_digit_hour c1 c2 = true ->
  0 <= 10 * PyStr.digit_val c1 + PyStr.digit_val c2 < 24.
Proof.
  unfold two_digit_hour. intros H.
  apply orb_true_iff in H. destruct H as [H|H];
    apply andb_true_iff in H; destruct H as [H1 H2].
  - apply Ascii.eqb_eq in H1. subst c1. apply in_range_val in H2.
    change (PyStr.ord "0") with 48 in H2. change (PyStr.ord "3") with 51 in H2.
    change (PyStr.digit_val "2") with 2. lia.
  - apply in_range_val in H1. apply is_digit_val in H2.
    change (PyStr.ord "0") with 48 in H1. change (PyStr.ord "1") with 49 in H1.
    lia.
Qed.

Lemma match_hour_minute_range s h m rest :
  match_hour_minute s = Some (h, m, rest) -> 0 <= h < 24 /\ 0 <= m < 60.
Proof.
  unfold match_hour_minute. intros H.
  destruct s as [|c1 [|c2 r2]]; try discriminate.
  destruct (Ascii.eqb c2 ":").
  - destruct (PyStr.is_digit c1) eqn:D; [|discriminate].
    destruct (match_minute r2) as [[m' rest']|] eqn:E; [|discriminate].
    inversion H; subst. apply match_minute_range in E. apply is_digit_val in D. lia.
  - destruct r2 as [|c3 r3]; [discriminate|].
    destruct (Ascii.eqb c3 ":" && two_digit_hour c1 c2) eqn:D; [|discriminate].
    apply andb_true_iff in D. destruct D as [_ D].
    destruct (match_minute r3) as [[m' rest']|] eqn:E; [|discriminate].
    inversion H; subst. apply match_minute_range in E.
    apply two_digit_hour_range in D. lia.
Qed.

(** A schedule-spec that [strptime] accepts gives a time of day with no
    seconds. *)
Lemma strptime_HM_valid s t :
  strptime_HM s = Some t ->
  valid_time t /\ second t = 0 /\ microsecond t = 0.
Proof.
  unfold strptime_HM. intros H.
  destruct (match_hour_minute s) as [[[h m] rest]|] eqn:E; [|discriminate].
  destruct rest; [|discriminate]. inversion H; subst.
  apply match_hour_minute_range in E. unfold valid_time; simpl. lia.
Qed.

End StrptimeFacts.

(** ** Reasoning about computations *)

Section MonadFacts.
Context {S : Type}.

Lemma bind_ok_inv {A B} (m : M S A) (k : A -> M S B) s b s' :
  bind m k s = (Ok b, s') ->
  exists a s1, m s = (Ok a, s1) /\ k a s1 = (Ok b, s').
Proof.
  unfold bind. destruct (m s) as [[a|e] s1]; [eauto|discriminate].
Qed.

Lemma bind_raise_inv {A B} (m : M S A) (k : A -> M S B) s e s' :
  bind m k s = (Raise e, s') ->
  m s = (Raise e, s') \/ exists a s1, m s = (Ok a, s1) /\ k a s1 = (Raise e, s').
Proof.
  unfold bind. destruct (m s) as [[a|e'] s1]; [eauto|].
  intros H. left. inversion H; subst. reflexivity.
Qed.

Lemma bind_ok {A B} (m : M S A) (k : A -> M S B) s a s1 :
  m s = (Ok a, s1) -> bind m k s = k a s1.
Proof. unfold bind. now intros ->. Qed.

Lemma bind_raise {A B} (m : M S A) (k : A -> M S B) s e s1 :
  m s = (Raise e, s1) -> bind m k s = (Raise e, s1).
Proof. unfold bind. now intros ->. Qed.

Lemma try_except_ok {A} (body : M S A) h s a s1 :
  body s = (Ok a, s1) -> try_except body h s = (Ok a, s1).
Proof. unfold try_except. now intros ->. Qed.

Lemma try_except_raise {A} (body : M S A) h s e s1 :
  body s = (Raise e, s1) -> try_except body h s = h e s1.
Proof. unfold try_except. now intros ->. Qed.

Lemma try_except_inv {A} (body : M S A) h s x s' :
  try_except body h s = (x, s') ->
  (exists a, body s = (Ok a, s') /\ x = Ok a) \/
  (exists e s1, body s = (Raise e, s1) /\ h e s1 = (x, s')).
Proof.
  unfold try_except. destruct (body s) as [[a|e] s1]; intros H.
  - left. inversion H; subst. eauto.
  - right. eauto.
Qed.

Lemma or_raise_ok_inv {A} e (o : option A) (s : S) a s' :
  or_raise e o s = (Ok a, s') -> o = Some a /\ s' = s.
Proof. destruct o; simpl; unfold ret, raise; intros H; inversion H; auto. Qed.

Lemma or_raise_raise_inv {A} e (o : option A) (s : S) e' s' :
  or_raise e o s = (Raise e', s') -> o = None /\ e' = e /\ s' = s.
Proof. destruct o; simpl; unfold ret, raise; intros H; inversion H; auto. Qed.

End MonadFacts.

(** ** The trigger strategy *)

Import Scheduler.

Section TriggerFacts.

Lemma five_minutes_later x r :
  valid_datetime x -> datetime_add x (timedelta_minutes 5) = Some r ->
  valid_datetime r /\ datetime_lt x r.
Proof.
  intros Hv H. eapply datetime_add_spec; [exact Hv| | | | |exact H];
    change (timedelta_minutes 5) with (mkdelta 0 300 0); simpl; lia.
Qed.

Lemma one_hour_later x r :
  valid_datetime x -> datetime_add x (timedelta_hours 1) = Some r ->
  valid_datetime r /\ datetime_lt x r.
Proof.
  intros Hv H. eapply datetime_add_spec; [exact Hv| | | | |exact H];
    change (timedelta_hours 1) with (mkdelta 0 3600 0); simpl; lia.
Qed.

Lemma weekday_range d : 0 <= weekday d < 7.
Proof. unfold weekday. apply Z.mod_pos_bound. lia. Qed.

Lemma datetime_now_run s :
  datetime_now s = (Ok (clock s (ticks s)), with_ticks (S (ticks s)) s).
Proof. reflexivity. Qed.

(** A time of day without seconds survives the trip through seconds. *)
Lemma time_of_seconds_of_time t :
  valid_time t -> second t = 0 -> microsecond t = 0 ->
  time_of_seconds (seconds_of_time t mod 86400) 0 = t.
Proof.
  intros Hv Hs Hu. destruct t as [h m sec us]; simpl in *. subst.
  unfold valid_time in Hv; simpl in Hv.
  unfold time_of_seconds, seconds_of_time; simpl.
  rewrite (Z.mod_small ((h * 60 + m) * 60 + 0) 86400) by lia.
  f_equal; Z.div_mod_to_equations; lia.
Qed.

(** Whole days added to a time of day without seconds: the date moves,
    the time of day stays. *)
Lemma combine_add_days d t n :
  valid_time t -> second t = 0 -> microsecond t = 0 -> 0 <= n ->
  datetime_add (combine d t) (timedelta_days n) =
  option_map (fun d' => combine d' t) (add_days d (Z.to_nat n)).
Proof.
  intros Hv Hs Hu Hn. unfold datetime_add, timedelta_days; simpl.
  pose proof (seconds_of_time_bounds _ Hv) as Hb.
  rewrite Hu. simpl. rewrite !Z.add_0_r.
  rewrite (Z.div_small (seconds_of_time t) 86400) by lia.
  rewrite Z.add_0_r.
  destruct (add_days d (Z.to_nat n)) as [d'|]; simpl; [|reflexivity].
  rewrite time_of_seconds_of_time by assumption. reflexivity.
Qed.

(** Moving the time of day of [x] to [t] and then forward by whole days
    gives an instant after [x]. *)
Lemma combine_days_later x t n r :
  valid_datetime x -> valid_time t -> 0 < n ->
  datetime_add (combine (date_of x) t) (timedelta_days n) = Some r ->
  datetime_lt x r.
Proof.
  intros [Hd Ht] Hvt Hn H. unfold datetime_add in H.
  pose proof (seconds_of_time_bounds _ Hvt) as Hs.
  assert (Hu : 0 <= microsecond t < 1000000) by apply Hvt.
  match type of H with
  | context [add_days ?a (Z.to_nat ?b)] =>
      destruct (add_days a (Z.to_nat b)) as [d|] eqn:E; [|discriminate];
      assert (Hb : 0 < b)
  end.
  { simpl. Z.div_mod_to_equations. lia. }
  inversion H; subst r. left. simpl.
  eapply add_days_spec; [exact Hd|exact E|lia].
Qed.

Lemma first_of_next_month_after x t r :
  valid_datetime x ->
  datetime_first_of_month
    (if month (date_of x) <? 12 then year (date_of x) else year (date_of x) + 1)
    (if month (date_of x) <? 12 then month (date_of x) + 1 else 1) t = Some r ->
  datetime_lt x r.
Proof.
  intros [Hd _] H. unfold datetime_first_of_month in H.
  destruct (_ && _); [|discriminate]. inversion H; subst r. left. simpl.
  unfold date_lt; simpl. destruct (Z.ltb_spec (month (date_of x)) 12); lia.
Qed.

(** The [try] block reads the clock once and does nothing else to the
    scheduler, whether it returns or raises. *)
Lemma next_run_try_state task s x s1 :
  next_run_try task s = (x, s1) -> s1 = with_ticks (S (ticks s)) s.
Proof.
  unfold next_run_try, bind. rewrite datetime_now_run.
  destruct (frequency task); unfold or_raise, ret, raise;
    repeat match goal with
    | |- context [match ?o with Some _ => _ | None => _ end] => destruct o
    | |- context [if ?b then _ else _] => destruct b
    end; intros H; inversion H; reflexivity.
Qed.

(** What the [try] block returns lies after the reading. *)
Lemma next_run_try_after task s r s1 :
  clock_ok (clock s) ->
  next_run_try task s = (Ok r, s1) ->
  datetime_lt (clock s (ticks s)) r.
Proof.
  intros [Hv Hm] H. unfold next_run_try in H.
  apply bind_ok_inv in H. destruct H as (now & s2 & H1 & H).
  rewrite datetime_now_run in H1. inversion H1; subst; clear H1.
  destruct (frequency task).
  - apply or_raise_ok_inv in H. destruct H as [H _].
    eapply one_hour_later; eauto.
  - apply bind_ok_inv in H. destruct H as (t & s2 & H1 & H).
    apply or_raise_ok_inv in H1. destruct H1 as [H1 ->].
    apply strptime_HM_valid in H1. destruct H1 as (Hvt & _).
    destruct (datetime_leb _ _) eqn:E.
    + apply or_raise_ok_inv in H. destruct H as [H _].
      eapply combine_days_later; [apply Hv|exact Hvt| |exact H]. lia.
    + inversion H; subst. apply datetime_leb_false in E. exact E.
  - apply bind_ok_inv in H. destruct H as (t & s2 & H1 & H).
    apply or_raise_ok_inv in H1. destruct H1 as [H1 ->].
    apply strptime_HM_valid in H1. destruct H1 as (Hvt & _).
    apply or_raise_ok_inv in H. destruct H as [H _].
    eapply combine_days_later; [apply Hv|exact Hvt| |exact H].
    pose proof (weekday_range (date_of (clock s (ticks s)))). lia.
  - apply bind_ok_inv in H. destruct H as (t & s2 & H1 & H).
    apply or_raise_ok_inv in H1. destruct H1 as [H1 ->].
    apply or_raise_ok_inv in H. destruct H as [H _].
    eapply first_of_next_month_after; [apply Hv|exact H].
  - apply or_raise_ok_inv in H. destruct H as [H _].
    eapply five_minutes_later; eauto.
Qed.

(** What the [except] block returns lies after every earlier reading. *)
Lemma next_run_except_after s r s' n :
  clock_ok (clock s) -> (n <= ticks s)%nat ->
  next_run_except s = (Ok r, s') ->
  datetime_lt (clock s n) r.
Proof.
  intros [Hv Hm] Hn H. unfold next_run_except in H.
  apply bind_ok_inv in H. destruct H as (now & s1 & H1 & H2).
  rewrite datetime_now_run in H1. inversion H1; subst; clear H1.
  apply or_raise_ok_inv in H2. destruct H2 as [H2 _].
  eapply datetime_le_lt_trans; [apply (Hm n (ticks s)); lia|].
  eapply five_minutes_later; eauto.
Qed.

Lemma next_run_except_some s :
  clock_ok (clock s) -> year (date_of (clock s (ticks s))) < MAXYEAR ->
  exists r, next_run_except s = (Ok r, with_ticks (S (ticks s)) s).
Proof.
  intros [Hv Hm] Hy.
  destruct (datetime_add_some (clock s (ticks s)) (timedelta_minutes 5))
    as [r E]; try (apply Hv || assumption);
    try (change (timedelta_minutes 5) with (mkdelta 0 300 0); simpl; lia).
  exists r. unfold next_run_except, bind. rewrite datetime_now_run.
  simpl. rewrite E. reflexivity.
Qed.

(** Whatever the task, a next run that is returned lies strictly after
    the first reading of the clock. *)
Lemma calculate_next_run_after task s r s' :
  clock_ok (clock s) ->
  _calculate_next_run task s = (Ok r, s') ->
  datetime_lt (clock s (ticks s)) r.
Proof.
  intros Hok H. unfold _calculate_next_run in H.
  apply try_except_inv in H. destruct H as [(a & H & Ha)|(e & s1 & H & Hh)].
  - inversion Ha; subst a. eapply next_run_try_after; eauto.
  - apply next_run_try_state in H. subst s1.
    eapply next_run_except_after in Hh; [exact Hh|exact Hok|simpl; lia].
Qed.

(** Before the last year of the calendar a next run is always returned. *)
Lemma calculate_next_run_some task s :
  clock_ok (clock s) -> year (date_of (clock s (S (ticks s)))) < MAXYEAR ->
  exists r s', _calculate_next_run task s = (Ok r, s') /\
    clock s' = clock s /\ (ticks s < ticks s' <= ticks s + 2)%nat /\
    scheduled_tasks s' = scheduled_tasks s /\ jobs s' = jobs s /\
    db s' = db s /\ running s' = running s.
Proof.
  intros Hok Hy. unfold _calculate_next_run, try_except.
  destruct (next_run_try task s) as [[r|e] s1] eqn:E;
    pose proof (next_run_try_state _ _ _ _ E) as ->.
  - exists r. eexists. split; [reflexivity|]. simpl. repeat split; lia.
  - destruct (next_run_except_some (with_ticks (S (ticks s)) s) Hok Hy) as [r Hr].
    rewrite Hr. exists r. eexists. split; [reflexivity|]. simpl. repeat split; lia.
Qed.

(** C1.  For every frequency kind and every schedule-spec that passes
    validation, the next run computed by the trigger strategy lies
    strictly after the instant [now] read from the clock at the start of
    the computation; and the computation does return a next run as long as
    the clock has not reached the last year of the calendar. *)
Theorem next_run_strictly_after_now task s :
  clock_ok (clock s) ->
  _validate_schedule_time (schedule_time task) (frequency task) = true ->
  (forall r s', _calculate_next_run task s = (Ok r, s') ->
                datetime_lt (clock s (ticks s)) r) /\
  (year (date_of (clock s (S (ticks s)))) < MAXYEAR ->
   exists r s', _calculate_next_run task s = (Ok r, s') /\
                datetime_lt (clock s (ticks s)) r).
Proof.
  intros Hok _. split.
  - intros r s' H. eapply calculate_next_run_after; eauto.
  - intros Hy. destruct (calculate_next_run_some task s Hok Hy) as (r & s' & H & _).
    exists r, s'. split; [exact H|]. eapply calculate_next_run_after; eauto.
Qed.

End TriggerFacts.

Section TriggerCases.

Lemma datetime_ltb_negb_leb a b : datetime_ltb a b = negb (datetime_leb b a).
Proof.
  destruct (datetime_leb b a) eqn:E; simpl.
  - destruct (datetime_ltb a b) eqn:L; [|reflexivity].
    apply datetime_ltb_lt in L. apply datetime_leb_le in E.
    exfalso. eapply datetime_lt_irrefl. eapply datetime_le_lt_trans; eauto.
  - apply datetime_ltb_lt. apply datetime_leb_false. exact E.
Qed.

Lemma next_day_some d :
  valid_date d -> year d < MAXYEAR -> exists d', next_day d = Some d'.
Proof.
  intros Hv Hy.
  destruct (add_days_some_before_last_year d 1 Hv Hy) as [d' H]; [lia|].
  simpl in H. destruct (next_day d) as [x|]; [eauto|discriminate].
Qed.

(** The daily case of the trigger strategy. *)
Lemma daily_next_run_value task s t :
  valid_datetime (clock s (ticks s)) ->
  frequency task = ScheduleFrequency.DAILY ->
  strptime_HM (schedule_time task) = Some t ->
  year (date_of (clock s (ticks s))) < MAXYEAR ->
  exists tomorrow,
    next_day (date_of (clock s (ticks s))) = Some tomorrow /\
    _calculate_next_run task s =
      (Ok (if datetime_ltb (clock s (ticks s))
                (combine (date_of (clock s (ticks s))) t)
           then combine (date_of (clock s (ticks s))) t
           else combine tomorrow t),
       with_ticks (S (ticks s)) s).
Proof.
  intros Hv Hf Ht Hy.
  destruct (next_day_some (date_of (clock s (ticks s)))) as [d' Hd'];
    [apply Hv|exact Hy|].
  exists d'. split; [exact Hd'|].
  destruct (strptime_HM_valid _ _ Ht) as (Hvt & Hs & Hu).
  unfold _calculate_next_run, next_run_try.
  erewrite try_except_ok; [reflexivity|].
  unfold bind. rewrite datetime_now_run, Hf, Ht. simpl.
  rewrite datetime_ltb_negb_leb.
  destruct (datetime_leb _ _); simpl; [|reflexivity].
  rewrite combine_add_days by (assumption || lia).
  simpl. rewrite Hd'. reflexivity.
Qed.

(** C4.  For a DAILY task whose schedule-spec [strptime] reads as the
    time of day [t], the trigger strategy returns [t] on the current date
    when that is strictly after now, and [t] on the following date
    otherwise.  With schedule-spec "02:00" and now = 2024-01-01T03:00:00
    the result is 2024-01-02T02:00:00. *)
Theorem daily_next_run task s t :
  valid_datetime (clock s (ticks s)) ->
  frequency task = ScheduleFrequency.DAILY ->
  strptime_HM (schedule_time task) = Some t ->
  year (date_of (clock s (ticks s))) < MAXYEAR ->
  (exists tomorrow,
     next_day (date_of (clock s (ticks s))) = Some tomorrow /\
     _calculate_next_run task s =
       (Ok (if datetime_ltb (clock s (ticks s))
                 (combine (date_of (clock s (ticks s))) t)
            then combine (date_of (clock s (ticks s))) t
            else combine tomorrow t),
        with_ticks (S (ticks s)) s)) /\
  (schedule_time task = "02:00" ->
   clock s (ticks s) = combine (mkdate 2024 1 1) (mktime 3 0 0 0) ->
   fst (_calculate_next_run task s) =
     Ok (combine (mkdate 2024 1 2) (mktime 2 0 0 0))).
Proof.
  intros Hok Hf Ht Hy. split.
  - apply daily_next_run_value; assumption.
  - intros Hspec Hnow.
    destruct (daily_next_run_value task s t Hok Hf Ht Hy) as (d' & Hd' & H).
    rewrite H. simpl. rewrite Hspec in Ht. rewrite Hnow in *.
    vm_compute in Ht. inversion Ht; subst t.
    vm_compute in Hd'. inversion Hd'; subst d'.
    reflexivity.
Qed.

Lemma clock_ok_const now :
  valid_datetime now -> clock_ok (fun _ => now).
Proof. intros H. split; [intros _; exact H|intros _ _ _; right; reflexivity]. Defined.

Lemma daily_next_run_witness :
  valid_datetime (clock (scheduler_at (at_time 2024 1 1 3 0) []) O) /\
  strptime_HM "02:00" = Some (mktime 2 0 0 0) /\
  fst (_calculate_next_run
         (new_task "daily_backup" TaskType.BACKUP ScheduleFrequency.DAILY "02:00")
         (scheduler_at (at_time 2024 1 1 3 0) [])) =
    Ok (at_time 2024 1 2 2 0).
Proof.
  assert (Hv : valid_datetime (clock (scheduler_at (at_time 2024 1 1 3 0) []) O)).
  { vm_compute. intuition discriminate. }
  split; [exact Hv|]. split; [reflexivity|].
  refine (proj2 (daily_next_run
           (new_task "daily_backup" TaskType.BACKUP ScheduleFrequency.DAILY "02:00")
           (scheduler_at (at_time 2024 1 1 3 0) []) (mktime 2 0 0 0)
           Hv _ _ _) _ _); try reflexivity.
Defined.

Lemma next_run_strictly_after_now_witness :
  clock_ok (clock (scheduler_at (at_time 2024 3 1 10 15) [])) /\
  _validate_schedule_time "04:00" ScheduleFrequency.WEEKLY = true /\
  exists r s',
    _calculate_next_run
      (new_task "weekly_cleanup" TaskType.CLEANUP ScheduleFrequency.WEEKLY "04:00")
      (scheduler_at (at_time 2024 3 1 10 15) []) = (Ok r, s') /\
    datetime_lt (at_time 2024 3 1 10 15) r.
Proof.
  assert (Hok : clock_ok (clock (scheduler_at (at_time 2024 3 1 10 15) []))).
  { apply (clock_ok_const (at_time 2024 3 1 10 15)). vm_compute. intuition discriminate. }
  split; [exact Hok|]. split; [reflexivity|].
  refine (proj2 (next_run_strictly_after_now
           (new_task "weekly_cleanup" TaskType.CLEANUP ScheduleFrequency.WEEKLY "04:00")
           (scheduler_at (at_time 2024 3 1 10 15) []) Hok _) _);
    [reflexivity|vm_compute; reflexivity].
Defined.

(** The hourly case: one hour after now. *)
Example hourly_next_run :
  fst (_calculate_next_run
         (new_task "hourly_collection" TaskType.COLLECT_LINKS
            ScheduleFrequency.HOURLY "00:00")
         (scheduler_at (at_time 2024 3 1 10 15) [])) =
    Ok (at_time 2024 3 1 11 15).
Proof. vm_compute. reflexivity. Qed.

(** The monthly case: the time of day on the first day of the next
    month, the year rolling over in December. *)
Example monthly_next_run :
  fst (_calculate_next_run
         (new_task "report" TaskType.BACKUP ScheduleFrequency.MONTHLY "06:30")
         (scheduler_at (at_time 2024 12 17 10 15) [])) =
    Ok (at_time 2025 1 1 6 30).
Proof. vm_compute. reflexivity. Qed.

End TriggerCases.

Section WeeklyFacts.

Lemma add_days_weekday d n d' :
  valid_date d -> add_days d n = Some d' ->
  weekday d' = (weekday d + Z.of_nat n) mod 7.
Proof.
  intros Hv H. destruct (add_days_spec _ _ _ Hv H) as (_ & Hord & _).
  unfold weekday. rewrite Hord.
  rewrite Zplus_mod_idemp_l. f_equal. lia.
Qed.

(** The weekly case of the trigger strategy, as the code computes it: the
    time of day [t] on the date [7 - weekday] days after the current
    date, which is a Monday. *)
Lemma weekly_next_run_value task s t :
  valid_datetime (clock s (ticks s)) ->
  frequency task = ScheduleFrequency.WEEKLY ->
  strptime_HM (schedule_time task) = Some t ->
  year (date_of (clock s (ticks s))) < MAXYEAR ->
  exists d,
    add_days (date_of (clock s (ticks s)))
      (Z.to_nat (7 - weekday (date_of (clock s (ticks s))))) = Some d /\
    weekday d = 0 /\
    _calculate_next_run task s = (Ok (combine d t), with_ticks (S (ticks s)) s).
Proof.
  intros Hv Hf Ht Hy.
  set (today := date_of (clock s (ticks s))) in *.
  pose proof (weekday_range today) as Hw.
  assert (Hvd : valid_date today) by apply Hv.
  destruct (add_days_some_before_last_year today (Z.to_nat (7 - weekday today))
              Hvd Hy) as [d Hd]; [lia|].
  exists d. split; [exact Hd|]. split.
  - rewrite (add_days_weekday _ _ _ Hvd Hd).
    rewrite Z2Nat.id by lia.
    replace (weekday today + (7 - weekday today)) with 7 by lia. reflexivity.
  - destruct (strptime_HM_valid _ _ Ht) as (Hvt & Hs & Hu).
    unfold _calculate_next_run, next_run_try.
    erewrite try_except_ok; [reflexivity|].
    unfold bind. rewrite datetime_now_run, Hf, Ht. simpl.
    fold today. rewrite combine_add_days by (assumption || lia).
    rewrite Hd. reflexivity.
Qed.

(** C5, as amended.  For a WEEKLY task whose schedule-spec [strptime]
    reads as the time of day [t], the trigger strategy returns [t] on the
    next Monday: the task record carries no anchor weekday of its own, the
    target weekday is always Monday, reached by adding [7 - weekday] days
    to the current date.  When the current date is not a Monday this is
    the first Monday after it; on a Monday at or after [t] it is the
    Monday one week later.  In both cases it is the trigger described by
    the design, with Monday as the anchor.  The statement leaves out the
    evaluation on a Monday before [t]. *)
Theorem weekly_next_run_monday task s t :
  valid_datetime (clock s (ticks s)) ->
  frequency task = ScheduleFrequency.WEEKLY ->
  strptime_HM (schedule_time task) = Some t ->
  year (date_of (clock s (ticks s))) < MAXYEAR ->
  weekday (date_of (clock s (ticks s))) <> 0 \/
    datetime_le (combine (date_of (clock s (ticks s))) t) (clock s (ticks s)) ->
  exists d,
    add_days (date_of (clock s (ticks s)))
      (Z.to_nat (7 - weekday (date_of (clock s (ticks s))))) = Some d /\
    weekday d = 0 /\
    weekly_as_described 0 t (clock s (ticks s)) = Some (combine d t) /\
    _calculate_next_run task s = (Ok (combine d t), with_ticks (S (ticks s)) s).
Proof.
  intros Hok Hf Ht Hy Hslip.
  destruct (weekly_next_run_value task s t Hok Hf Ht Hy) as (d & Hd & Hw & H).
  exists d. split; [exact Hd|]. split; [exact Hw|]. split; [|exact H].
  pose proof Hok as Hv.
  set (now := clock s (ticks s)) in *.
  set (today := date_of now) in *.
  assert (Hvd : valid_date today) by apply Hv.
  pose proof (weekday_range today) as Hr.
  destruct (strptime_HM_valid _ _ Ht) as (Hvt & Hs & Hu).
  unfold weekly_as_described. fold today.
  destruct (Z.eq_dec (weekday today) 0) as [E|E].
  - replace ((0 - weekday today) mod 7) with 0 by (rewrite E; reflexivity).
    replace (add_days today (Z.to_nat 0)) with (Some today) by reflexivity.
    destruct (datetime_ltb now (combine today t)) eqn:L.
    + exfalso. destruct Hslip as [Hslip|Hslip]; [congruence|].
      apply datetime_ltb_lt in L.
      eapply datetime_lt_irrefl. eapply datetime_le_lt_trans; eauto.
    + rewrite combine_add_days by (assumption || lia).
      replace (7 - weekday today) with 7 in Hd by lia.
      rewrite Hd. reflexivity.
  - replace ((0 - weekday today) mod 7) with (7 - weekday today)
      by (Z.div_mod_to_equations; lia).
    rewrite Hd.
    assert (L : datetime_ltb now (combine d t) = true).
    { apply datetime_ltb_lt. left. simpl. fold today.
      eapply add_days_spec; [exact Hvd|exact Hd|lia]. }
    rewrite L. reflexivity.
Qed.

(** On a Monday before the time of day, the code returns the Monday of
    the following week. *)
Lemma weekly_on_monday_before_time :
  fst (_calculate_next_run
         (new_task "weekly_cleanup" TaskType.CLEANUP ScheduleFrequency.WEEKLY "04:00")
         (scheduler_at (at_time 2024 1 1 3 0) [])) =
    Ok (at_time 2024 1 8 4 0).
Proof. vm_compute. reflexivity. Qed.

(** C5, counterexample.  On Monday 2024-01-01 at 03:00 a WEEKLY task with
    schedule-spec "04:00" is given 2024-01-08T04:00 as its next run;
    whatever weekday is taken as the anchor, the trigger described by the
    design gives another instant (with Monday as the anchor,
    2024-01-01T04:00). *)
Lemma weekly_anchor_counterexample :
  weekday (mkdate 2024 1 1) = 0 /\
  fst (_calculate_next_run
         (new_task "weekly_cleanup" TaskType.CLEANUP ScheduleFrequency.WEEKLY "04:00")
         (scheduler_at (at_time 2024 1 1 3 0) [])) =
    Ok (at_time 2024 1 8 4 0) /\
  weekly_as_described 0 (mktime 4 0 0 0) (at_time 2024 1 1 3 0) =
    Some (at_time 2024 1 1 4 0) /\
  forall anchor, 0 <= anchor < 7 ->
    weekly_as_described anchor (mktime 4 0 0 0) (at_time 2024 1 1 3 0) <>
      Some (at_time 2024 1 8 4 0).
Proof.
  split; [reflexivity|]. split; [vm_compute; reflexivity|].
  split; [vm_compute; reflexivity|].
  intros anchor Ha.
  assert (H : anchor = 0 \/ anchor = 1 \/ anchor = 2 \/ anchor = 3 \/
              anchor = 4 \/ anchor = 5 \/ anchor = 6) by lia.
  repeat (destruct H as [->|H]; [vm_compute; discriminate|]).
  subst. vm_compute. discriminate.
Qed.

Lemma weekly_next_run_monday_witness :
  valid_datetime (clock (scheduler_at (at_time 2024 1 3 10 15) []) O) /\
  (weekday (mkdate 2024 1 3) <> 0 \/
   datetime_le (at_time 2024 1 3 4 0) (at_time 2024 1 3 10 15)) /\
  weekly_as_described 0 (mktime 4 0 0 0) (at_time 2024 1 3 10 15) =
    Some (at_time 2024 1 8 4 0) /\
  _calculate_next_run
    (new_task "weekly_cleanup" TaskType.CLEANUP ScheduleFrequency.WEEKLY "04:00")
    (scheduler_at (at_time 2024 1 3 10 15) []) =
  (Ok (at_time 2024 1 8 4 0), with_ticks 1 (scheduler_at (at_time 2024 1 3 10 15) [])).
Proof.
  assert (Hok : valid_datetime (clock (scheduler_at (at_time 2024 1 3 10 15) []) O)).
  { vm_compute. intuition discriminate. }
  assert (Hslip : weekday (mkdate 2024 1 3) <> 0 \/
                  datetime_le (at_time 2024 1 3 4 0) (at_time 2024 1 3 10 15)).
  { left. vm_compute. discriminate. }
  split; [exact Hok|]. split; [exact Hslip|].
  destruct (weekly_next_run_monday
           (new_task "weekly_cleanup" TaskType.CLEANUP ScheduleFrequency.WEEKLY "04:00")
           (scheduler_at (at_time 2024 1 3 10 15) []) (mktime 4 0 0 0)
           Hok eq_refl eq_refl ltac:(vm_compute; reflexivity) Hslip)
    as (d & Hd & _ & Hw & Hc).
  vm_compute in Hd. inversion Hd; subst d. split; [exact Hw|exact Hc].
Defined.

End WeeklyFacts.

(** ** Validation of the schedule-spec *)

Section ValidationFacts.

Lemma split_no_separator c s :
  PyStr.contains c s = false -> PyStr.split c s = [s].
Proof.
  induction s as [|x r IH]; simpl; [reflexivity|].
  destruct (Ascii.eqb x c); [discriminate|].
  intros H. rewrite (IH H). reflexivity.
Qed.

Lemma split_two_contains c s a b :
  PyStr.split c s = [a; b] -> PyStr.contains c s = true.
Proof.
  intros H. destruct (PyStr.contains c s) eqn:E; [reflexivity|].
  rewrite (split_no_separator _ _ E) in H. discriminate.
Qed.

Lemma validate_time_iff spec f :
  f <> ScheduleFrequency.CUSTOM ->
  _validate_schedule_time spec f = true <->
  exists a b h m,
    PyStr.split ":" spec = [a; b] /\ PyStr.int a = Some h /\
    PyStr.int b = Some m /\ 0 <= h < 24 /\ 0 <= m < 60.
Proof.
  intros Hf.
  assert (E : _validate_schedule_time spec f =
    if PyStr.contains ":" spec then
      match map PyStr.int (PyStr.split ":" spec) with
      | [Some hours; Some minutes] =>
          (0 <=? hours) && (hours <? 24) && (0 <=? minutes) && (minutes <? 60)
      | _ => false
      end
    else false) by (destruct f; [reflexivity..|congruence]).
  rewrite E. clear E. split.
  - destruct (PyStr.contains ":" spec); [|discriminate].
    destruct (PyStr.split ":" spec) as [|a [|b [|c l]]]; simpl; try discriminate;
      destruct (PyStr.int a) as [h|] eqn:Ea; simpl; try discriminate;
      destruct (PyStr.int b) as [m|] eqn:Eb; simpl; try discriminate.
    intros H. exists a, b, h, m.
    rewrite !andb_true_iff, !Z.leb_le, !Z.ltb_lt in H.
    repeat split; try reflexivity; try assumption; lia.
  - intros (a & b & h & m & Hs & Ha & Hb & Hh & Hm).
    rewrite (split_two_contains _ _ _ _ Hs), Hs. simpl. rewrite Ha, Hb.
    rewrite !andb_true_iff, !Z.leb_le, !Z.ltb_lt. lia.
Qed.

Lemma ScheduleFrequency_eq_dec (a b : ScheduleFrequency.t) : {a = b} + {a <> b}.
Proof. decide equality. Qed.

Lemma digit_not_space c : PyStr.is_digit c = true -> PyStr.is_space c = false.
Proof.
  unfold PyStr.is_digit, PyStr.is_space. intros H.
  apply andb_true_iff in H. destruct H as [H1 H2]. apply Z.leb_le in H1, H2.
  apply orb_false_iff. split.
  - apply andb_false_iff. right. apply Z.leb_gt. lia.
  - apply Z.eqb_neq. lia.
Qed.

Lemma digit_not_char c x :
  PyStr.is_digit c = true -> (PyStr.ord x < 48 \/ 57 < PyStr.ord x) ->
  Ascii.eqb c x = false.
Proof.
  unfold PyStr.is_digit. intros H Hx.
  apply andb_true_iff in H. destruct H as [H1 H2]. apply Z.leb_le in H1, H2.
  destruct (Ascii.eqb c x) eqn:E; [|reflexivity].
  apply Ascii.eqb_eq in E. subst x. lia.
Qed.

Lemma int_one_digit c :
  PyStr.is_digit c = true ->
  PyStr.int (String c EmptyString) = Some (PyStr.digit_val c).
Proof.
  intros H. unfold PyStr.int. simpl PyStr.lstrip.
  rewrite (digit_not_space _ H).
  rewrite (digit_not_char c "+" H) by (vm_compute; first [left; reflexivity|right; reflexivity]).
  rewrite (digit_not_char c "-" H) by (vm_compute; first [left; reflexivity|right; reflexivity]).
  rewrite H. simpl. rewrite H. simpl. f_equal. lia.
Qed.

Lemma int_two_digits c1 c2 :
  PyStr.is_digit c1 = true -> PyStr.is_digit c2 = true ->
  PyStr.int (String c1 (String c2 EmptyString)) =
  Some (10 * PyStr.digit_val c1 + PyStr.digit_val c2).
Proof.
  intros H1 H2. unfold PyStr.int. simpl PyStr.lstrip.
  rewrite (digit_not_space _ H1).
  rewrite (digit_not_char c1 "+" H1) by (vm_compute; first [left; reflexivity|right; reflexivity]).
  rewrite (digit_not_char c1 "-" H1) by (vm_compute; first [left; reflexivity|right; reflexivity]).
  rewrite H1. simpl. rewrite H2. simpl. rewrite H1. simpl. f_equal. lia.
Qed.

Lemma in_range_digit lo hi c :
  48 <= PyStr.ord lo -> PyStr.ord hi <= 57 ->
  PyStr.in_range lo hi c = true -> PyStr.is_digit c = true.
Proof.
  unfold PyStr.in_range, PyStr.is_digit. intros Hlo Hhi H.
  apply andb_true_iff in H. destruct H as [H1 H2]. apply Z.leb_le in H1, H2.
  apply andb_true_iff. split; apply Z.leb_le; lia.
Qed.

Lemma two_digit_hour_digits c1 c2 :
  two_digit_hour c1 c2 = true ->
  PyStr.is_digit c1 = true /\ PyStr.is_digit c2 = true.
Proof.
  unfold two_digit_hour. intros H. apply orb_true_iff in H.
  destruct H as [H|H]; apply andb_true_iff in H; destruct H as [H1 H2].
  - apply Ascii.eqb_eq in H1. subst c1. split; [reflexivity|].
    eapply in_range_digit; [| |exact H2]; vm_compute; discriminate.
  - split; [|exact H2].
    eapply in_range_digit; [| |exact H1]; vm_compute; discriminate.
Qed.

(** The minute field and what is left of the text, as [split] and [int]
    see them. *)
Lemma match_minute_int s m :
  match_minute s = Some (m, EmptyString) ->
  PyStr.contains ":" s = false /\ PyStr.int s = Some m.
Proof.
  unfold match_minute. intros H.
  destruct s as [|c1 [|c2 r2]]; [discriminate| |].
  - destruct (PyStr.is_digit c1) eqn:D; [|discriminate].
    inversion H; subst. split; [|apply int_one_digit; exact D].
    simpl. rewrite (digit_not_char c1 ":" D) by (vm_compute; first [left; reflexivity|right; reflexivity]).
    reflexivity.
  - destruct (PyStr.in_range "0" "5" c1 && PyStr.is_digit c2) eqn:D.
    + inversion H; subst. apply andb_true_iff in D. destruct D as [D1 D2].
      assert (D1' : PyStr.is_digit c1 = true).
      { eapply in_range_digit; [| |exact D1]; vm_compute; discriminate. }
      split; [|apply int_two_digits; assumption].
      simpl.
      rewrite (digit_not_char c1 ":" D1') by (vm_compute; first [left; reflexivity|right; reflexivity]).
      rewrite (digit_not_char c2 ":" D2) by (vm_compute; first [left; reflexivity|right; reflexivity]).
      reflexivity.
    + destruct (PyStr.is_digit c1); discriminate.
Qed.

(** Every schedule-spec that [strptime] reads as a time of day passes the
    validation of the kinds other than CUSTOM. *)
Lemma strptime_passes_validation spec t f :
  strptime_HM spec = Some t -> _validate_schedule_time spec f = true.
Proof.
  intros H. destruct (ScheduleFrequency_eq_dec f ScheduleFrequency.CUSTOM) as [->|Hf];
    [reflexivity|].
  apply validate_time_iff; [exact Hf|].
  unfold strptime_HM in H.
  destruct (match_hour_minute spec) as [[[h m] rest]|] eqn:E; [|discriminate].
  destruct rest; [|discriminate]. inversion H; subst t; clear H.
  pose proof (match_hour_minute_range _ _ _ _ E) as [Hh Hm].
  unfold match_hour_minute in E.
  destruct spec as [|c1 [|c2 r2]]; try discriminate.
  destruct (Ascii.eqb c2 ":") eqn:Ec.
  - apply Ascii.eqb_eq in Ec. subst c2.
    destruct (PyStr.is_digit c1) eqn:D; [|discriminate].
    destruct (match_minute r2) as [[m' rest']|] eqn:Em; [|discriminate].
    inversion E; subst. apply match_minute_int in Em. destruct Em as [Hc Hi].
    exists (String c1 EmptyString), r2, (PyStr.digit_val c1), m.
    split; [|split; [apply int_one_digit; exact D|split; [exact Hi|lia]]].
    simpl. rewrite (digit_not_char c1 ":" D) by (vm_compute; first [left; reflexivity|right; reflexivity]).
    rewrite (split_no_separator _ _ Hc). reflexivity.
  - destruct r2 as [|c3 r3]; [discriminate|].
    destruct (Ascii.eqb c3 ":" && two_digit_hour c1 c2) eqn:D; [|discriminate].
    apply andb_true_iff in D. destruct D as [D3 D].
    apply Ascii.eqb_eq in D3. subst c3.
    destruct (two_digit_hour_digits _ _ D) as [D1 D2].
    destruct (match_minute r3) as [[m' rest']|] eqn:Em; [|discriminate].
    inversion E; subst. apply match_minute_int in Em. destruct Em as [Hc Hi].
    exists (String c1 (String c2 EmptyString)), r3,
      (10 * PyStr.digit_val c1 + PyStr.digit_val c2), m.
    split; [|split; [apply int_two_digits; assumption|split; [exact Hi|lia]]].
    simpl. rewrite (digit_not_char c1 ":" D1) by (vm_compute; first [left; reflexivity|right; reflexivity]).
    rewrite Ec. rewrite (split_no_separator _ _ Hc). reflexivity.
Qed.

Lemma schedule_task_rejected crontab_ok task s :
  _validate_schedule_time (schedule_time task) (frequency task) = false ->
  schedule_task crontab_ok task s = (Ok false, s).
Proof.
  intros H. unfold schedule_task, try_except. rewrite H. reflexivity.
Qed.

(** C6, as amended.  At validation time a CUSTOM schedule-spec is always
    accepted: the cron-like expression is not examined.  For the other
    kinds the spec is accepted exactly when it splits at the colon into
    two parts that [int()] reads as an hour in 0..23 and a minute in
    0..59; every time of day that [strptime] reads is among them.  A task
    whose schedule-spec fails validation is refused: the scheduling call
    returns failure and changes nothing, so the task does not enter the
    registry. *)
Theorem schedule_spec_validation crontab_ok task s :
  (frequency task = ScheduleFrequency.CUSTOM ->
   _validate_schedule_time (schedule_time task) (frequency task) = true) /\
  (frequency task <> ScheduleFrequency.CUSTOM ->
   (_validate_schedule_time (schedule_time task) (frequency task) = true <->
    exists a b h m,
      PyStr.split ":" (schedule_time task) = [a; b] /\ PyStr.int a = Some h /\
      PyStr.int b = Some m /\ 0 <= h < 24 /\ 0 <= m < 60)) /\
  (forall t, strptime_HM (schedule_time task) = Some t ->
   _validate_schedule_time (schedule_time task) (frequency task) = true) /\
  (_validate_schedule_time (schedule_time task) (frequency task) = false ->
   schedule_task crontab_ok task s = (Ok false, s)).
Proof.
  split; [|split; [|split]].
  - intros ->. reflexivity.
  - apply validate_time_iff.
  - intros t. apply strptime_passes_validation.
  - apply schedule_task_rejected.
Qed.

Lemma schedule_spec_validation_witness :
  _validate_schedule_time "*/60" ScheduleFrequency.HOURLY = false /\
  schedule_task five_fields
    (new_task "hourly_collection" TaskType.COLLECT_LINKS ScheduleFrequency.HOURLY "*/60")
    (scheduler_at (at_time 2024 3 1 10 15) []) =
  (Ok false, scheduler_at (at_time 2024 3 1 10 15) []).
Proof.
  split; [reflexivity|].
  refine (proj2 (proj2 (proj2 (schedule_spec_validation five_fields
    (new_task "hourly_collection" TaskType.COLLECT_LINKS ScheduleFrequency.HOURLY "*/60")
    (scheduler_at (at_time 2024 3 1 10 15) [])))) _).
  reflexivity.
Defined.

(** C6, counterexample.  The text "not a cron" is no cron expression (it
    has three fields), yet as the schedule-spec of a CUSTOM task it passes
    validation and the task enters the registry, without a timer.  The
    text " +2 : 5_9 " is not a time of day that [strptime] reads, yet it
    passes validation for a DAILY task. *)
Lemma malformed_spec_accepted :
  five_fields "not a cron" = false /\
  _validate_schedule_time "not a cron" ScheduleFrequency.CUSTOM = true /\
  fst (schedule_task five_fields
         (new_task "t" TaskType.CUSTOM ScheduleFrequency.CUSTOM "not a cron")
         (scheduler_at (at_time 2024 3 1 10 15) [])) = Ok true /\
  dict_get "t"
    (scheduled_tasks
       (snd (schedule_task five_fields
               (new_task "t" TaskType.CUSTOM ScheduleFrequency.CUSTOM "not a cron")
               (scheduler_at (at_time 2024 3 1 10 15) [])))) =
    Some (set_next_run (Some (at_time 2024 3 1 10 20))
            (new_task "t" TaskType.CUSTOM ScheduleFrequency.CUSTOM "not a cron")) /\
  jobs (snd (schedule_task five_fields
               (new_task "t" TaskType.CUSTOM ScheduleFrequency.CUSTOM "not a cron")
               (scheduler_at (at_time 2024 3 1 10 15) []))) = [] /\
  strptime_HM " +2 : 5_9 " = None /\
  _validate_schedule_time " +2 : 5_9 " ScheduleFrequency.DAILY = true.
Proof. vm_compute. repeat split; reflexivity. Qed.

(** What [int()] refuses, validation refuses: an hour that begins or
    ends with one of the separators FS and US, which are no white space
    for [int()] in ASCII text, and an hour of more than 4300 digits.  The
    same hour with 4300 digits, underscores and sign put aside, is
    read. *)
Example validation_refuses_what_int_refuses :
  _validate_schedule_time (String (ascii_of_nat 28) "7:05") ScheduleFrequency.DAILY = false /\
  _validate_schedule_time ("7" ++ String (ascii_of_nat 31) ":05") ScheduleFrequency.DAILY = false /\
  _validate_schedule_time (" 7 :" ++ String (ascii_of_nat 9) "05") ScheduleFrequency.DAILY = true /\
  _validate_schedule_time (PyStr.str_mul "0" 4300 ++ "7:05") ScheduleFrequency.DAILY = false /\
  _validate_schedule_time ("+0_" ++ PyStr.str_mul "0" 4298 ++ "7:05") ScheduleFrequency.DAILY = true.
Proof. vm_compute. repeat split; reflexivity. Qed.

End ValidationFacts.

(** ** The registry and the task executor *)

Section DictFacts.
Context {V : Type}.

Lemma dict_get_set_eq k (v : V) d : dict_get k (dict_set k v d) = Some v.
Proof.
  induction d as [|[k' v'] r IH]; simpl.
  - now rewrite String.eqb_refl.
  - destruct (String.eqb k k') eqn:E; simpl.
    + now rewrite String.eqb_refl.
    + now rewrite E.
Qed.

Lemma dict_get_alter_eq (f : V -> V) k d :
  dict_get k (dict_alter f k d) = option_map f (dict_get k d).
Proof.
  induction d as [|[k' v'] r IH]; simpl; [reflexivity|].
  destruct (String.eqb k k') eqn:E; simpl; rewrite E; [reflexivity|exact IH].
Qed.

Lemma dict_get_alter_ne (f : V -> V) k k' d :
  k <> k' -> dict_get k' (dict_alter f k d) = dict_get k' d.
Proof.
  intros Hne. induction d as [|[k0 v0] r IH]; simpl; [reflexivity|].
  destruct (String.eqb k k0) eqn:E; simpl.
  - apply String.eqb_eq in E. subst k0.
    destruct (String.eqb k' k) eqn:E'; [|reflexivity].
    apply String.eqb_eq in E'. congruence.
  - rewrite IH. reflexivity.
Qed.

End DictFacts.

Section ExecutorFacts.

(** The handlers are stubs that report success, and a caller-supplied
    handler cannot touch the scheduler: running the handler of a task
    always returns, with the scheduler as it was. *)
Lemma run_task_handler_total task s :
  exists ok, _run_task_handler task s = (Ok ok, s).
Proof.
  unfold _run_task_handler, try_except, task_handlers.
  destruct (task_type task); simpl; eauto.
  destruct (callback task) as [cb|]; simpl; [|eauto].
  unfold of_result. destruct (cb (config task)) as [b|e]; simpl; eauto.
Qed.

(** The outcome depends on the type, the configuration and the callback
    of the task only. *)
Lemma run_task_handler_ext t1 t2 s1 s2 :
  task_type t1 = task_type t2 -> config t1 = config t2 ->
  callback t1 = callback t2 ->
  fst (_run_task_handler t1 s1) = fst (_run_task_handler t2 s2).
Proof.
  intros H1 H2 H3. unfold _run_task_handler, try_except, task_handlers.
  rewrite H1, H2, H3.
  destruct (task_type t2); simpl; try reflexivity.
  destruct (callback t2) as [cb|]; simpl; [|reflexivity].
  unfold of_result. destruct (cb (config t2)) as [b|e]; reflexivity.
Qed.

Lemma scheduled_tasks_with_tasks v s : scheduled_tasks (with_tasks v s) = v.
Proof. reflexivity. Qed.

Lemma setattr_run task_id f s :
  setattr task_id f s =
  (Ok tt, with_tasks (dict_alter f task_id (scheduled_tasks s)) s).
Proof. reflexivity. Qed.

Lemma deref_run task_id s t :
  dict_get task_id (scheduled_tasks s) = Some t -> deref task_id s = (Ok t, s).
Proof. intros H. unfold deref, bind, get. rewrite H. reflexivity. Qed.

(** What a scheduled fire of a registered, active task does. *)
Lemma execute_task_spec task_id task s :
  clock_ok (clock s) ->
  year (date_of (clock s (S (S (ticks s))))) < MAXYEAR ->
  dict_get task_id (scheduled_tasks s) = Some task ->
  is_active task = true ->
  exists ok r s' task',
    fst (_run_task_handler task s) = Ok ok /\
    _execute_task task_id s = (Ok tt, s') /\
    dict_get task_id (scheduled_tasks s') = Some task' /\
    next_run task' = Some r /\
    datetime_lt (clock s (ticks s)) r /\
    (exists s1 s2, _calculate_next_run task' s1 = (Ok r, s2) /\
                   clock s1 = clock s /\ ticks s1 = S (ticks s)) /\
    last_run task' = Some (clock s (ticks s)) /\
    total_runs task' = total_runs task + 1 /\
    success_count task' = success_count task + (if ok then 1 else 0) /\
    fail_count task' = fail_count task + (if ok then 0 else 1).
Proof.
  intros Hok Hy Hget Hact.
  set (now := clock s (ticks s)).
  set (task3 := set_total_runs (total_runs task + 1) (set_last_run (Some now) task)).
  set (s3 := with_tasks
               (dict_alter (fun t => set_total_runs (total_runs t + 1) t) task_id
                  (dict_alter (set_last_run (Some now)) task_id (scheduled_tasks s)))
               (with_ticks (S (ticks s)) s)).
  assert (Hget3 : dict_get task_id (scheduled_tasks s3) = Some task3).
  { subst s3. simpl. rewrite !dict_get_alter_eq, Hget. reflexivity. }
  destruct (run_task_handler_total task3 s3) as [ok Hh].
  exists ok.
  set (bump := fun t : ScheduledTask =>
         if ok then set_success_count (success_count t + 1) t
         else set_fail_count (fail_count t + 1) t).
  set (task4 := bump task3).
  set (s4 := with_tasks (dict_alter bump task_id (scheduled_tasks s3)) s3).
  assert (Hget4 : dict_get task_id (scheduled_tasks s4) = Some task4).
  { unfold s4. rewrite scheduled_tasks_with_tasks, dict_get_alter_eq, Hget3.
    reflexivity. }
  destruct (calculate_next_run_some task4 s4) as (r & s5 & Hc & Hclk & Htk & Hts & _);
    [exact Hok|exact Hy|].
  exists r.
  set (s6 := with_tasks (dict_alter (set_next_run (Some r)) task_id (scheduled_tasks s5)) s5).
  exists s6, (set_next_run (Some r) task4).
  assert (Hget6 : dict_get task_id (scheduled_tasks s6) =
                  Some (set_next_run (Some r) task4)).
  { unfold s6. rewrite scheduled_tasks_with_tasks, dict_get_alter_eq, Hts, Hget4.
    reflexivity. }
  split.
  { rewrite (run_task_handler_ext task task3 s s3) by reflexivity.
    rewrite Hh. reflexivity. }
  split.
  { unfold _execute_task. apply try_except_ok.
    unfold bind at 1. unfold get at 1. rewrite Hget, Hact. cbn [negb].
    unfold bind at 1. rewrite datetime_now_run.
    unfold bind at 1. rewrite setattr_run.
    unfold bind at 1. rewrite setattr_run.
    apply try_except_ok.
    fold now. change (with_tasks _ (with_tasks _ (with_ticks (S (ticks s)) s))) with s3.
    rewrite (bind_ok _ _ _ _ _ (deref_run _ _ _ Hget3)).
    rewrite (bind_ok _ _ _ _ _ Hh).
    assert (Hb : (if ok
                  then setattr task_id (fun t => set_success_count (success_count t + 1) t)
                  else setattr task_id (fun t => set_fail_count (fail_count t + 1) t)) s3
                 = (Ok tt, s4)).
    { subst s4 bump. destruct ok; reflexivity. }
    rewrite (bind_ok _ _ _ _ _ Hb).
    rewrite (bind_ok _ _ _ _ _ (deref_run _ _ _ Hget4)).
    rewrite (bind_ok _ _ _ _ _ Hc).
    unfold bind at 1. rewrite setattr_run. fold s6.
    unfold bind at 1. unfold get at 1.
    rewrite (bind_ok _ _ _ _ _ (deref_run _ _ _ Hget6)).
    destruct (db s6); reflexivity. }
  split; [exact Hget6|].
  split; [reflexivity|].
  split.
  { assert (H := calculate_next_run_after task4 s4 r s5 Hok Hc).
    destruct Hok as [_ Hm]. eapply datetime_le_lt_trans; [|exact H].
    apply Hm. simpl. lia. }
  split.
  { exists s4, s5. split; [|split; reflexivity].
    exact Hc. }
  subst task4 bump task3. destruct ok; simpl; repeat split; lia.
Qed.

(** C3.  A scheduled fire of a registered, active task runs the handler
    and then recomputes [next_run], whether the handler reported success
    or failure (a handler that raises counts as failure): afterwards the
    task carries the next run returned by the trigger strategy, which lies
    strictly after the instant of the fire, its last run is that instant,
    its run counter went up by one, and exactly one of its success and
    failure counters went up by one. *)
Theorem execute_task_recomputes_next_run task_id task s :
  clock_ok (clock s) ->
  year (date_of (clock s (S (S (ticks s))))) < MAXYEAR ->
  dict_get task_id (scheduled_tasks s) = Some task ->
  is_active task = true ->
  exists ok r s' task',
    fst (_run_task_handler task s) = Ok ok /\
    _execute_task task_id s = (Ok tt, s') /\
    dict_get task_id (scheduled_tasks s') = Some task' /\
    next_run task' = Some r /\
    datetime_lt (clock s (ticks s)) r /\
    (exists s1 s2, _calculate_next_run task' s1 = (Ok r, s2) /\
                   clock s1 = clock s /\ ticks s1 = S (ticks s)) /\
    last_run task' = Some (clock s (ticks s)) /\
    total_runs task' = total_runs task + 1 /\
    success_count task' = success_count task + (if ok then 1 else 0) /\
    fail_count task' = fail_count task + (if ok then 0 else 1).
Proof. apply execute_task_spec. Qed.

(** A task whose handler fails: its type has no registered handler and
    its callback raises. *)
Lemma execute_task_recomputes_next_run_witness :
  clock_ok (clock (scheduler_at (at_time 2024 1 1 3 0)
                     [("t", mkTask "t" "t" TaskType.CUSTOM ScheduleFrequency.DAILY
                              "02:00" true None None 0 0 0 []
                              (Some (fun _ => Raise (Exception "boom"))))])) /\
  exists ok r s' task',
    fst (_run_task_handler
           (mkTask "t" "t" TaskType.CUSTOM ScheduleFrequency.DAILY
              "02:00" true None None 0 0 0 []
              (Some (fun _ => Raise (Exception "boom"))))
           (scheduler_at (at_time 2024 1 1 3 0)
              [("t", mkTask "t" "t" TaskType.CUSTOM ScheduleFrequency.DAILY
                       "02:00" true None None 0 0 0 []
                       (Some (fun _ => Raise (Exception "boom"))))])) = Ok ok /\
    _execute_task "t"
      (scheduler_at (at_time 2024 1 1 3 0)
         [("t", mkTask "t" "t" TaskType.CUSTOM ScheduleFrequency.DAILY
                  "02:00" true None None 0 0 0 []
                  (Some (fun _ => Raise (Exception "boom"))))]) = (Ok tt, s') /\
    dict_get "t" (scheduled_tasks s') = Some task' /\
    next_run task' = Some r /\
    datetime_lt (at_time 2024 1 1 3 0) r /\
    ok = false /\ fail_count task' = 1 /\ success_count task' = 0 /\
    total_runs task' = 1.
Proof.
  set (task := mkTask "t" "t" TaskType.CUSTOM ScheduleFrequency.DAILY
                 "02:00" true None None 0 0 0 []
                 (Some (fun _ => Raise (Exception "boom")))).
  set (s := scheduler_at (at_time 2024 1 1 3 0) [("t", task)]).
  assert (Hok : clock_ok (clock s)).
  { apply (clock_ok_const (at_time 2024 1 1 3 0)). vm_compute. intuition discriminate. }
  split; [exact Hok|].
  destruct (execute_task_recomputes_next_run "t" task s Hok)
    as (ok & r & s' & task' & Hh & He & Hg & Hn & Hlt & _ & _ & Ht & Hs & Hf);
    [vm_compute; reflexivity|reflexivity|reflexivity|].
  exists ok, r, s', task'.
  assert (Hfalse : ok = false).
  { vm_compute in Hh. inversion Hh. reflexivity. }
  subst ok. repeat split; try assumption.
Defined.

(** [run_task_now] on a registered task: the handler runs, one of the
    success and failure counters goes up by one, and nothing else changes;
    in particular the run counter and the next run stay as they were. *)
Lemma run_task_now_spec task_id task s :
  dict_get task_id (scheduled_tasks s) = Some task ->
  exists ok s' task',
    run_task_now task_id s = (Ok ok, s') /\
    dict_get task_id (scheduled_tasks s') = Some task' /\
    next_run task' = next_run task /\
    last_run task' = last_run task /\
    total_runs task' = total_runs task /\
    success_count task' = success_count task + (if ok then 1 else 0) /\
    fail_count task' = fail_count task + (if ok then 0 else 1) /\
    ticks s' = ticks s /\ jobs s' = jobs s.
Proof.
  intros Hget. destruct (run_task_handler_total task s) as [ok Hh].
  set (bump := fun t : ScheduledTask =>
         if ok then set_success_count (success_count t + 1) t
         else set_fail_count (fail_count t + 1) t).
  exists ok, (with_tasks (dict_alter bump task_id (scheduled_tasks s)) s), (bump task).
  split.
  { unfold run_task_now. apply try_except_ok.
    unfold bind at 1. unfold get at 1. rewrite Hget.
    rewrite (bind_ok _ _ _ _ _ Hh).
    destruct ok; reflexivity. }
  split.
  { rewrite scheduled_tasks_with_tasks, dict_get_alter_eq, Hget. reflexivity. }
  subst bump. destruct ok; simpl; repeat split; lia.
Qed.

(** A scheduled fire keeps the counters consistent. *)
Lemma execute_task_keeps_counters task_id task s :
  clock_ok (clock s) ->
  year (date_of (clock s (S (S (ticks s))))) < MAXYEAR ->
  dict_get task_id (scheduled_tasks s) = Some task ->
  is_active task = true ->
  counters_ok task ->
  exists s' task',
    _execute_task task_id s = (Ok tt, s') /\
    dict_get task_id (scheduled_tasks s') = Some task' /\
    counters_ok task'.
Proof.
  intros Hok Hy Hget Hact Hc.
  destruct (execute_task_spec task_id task s Hok Hy Hget Hact)
    as (ok & r & s' & task' & _ & He & Hg & _ & _ & _ & _ & Ht & Hs & Hf).
  exists s', task'. repeat split; try assumption.
  unfold counters_ok in *. destruct ok; lia.
Qed.

(** [run_task_now] breaks the consistency of the counters as soon as every
    recorded run already has its outcome. *)
Lemma run_task_now_overcounts task_id task s :
  dict_get task_id (scheduled_tasks s) = Some task ->
  success_count task + fail_count task = total_runs task ->
  exists ok s' task',
    run_task_now task_id s = (Ok ok, s') /\
    dict_get task_id (scheduled_tasks s') = Some task' /\
    ~ counters_ok task'.
Proof.
  intros Hget Heq.
  destruct (run_task_now_spec task_id task s Hget)
    as (ok & s' & task' & Hr & Hg & _ & _ & Ht & Hs & Hf & _).
  exists ok, s', task'. repeat split; try assumption.
  unfold counters_ok. destruct ok; lia.
Qed.

(** C2, at the failing input.  On a freshly scheduled backup task (all
    counters zero) [run_task_now] returns success and leaves the task with
    one success and no run: the counters are no longer consistent.  The
    next run is untouched. *)
Theorem run_task_now_breaks_counter_invariant :
  counters_ok (new_task "daily_backup" TaskType.BACKUP ScheduleFrequency.DAILY "02:00") /\
  run_task_now "daily_backup"
    (scheduler_at (at_time 2024 1 1 3 0)
       [("daily_backup",
         set_next_run (Some (at_time 2024 1 2 2 0))
           (new_task "daily_backup" TaskType.BACKUP ScheduleFrequency.DAILY "02:00"))]) =
  (Ok true,
   scheduler_at (at_time 2024 1 1 3 0)
     [("daily_backup",
       set_success_count 1
         (set_next_run (Some (at_time 2024 1 2 2 0))
            (new_task "daily_backup" TaskType.BACKUP ScheduleFrequency.DAILY "02:00")))]) /\
  ~ counters_ok
      (set_success_count 1
         (set_next_run (Some (at_time 2024 1 2 2 0))
            (new_task "daily_backup" TaskType.BACKUP ScheduleFrequency.DAILY "02:00"))).
Proof.
  split; [unfold counters_ok; simpl; lia|].
  split; [reflexivity|].
  unfold counters_ok; simpl. lia.
Qed.

End ExecutorFacts.

(** ** Statistics *)

Section StatisticsFacts.

(** The quotient is only taken when the divisor is positive. *)
Lemma success_rate_of_run success total s :
  success_rate_of success total s =
  (Ok (if total >? 0
       then (inject_Z success / inject_Z total * inject_Z 100)%Q
       else inject_Z 0), s).
Proof.
  unfold success_rate_of. destruct (Z.gtb_spec total 0) as [H|H]; [|reflexivity].
  unfold bind, of_result, truediv.
  destruct (Z.eqb_spec total 0) as [E|E]; [lia|reflexivity].
Qed.

Lemma summary_run task s :
  exists x, summary task s = (Ok x, s) /\ rate_guarded x.
Proof.
  unfold summary, bind. rewrite success_rate_of_run.
  eexists. split; [reflexivity|]. reflexivity.
Qed.

Lemma summaries_run active_only tasks s :
  exists l, summaries active_only tasks s = (Ok l, s) /\ Forall rate_guarded l.
Proof.
  induction tasks as [|task rest IH]; simpl.
  - exists []. split; [reflexivity|constructor].
  - destruct (active_only && negb (is_active task)); [exact IH|].
    destruct IH as (l & Hl & Hf).
    destruct (summary_run task s) as (x & Hx & Hg).
    exists (x :: l). split; [|constructor; assumption].
    rewrite (bind_ok _ _ _ _ _ Hx), (bind_ok _ _ _ _ _ Hl). reflexivity.
Qed.

Lemma insert_by_key_Forall (P : TaskSummary -> Prop) x l :
  P x -> Forall P l -> Forall P (insert_by_key x l).
Proof.
  intros Hx Hl. induction Hl as [|y r Hy Hr IH]; simpl.
  - constructor; [exact Hx|constructor].
  - destruct (PyStr.str_ltb (sort_key x) (sort_key y)).
    + constructor; [exact Hx|]. constructor; assumption.
    + constructor; assumption.
Qed.

Lemma sort_by_key_Forall (P : TaskSummary -> Prop) l :
  Forall P l -> Forall P (sort_by_key l).
Proof.
  unfold sort_by_key. intros Hl.
  assert (H : forall acc, Forall P acc ->
            Forall P (fold_left (fun acc x => insert_by_key x acc) l acc)).
  { induction Hl as [|x r Hx Hr IH]; intros acc Hacc; simpl; [exact Hacc|].
    apply IH. apply insert_by_key_Forall; assumption. }
  apply H. constructor.
Qed.

Lemma get_tasks_run active_only s :
  exists l, get_tasks active_only s = (Ok l, s) /\ Forall rate_guarded l.
Proof.
  unfold get_tasks. unfold bind at 1. unfold get at 1.
  destruct (summaries_run active_only (dict_values (scheduled_tasks s)) s)
    as (l & Hl & Hf).
  exists (sort_by_key l). split; [|apply sort_by_key_Forall; exact Hf].
  rewrite (bind_ok _ _ _ _ _ Hl). reflexivity.
Qed.

Lemma get_scheduler_stats_run s r s' :
  get_scheduler_stats s = (r, s') ->
  r = Raise OverflowError \/
  exists st, r = Ok st /\
    st_total_runs st = sum_of total_runs (dict_values (scheduled_tasks s)) /\
    st_total_success st = sum_of success_count (dict_values (scheduled_tasks s)) /\
    st_success_rate st =
      if st_total_runs st >? 0
      then (inject_Z (st_total_success st) / inject_Z (st_total_runs st)
            * inject_Z 100)%Q
      else inject_Z 0.
Proof.
  unfold get_scheduler_stats. unfold bind at 1. unfold get at 1.
  unfold bind at 1. rewrite datetime_now_run.
  unfold bind at 1.
  destruct (datetime_add _ _) as [later|]; simpl.
  - unfold bind at 1. rewrite success_rate_of_run.
    unfold bind, get, ret. intros H. inversion H; subst. right.
    eexists. split; [reflexivity|]. simpl. auto.
  - unfold raise. intros H. inversion H. left. reflexivity.
Qed.

(** C10.  The statistics never divide by zero.  [get_tasks] always
    returns, leaves the scheduler as it was, and gives every summary a
    success rate that is the quotient only when [total_runs] is positive
    and 0 otherwise.  [get_scheduler_stats] never raises
    [ZeroDivisionError], and the aggregate success rate it returns is 0
    whenever the aggregate number of runs is 0. *)
Theorem success_rate_never_divides_by_zero active_only s :
  (exists l,
     get_tasks active_only s = (Ok l, s) /\
     Forall (fun x =>
       (s_total_runs x = 0 -> s_success_rate x = inject_Z 0) /\
       s_success_rate x =
         if s_total_runs x >? 0
         then (inject_Z (s_success_count x) / inject_Z (s_total_runs x)
               * inject_Z 100)%Q
         else inject_Z 0) l) /\
  (forall r s',
     get_scheduler_stats s = (r, s') ->
     r <> Raise ZeroDivisionError /\
     forall st, r = Ok st ->
       (st_total_runs st = 0 -> st_success_rate st = inject_Z 0) /\
       st_success_rate st =
         if st_total_runs st >? 0
         then (inject_Z (st_total_success st) / inject_Z (st_total_runs st)
               * inject_Z 100)%Q
         else inject_Z 0).
Proof.
  split.
  - destruct (get_tasks_run active_only s) as (l & Hl & Hf).
    exists l. split; [exact Hl|].
    eapply Forall_impl; [exact Hf|].
    intros x Hx. split; [|exact Hx].
    intros H0. rewrite Hx, H0. reflexivity.
  - intros r s' H. apply get_scheduler_stats_run in H.
    destruct H as [->|(st & -> & _ & _ & Hr)].
    + split; [discriminate|]. intros st H. discriminate.
    + split; [discriminate|]. intros st' H. inversion H; subst st'.
      split; [|exact Hr]. intros H0. rewrite Hr, H0. reflexivity.
Qed.

End StatisticsFacts.

(** ** Relations kept by a computation *)

Section Preservation.
Context {S : Type} (R : S -> S -> Prop).
Hypothesis R_refl : forall s, R s s.
Hypothesis R_trans : forall a b c, R a b -> R b c -> R a c.

Lemma preserves_ret {A} (a : A) : preserves R (ret a).
Proof using R_refl. intros s x s' H. inversion H; subst. apply R_refl. Qed.

Lemma preserves_raise {A} e : preserves R (@raise S A e).
Proof using R_refl. intros s x s' H. inversion H; subst. apply R_refl. Qed.

Lemma preserves_get : preserves R get.
Proof using R_refl. intros s x s' H. inversion H; subst. apply R_refl. Qed.

Lemma preserves_of_result {A} (r : result A) : preserves R (of_result r).
Proof using R_refl. intros s x s' H. inversion H; subst. apply R_refl. Qed.

Lemma preserves_or_raise {A} e (o : option A) : preserves R (or_raise e o).
Proof using R_refl. destruct o; [apply preserves_ret|apply preserves_raise]. Qed.

Lemma preserves_modify (f : S -> S) :
  (forall s, R s (f s)) -> preserves R (modify f).
Proof. intros Hf s x s' H. inversion H; subst. apply Hf. Qed.

Lemma preserves_bind {A B} (m : M S A) (k : A -> M S B) :
  preserves R m -> (forall a, preserves R (k a)) -> preserves R (bind m k).
Proof using R_trans.
  intros Hm Hk s x s' H. unfold bind in H.
  destruct (m s) as [[a|e] s1] eqn:E.
  - eapply R_trans; [eapply Hm; eauto|eapply Hk; eauto].
  - inversion H; subst. eapply Hm; eauto.
Qed.

Lemma preserves_try_except {A} (body : M S A) h :
  preserves R body -> (forall e, preserves R (h e)) ->
  preserves R (try_except body h).
Proof using R_trans.
  intros Hb Hh s x s' H. unfold try_except in H.
  destruct (body s) as [[a|e] s1] eqn:E.
  - inversion H; subst. eapply Hb; eauto.
  - eapply R_trans; [eapply Hb; eauto|eapply Hh; eauto].
Qed.

Lemma preserves_for_each {A} (l : list A) (body : A -> M S unit) :
  (forall a, preserves R (body a)) -> preserves R (for_each l body).
Proof using R_refl R_trans.
  intros Hb. induction l as [|a r IH]; simpl.
  - apply preserves_ret.
  - apply preserves_bind; [apply Hb|intros _; exact IH].
Qed.

End Preservation.

(** ** The collection engine *)

Import AutoCollector.

Lemma counts_growth_refl {W} (fr : @Frame W) : counts_growth fr fr.
Proof. split; [set_solver|lia]. Qed.

Lemma counts_growth_trans {W} (a b c : @Frame W) :
  counts_growth a b -> counts_growth b c -> counts_growth a c.
Proof. intros [H1 H2] [H3 H4]. split; [set_solver|lia]. Qed.

Lemma size_add_fresh (u : string) (X : gset string) :
  u ∉ X -> size ({[u]} ∪ X) = Datatypes.S (size X).
Proof.
  intros H. rewrite size_union by set_solver. rewrite size_singleton. reflexivity.
Qed.

Lemma elem_of_add (u : string) (X : gset string) : u ∈ {[u]} ∪ X.
Proof. set_solver. Qed.

Lemma subseteq_add (u : string) (X : gset string) : X ⊆ {[u]} ∪ X.
Proof. set_solver. Qed.

Lemma try_except_ret_total {S} (body : M S unit) s :
  exists s', try_except body (fun _ => ret tt) s = (Ok tt, s').
Proof.
  unfold try_except. destruct (body s) as [[[]|e] s1]; eauto.
Qed.

Lemma for_each_total {S A} (l : list A) (body : A -> M S unit) :
  (forall a s, exists s', body a s = (Ok tt, s')) ->
  forall s, exists s', for_each l body s = (Ok tt, s').
Proof.
  intros Hb. induction l as [|a r IH]; intros s; simpl; [eauto|].
  destruct (Hb a s) as [s1 H1]. destruct (IH s1) as [s2 H2].
  exists s2. rewrite (bind_ok _ _ _ _ _ H1). exact H2.
Qed.

Section CollectorFacts.
Context {W : Type}.
Variable get_all_groups : M W (list Group).
Variable get_group_messages : string -> bool -> Z -> M W (list Message).
Variable save_link : LinkData -> M W bool.
Variable extract_links : string -> result (list string).
Variable categorize_link : string -> result string.

Local Abbreviation State := (@AutoCollector.State W).
Local Abbreviation Frame := (@AutoCollector.Frame W).
Local Abbreviation process_link := (AutoCollector.process_link save_link categorize_link).
Local Abbreviation process_message :=
  (AutoCollector.process_message save_link extract_links categorize_link).
Local Abbreviation _process_group_messages :=
  (AutoCollector._process_group_messages save_link extract_links categorize_link).
Local Abbreviation collect_from_group :=
  (AutoCollector.collect_from_group get_group_messages save_link extract_links
     categorize_link).
Local Abbreviation collect_groups :=
  (AutoCollector.collect_groups get_group_messages save_link extract_links
     categorize_link).
Local Abbreviation _collect_from_all_groups :=
  (AutoCollector._collect_from_all_groups get_all_groups get_group_messages
     save_link extract_links categorize_link).
Local Abbreviation loop_body :=
  (AutoCollector.loop_body get_all_groups get_group_messages save_link
     extract_links categorize_link).
Local Abbreviation while_collecting :=
  (AutoCollector.while_collecting get_all_groups get_group_messages save_link
     extract_links categorize_link).

(** *** Deduplication *)

(** What the loop body does with one link, case by case. *)
Lemma process_link_run message gid gname link (fr : Frame) :
  process_link message gid gname link fr =
  if bool_decide (link ∈ collected_urls (self fr)) then (Ok tt, fr)
  else
    match categorize_link link with
    | Raise e => (Raise e, fr)
    | Ok category =>
        if has_db (self fr) then
          match save_link (link_data (self fr) message gid gname link category)
                  (world (self fr)) with
          | (Ok true, w) =>
              (Ok tt,
               mkFrame
                 (with_collected_urls ({[link]} ∪ collected_urls (self fr))
                    (with_world w (self fr)))
                 (links_collected fr + 1))
          | (Ok false, w) =>
              (Ok tt, mkFrame (with_world w (self fr)) (links_collected fr))
          | (Raise e, w) =>
              (Raise e, mkFrame (with_world w (self fr)) (links_collected fr))
          end
        else (Ok tt, fr)
    end.
Proof.
  destruct fr as [s n]. unfold AutoCollector.process_link.
  unfold bind at 1. unfold get at 1. cbn [self links_collected].
  destruct (bool_decide (link ∈ collected_urls s)); [reflexivity|].
  unfold bind at 1. unfold of_result at 1.
  destruct (categorize_link link) as [category|e]; [|reflexivity].
  destruct (has_db s); [|reflexivity].
  unfold bind at 1. unfold in_self, in_world. simpl.
  destruct (save_link _ (world s)) as [[[|]|e] w]; reflexivity.
Qed.

Lemma process_link_growth message gid gname link :
  preserves counts_growth (process_link message gid gname link).
Proof.
  intros fr x fr' H. rewrite process_link_run in H.
  destruct (bool_decide (link ∈ collected_urls (self fr))) eqn:Hin;
    [inversion H; subst; apply counts_growth_refl|].
  apply bool_decide_eq_false in Hin.
  destruct (categorize_link link) as [category|e];
    [|inversion H; subst; apply counts_growth_refl].
  destruct (has_db (self fr));
    [|inversion H; subst; apply counts_growth_refl].
  destruct (save_link _ _) as [[[|]|e] w]; inversion H; subst; clear H;
    split; simpl; try reflexivity; try lia.
  - apply subseteq_add.
  - rewrite size_add_fresh by exact Hin. lia.
Qed.

Lemma process_message_growth gid gname message :
  preserves counts_growth (process_message gid gname message).
Proof.
  unfold AutoCollector.process_message.
  apply preserves_try_except;
    try apply counts_growth_refl; try apply counts_growth_trans.
  - destruct (body message).
    + apply preserves_ret, counts_growth_refl.
    + apply preserves_bind;
        try apply counts_growth_refl; try apply counts_growth_trans.
      * apply preserves_of_result, counts_growth_refl.
      * intros links. apply preserves_for_each;
          try apply counts_growth_refl; try apply counts_growth_trans.
        intros link. apply process_link_growth.
  - intros e. apply preserves_ret, counts_growth_refl.
Qed.

(** The messages of a group are always processed to the end, and the
    value returned is the local counter. *)
Lemma process_group_messages_run messages gid gname (s : State) :
  exists fr,
    for_each messages (process_message gid gname) (mkFrame s 0) = (Ok tt, fr) /\
    _process_group_messages messages gid gname s = (Ok (links_collected fr), self fr).
Proof.
  destruct (for_each_total messages (process_message gid gname)
              (fun m fr => try_except_ret_total _ fr) (mkFrame s 0)) as [fr Hfr].
  exists fr. split; [exact Hfr|].
  unfold AutoCollector._process_group_messages, try_except.
  rewrite (bind_ok _ _ _ _ _ Hfr). reflexivity.
Qed.

(** Within one call the number of links counted is the number of members
    the dedup set gained. *)
Lemma process_group_messages_growth messages gid gname (s : State) :
  exists n s',
    _process_group_messages messages gid gname s = (Ok n, s') /\
    collected_urls s ⊆ collected_urls s' /\
    Z.of_nat (size (collected_urls s')) = Z.of_nat (size (collected_urls s)) + n.
Proof.
  destruct (process_group_messages_run messages gid gname s) as (fr & Hfr & Hrun).
  exists (links_collected fr), (self fr). split; [exact Hrun|].
  assert (H : counts_growth (mkFrame s 0) fr).
  { eapply (preserves_for_each counts_growth counts_growth_refl counts_growth_trans);
      [|exact Hfr].
    intros m. apply process_message_growth. }
  destruct H as [H1 H2]. simpl in *. split; [exact H1|lia].
Qed.

(** A link enters the dedup set only on the gateway's word. *)
Lemma process_link_adds_only_saved message gid gname link (fr : Frame) x fr' :
  process_link message gid gname link fr = (x, fr') ->
  collected_urls (self fr') <> collected_urls (self fr) ->
  (link ∉ collected_urls (self fr)) /\ has_db (self fr) = true /\
  exists category w,
    categorize_link link = Ok category /\
    save_link (link_data (self fr) message gid gname link category)
      (world (self fr)) = (Ok true, w) /\
    x = Ok tt /\
    collected_urls (self fr') = {[link]} ∪ collected_urls (self fr) /\
    links_collected fr' = links_collected fr + 1.
Proof.
  intros H Hne. rewrite process_link_run in H.
  destruct (bool_decide (link ∈ collected_urls (self fr))) eqn:Hin;
    [inversion H; subst; congruence|].
  apply bool_decide_eq_false in Hin.
  destruct (categorize_link link) as [category|e];
    [|inversion H; subst; congruence].
  destruct (has_db (self fr)); [|inversion H; subst; congruence].
  destruct (save_link _ _) as [[[|]|e] w] eqn:Es; inversion H; subst; clear H;
    try (simpl in Hne; congruence).
  split; [exact Hin|]. split; [reflexivity|].
  exists category, w. repeat split; reflexivity || exact Es.
Qed.

Lemma process_message_run gid gname message (fr : Frame) :
  body message <> EmptyString ->
  process_message gid gname message fr =
  try_except
    (all_links <- of_result (extract_links (body message)) ;;
     for_each all_links (process_link message gid gname))
    (fun _ => ret tt) fr.
Proof.
  intros H. unfold AutoCollector.process_message.
  destruct (body message); [congruence|reflexivity].
Qed.

(** The same URL in two messages: the first discovery is saved and
    counted, the second one stops at the dedup set. *)
Lemma same_url_two_messages m1 m2 gid gname (s : State) u category w :
  body m1 <> EmptyString -> body m2 <> EmptyString ->
  extract_links (body m1) = Ok [u] -> extract_links (body m2) = Ok [u] ->
  u ∉ collected_urls s -> has_db s = true ->
  categorize_link u = Ok category ->
  save_link (link_data s m1 gid gname u category) (world s) = (Ok true, w) ->
  _process_group_messages [m1; m2] gid gname s =
  (Ok 1, with_collected_urls ({[u]} ∪ collected_urls s) (with_world w s)).
Proof.
  intros Hb1 Hb2 He1 He2 Hu Hdb Hc Hs.
  unfold AutoCollector._process_group_messages. simpl for_each.
  unfold try_except at 1. unfold bind at 1. unfold bind at 1.
  rewrite process_message_run by exact Hb1.
  unfold try_except at 1. unfold bind at 1. rewrite He1.
  unfold of_result at 1. simpl for_each.
  unfold bind at 1. rewrite process_link_run. cbn [self links_collected].
  rewrite (bool_decide_eq_false_2 _ Hu), Hc, Hdb, Hs.
  unfold ret at 1.
  unfold bind at 1.
  rewrite process_message_run by exact Hb2.
  unfold try_except at 1. unfold bind at 1. rewrite He2.
  unfold of_result at 1. simpl for_each.
  unfold bind at 1. rewrite process_link_run. cbn [self links_collected].
  rewrite bool_decide_eq_true_2 by (simpl; apply elem_of_add).
  reflexivity.
Qed.

(** The same URL twice in one message. *)
Lemma same_url_one_message m1 gid gname (s : State) u category w :
  body m1 <> EmptyString ->
  extract_links (body m1) = Ok [u; u] ->
  u ∉ collected_urls s -> has_db s = true ->
  categorize_link u = Ok category ->
  save_link (link_data s m1 gid gname u category) (world s) = (Ok true, w) ->
  _process_group_messages [m1] gid gname s =
  (Ok 1, with_collected_urls ({[u]} ∪ collected_urls s) (with_world w s)).
Proof.
  intros Hb1 He1 Hu Hdb Hc Hs.
  unfold AutoCollector._process_group_messages. simpl for_each.
  unfold try_except at 1. unfold bind at 1. unfold bind at 1.
  rewrite process_message_run by exact Hb1.
  unfold try_except at 1. unfold bind at 1. rewrite He1.
  unfold of_result at 1. simpl for_each.
  unfold bind at 1. rewrite process_link_run. cbn [self links_collected].
  rewrite (bool_decide_eq_false_2 _ Hu), Hc, Hdb, Hs.
  unfold bind at 1. rewrite process_link_run. cbn [self links_collected].
  rewrite bool_decide_eq_true_2 by (simpl; apply elem_of_add).
  reflexivity.
Qed.


End CollectorFacts.

(** *** What a pass leaves alone *)

Lemma same_quota_refl {W} (s : @State W) : same_quota s s.
Proof. repeat split. Qed.

Lemma same_quota_trans {W} (a b c : @State W) :
  same_quota a b -> same_quota b c -> same_quota a c.
Proof.
  unfold same_quota. intros (H1 & H2 & H3 & H4) (H5 & H6 & H7 & H8).
  repeat split; congruence.
Qed.

Lemma only_urls_and_world_refl {W} (s : @State W) : only_urls_and_world s s.
Proof. repeat split. Qed.

Lemma only_urls_and_world_trans {W} (a b c : @State W) :
  only_urls_and_world a b -> only_urls_and_world b c -> only_urls_and_world a c.
Proof.
  unfold only_urls_and_world.
  intros (?&?&?&?&?&?&?&?&?) (?&?&?&?&?&?&?&?&?). repeat split; congruence.
Qed.

Lemma preserves_datetime_now {W} (R : @State W -> @State W -> Prop) :
  (forall s n, R s (with_ticks n s)) -> preserves R datetime_now.
Proof. intros H s x s' E. inversion E; subst. apply H. Qed.

Lemma preserves_in_world {W A} (R : @State W -> @State W -> Prop) (m : M W A) :
  (forall s w, R s (with_world w s)) -> preserves R (in_world m).
Proof.
  intros H s x s' E. unfold in_world in E.
  destruct (m (world s)) as [r w]. inversion E; subst. apply H.
Qed.

Section PassFrame.
Context {W : Type}.
Variable get_group_messages : string -> bool -> Z -> M W (list Message).
Variable save_link : LinkData -> M W bool.
Variable extract_links : string -> result (list string).
Variable categorize_link : string -> result string.
Variable R : @State W -> @State W -> Prop.
Hypothesis R_refl : forall s, R s s.
Hypothesis R_trans : forall a b c, R a b -> R b c -> R a c.
Hypothesis R_world : forall s w, R s (with_world w s).
Hypothesis R_urls : forall s X, R s (with_collected_urls X s).

Lemma process_link_keeps message gid gname link :
  preserves (fun fr fr' => R (self fr) (self fr'))
    (process_link save_link categorize_link message gid gname link).
Proof using R_refl R_trans R_world R_urls.
  intros fr x fr' H. rewrite process_link_run in H.
  destruct (bool_decide _); [inversion H; subst; apply R_refl|].
  destruct (categorize_link link); [|inversion H; subst; apply R_refl].
  destruct (has_db (self fr)); [|inversion H; subst; apply R_refl].
  destruct (save_link _ _) as [[[|]|e] w]; inversion H; subst; simpl;
    try apply R_world.
  eapply R_trans; [apply R_world|apply R_urls].
Qed.

Lemma process_message_keeps gid gname message :
  preserves (fun fr fr' => R (self fr) (self fr'))
    (process_message save_link extract_links categorize_link gid gname message).
Proof using R_refl R_trans R_world R_urls.
  assert (Hr : forall fr : @Frame W, R (self fr) (self fr)) by (intros; apply R_refl).
  assert (Ht : forall a b c : @Frame W,
             R (self a) (self b) -> R (self b) (self c) -> R (self a) (self c))
    by (intros a b c; apply R_trans).
  unfold process_message.
  apply (preserves_try_except _ Ht); [|intros e; apply (preserves_ret _ Hr)].
  destruct (body message); [apply (preserves_ret _ Hr)|].
  apply (preserves_bind _ Ht); [apply (preserves_of_result _ Hr)|].
  intros links. apply (preserves_for_each _ Hr Ht).
  intros link. apply process_link_keeps.
Qed.

Lemma process_group_messages_keeps messages gid gname :
  preserves R
    (_process_group_messages save_link extract_links categorize_link
       messages gid gname).
Proof using R_refl R_trans R_world R_urls.
  intros s x s' H.
  destruct (process_group_messages_run save_link extract_links categorize_link
              messages gid gname s) as (fr & Hfr & Hrun).
  rewrite Hrun in H. inversion H; subst.
  assert (Hr : forall fr : @Frame W, R (self fr) (self fr)) by (intros; apply R_refl).
  assert (Ht : forall a b c : @Frame W,
             R (self a) (self b) -> R (self b) (self c) -> R (self a) (self c))
    by (intros a b c; apply R_trans).
  apply (preserves_for_each _ Hr Ht _ _ (process_message_keeps gid gname)) in Hfr.
  exact Hfr.
Qed.

End PassFrame.

Section QuotaFrame.
Context {W : Type}.
Variable get_all_groups : M W (list Group).
Variable get_group_messages : string -> bool -> Z -> M W (list Message).
Variable save_link : LinkData -> M W bool.
Variable extract_links : string -> result (list string).
Variable categorize_link : string -> result string.

Ltac quota_step :=
  first
  [ apply (preserves_ret same_quota same_quota_refl)
  | apply (preserves_get same_quota same_quota_refl)
  | apply (preserves_of_result same_quota same_quota_refl)
  | apply (preserves_datetime_now same_quota); intros; repeat split
  | apply (preserves_in_world same_quota); intros; repeat split
  | apply (preserves_modify same_quota); intros; repeat split
  | apply (preserves_bind same_quota same_quota_trans); [|intros ?]
  | apply (preserves_try_except same_quota same_quota_trans); [|intros ?] ].

Lemma process_group_messages_quota messages gid gname :
  preserves same_quota
    (_process_group_messages save_link extract_links categorize_link
       messages gid gname).
Proof.
  apply process_group_messages_keeps.
  - apply same_quota_refl.
  - apply same_quota_trans.
  - intros; repeat split.
  - intros; repeat split.
Qed.

Lemma collect_from_group_quota group :
  preserves same_quota
    (collect_from_group get_group_messages save_link extract_links
       categorize_link group).
Proof.
  unfold collect_from_group, asyncio_sleep.
  quota_step; [quota_step|].
  quota_step.
  { destruct (last_group_check a !! group_id group); repeat quota_step. }
  destruct a0; [quota_step|].
  quota_step; [quota_step|].
  quota_step; [apply process_group_messages_quota|].
  repeat quota_step.
Qed.

Lemma collect_groups_quota groups : forall total,
  preserves same_quota
    (collect_groups get_group_messages save_link extract_links
       categorize_link groups total).
Proof.
  induction groups as [|group rest IH]; intros total; simpl.
  - quota_step.
  - quota_step; [quota_step|].
    destruct (negb (is_collecting a)); [quota_step|].
    quota_step; [|apply IH].
    quota_step; [apply collect_from_group_quota|quota_step].
Qed.

(** A pass never touches the daily counter, the stored date, the running
    flag or the clock. *)
Lemma collect_from_all_groups_quota :
  preserves same_quota
    (_collect_from_all_groups get_all_groups get_group_messages save_link
       extract_links categorize_link).
Proof.
  unfold _collect_from_all_groups.
  quota_step; [|quota_step].
  quota_step; [quota_step|].
  destruct a; [quota_step|].
  quota_step; [apply collect_groups_quota|].
  repeat quota_step.
Qed.

(** A pass always returns: no error leaves it. *)
Lemma collect_from_all_groups_total (s : @State W) :
  exists s',
    _collect_from_all_groups get_all_groups get_group_messages save_link
      extract_links categorize_link s = (Ok tt, s').
Proof. apply try_except_ret_total. Qed.

End QuotaFrame.

(** *** One target of a pass *)

Section TargetFacts.
Context {W : Type}.
Variable get_all_groups : M W (list Group).
Variable get_group_messages : string -> bool -> Z -> M W (list Message).
Variable save_link : LinkData -> M W bool.
Variable extract_links : string -> result (list string).
Variable categorize_link : string -> result string.

Local Abbreviation _process_group_messages :=
  (AutoCollector._process_group_messages save_link extract_links categorize_link).
Local Abbreviation collect_from_group :=
  (AutoCollector.collect_from_group get_group_messages save_link extract_links
     categorize_link).
Local Abbreviation collect_groups :=
  (AutoCollector.collect_groups get_group_messages save_link extract_links
     categorize_link).
Local Abbreviation _collect_from_all_groups :=
  (AutoCollector._collect_from_all_groups get_all_groups get_group_messages
     save_link extract_links categorize_link).

Lemma world_after_recency_check group (s : @State W) :
  world (after_recency_check group s) = world s.
Proof. unfold after_recency_check. destruct (_ !! _); reflexivity. Qed.

Lemma last_group_check_after_recency_check group (s : @State W) :
  last_group_check (after_recency_check group s) = last_group_check s.
Proof. unfold after_recency_check. destruct (_ !! _); reflexivity. Qed.

(** A group checked less than an hour ago is skipped. *)
Lemma collect_from_group_skip group (s : @State W) :
  checked_recently group s = true ->
  collect_from_group group s = (Ok 0, after_recency_check group s).
Proof.
  unfold AutoCollector.collect_from_group, checked_recently, after_recency_check.
  unfold bind at 1. unfold get at 1.
  destruct (last_group_check s !! group_id group); [|discriminate].
  intros H. unfold bind at 1. unfold bind at 1. unfold datetime_now at 1.
  unfold ret at 1. rewrite H. reflexivity.
Qed.

(** A fetch that raises leaves the [try] block at once. *)
Lemma collect_from_group_fetch_raises group (s : @State W) e w :
  checked_recently group s = false ->
  get_group_messages (group_id group) false 100 (world s) = (Raise e, w) ->
  collect_from_group group s = (Raise e, with_world w (after_recency_check group s)).
Proof.
  unfold AutoCollector.collect_from_group, checked_recently, after_recency_check.
  unfold bind at 1. unfold get at 1.
  destruct (last_group_check s !! group_id group); intros H Hf.
  - unfold bind at 1. unfold bind at 1. unfold datetime_now at 1.
    unfold ret at 1. rewrite H.
    unfold bind at 1. unfold in_world at 1. simpl world. rewrite Hf. reflexivity.
  - unfold bind at 1. unfold ret at 1.
    unfold bind at 1. unfold in_world at 1. rewrite Hf. reflexivity.
Qed.

(** A fetch that returns is followed by the processing of the messages
    and by the update of the time of the last check. *)
Lemma collect_from_group_fetch_returns group (s : @State W) messages w :
  checked_recently group s = false ->
  get_group_messages (group_id group) false 100 (world s) = (Ok messages, w) ->
  exists n s2,
    _process_group_messages messages (group_id group) (group_name group)
      (with_world w (after_recency_check group s)) = (Ok n, s2) /\
    collect_from_group group s =
    (Ok n,
     with_slept (slept s2 ++ [2])
       (with_last_group_check
          (<[group_id group := clock s2 (ticks s2)]> (last_group_check s2))
          (with_ticks (S (ticks s2)) s2))).
Proof.
  intros H Hf.
  destruct (process_group_messages_run save_link extract_links categorize_link
              messages (group_id group) (group_name group)
              (with_world w (after_recency_check group s))) as (fr & _ & Hp).
  exists (links_collected fr), (self fr). split; [exact Hp|].
  revert H Hf Hp.
  unfold AutoCollector.collect_from_group, checked_recently, after_recency_check.
  unfold bind at 1. unfold get at 1.
  destruct (last_group_check s !! group_id group); intros H Hf Hp.
  - unfold bind at 1. unfold bind at 1. unfold datetime_now at 1.
    unfold ret at 1. rewrite H.
    unfold bind at 1. unfold in_world at 1. simpl world. rewrite Hf.
    rewrite (bind_ok _ _ _ _ _ Hp). reflexivity.
  - unfold bind at 1. unfold ret at 1.
    unfold bind at 1. unfold in_world at 1. rewrite Hf.
    rewrite (bind_ok _ _ _ _ _ Hp). reflexivity.
Qed.

Lemma collect_groups_cons group rest total (s : @State W) n s' :
  is_collecting s = true ->
  try_except (collect_from_group group) (fun _ => ret 0) s = (Ok n, s') ->
  collect_groups (group :: rest) total s = collect_groups rest (total + n) s'.
Proof.
  intros Hc H. cbn [AutoCollector.collect_groups].
  unfold bind at 1. unfold get at 1. rewrite Hc. cbn [negb].
  rewrite (bind_ok _ _ _ _ _ H). reflexivity.
Qed.

(** C9, as amended.  While the engine is running, a target that is due
    (not checked within the last hour) is handled as follows.  When the
    fetch of its messages raises, the error stops at this target: the
    loop goes on with the next target with the running total unchanged,
    and the target's last-checked timestamp is left as it was.  When the
    fetch returns, the messages are processed, the timestamp of the target
    is set to the reading of the clock made after the processing, and the
    loop goes on with the total increased by the links counted.  A pass as
    a whole always returns normally. *)
Theorem target_error_isolated group rest total (s : @State W) :
  is_collecting s = true ->
  checked_recently group s = false ->
  (forall e w,
     get_group_messages (group_id group) false 100 (world s) = (Raise e, w) ->
     try_except (collect_from_group group) (fun _ => ret 0) s =
       (Ok 0, with_world w (after_recency_check group s)) /\
     last_group_check (with_world w (after_recency_check group s)) =
       last_group_check s /\
     collect_groups (group :: rest) total s =
       collect_groups rest total (with_world w (after_recency_check group s))) /\
  (forall messages w,
     get_group_messages (group_id group) false 100 (world s) = (Ok messages, w) ->
     exists n s',
       try_except (collect_from_group group) (fun _ => ret 0) s = (Ok n, s') /\
       last_group_check s' !! group_id group =
         Some (clock s (ticks (after_recency_check group s))) /\
       collect_groups (group :: rest) total s =
         collect_groups rest (total + n) s') /\
  (exists s', _collect_from_all_groups s = (Ok tt, s')).
Proof.
  intros Hc Hd. split; [|split].
  - intros e w Hf.
    assert (H : try_except (collect_from_group group) (fun _ => ret 0) s =
                (Ok 0, with_world w (after_recency_check group s))).
    { erewrite try_except_raise;
        [reflexivity|apply collect_from_group_fetch_raises; eassumption]. }
    split; [exact H|]. split.
    + simpl. apply last_group_check_after_recency_check.
    + rewrite (collect_groups_cons _ _ _ _ _ _ Hc H). f_equal. lia.
  - intros messages w Hf.
    destruct (collect_from_group_fetch_returns group s messages w Hd Hf)
      as (n & s2 & Hp & Hrun).
    assert (H := try_except_ok _ (fun _ => ret 0) _ _ _ Hrun).
    eexists n, _. split; [exact H|]. split.
    + simpl. rewrite lookup_insert_eq.
      apply (process_group_messages_keeps save_link extract_links categorize_link
               only_urls_and_world only_urls_and_world_refl
               only_urls_and_world_trans) in Hp;
        [|intros; repeat split..].
      destruct Hp as (_&_&_&_&_&_&Hclk&Htk&_).
      rewrite Hclk, Htk. simpl.
      unfold after_recency_check. destruct (_ !! _); reflexivity.
    + apply (collect_groups_cons _ _ _ _ _ _ Hc H).
  - apply collect_from_all_groups_total.
Qed.

End TargetFacts.

(** C9, counterexample.  With one group in the directory and a message
    source that raises, a pass returns normally, and the group, though it
    was processed, has no last-checked timestamp afterwards; with a source
    that returns, it has one. *)
Lemma failed_target_keeps_timestamp :
  checked_recently (mkGroup "g1" "Group one") example_engine = false /\
  fst (_collect_from_all_groups one_group failing_source storing_gateway
         text_is_link any_category example_engine) = Ok tt /\
  last_group_check
    (snd (_collect_from_all_groups one_group failing_source storing_gateway
            text_is_link any_category example_engine)) !! "g1" = None /\
  last_group_check
    (snd (_collect_from_all_groups one_group two_messages storing_gateway
            text_is_link any_category example_engine)) !! "g1" =
    Some (at_time 2024 1 1 3 0).
Proof. vm_compute. repeat split; reflexivity. Qed.

Lemma target_error_isolated_witness :
  is_collecting example_engine = true /\
  checked_recently (mkGroup "g1" "Group one") example_engine = false /\
  failing_source "g1" false 100 (world example_engine) =
    (Raise (Exception "fetch failed"), []) /\
  last_group_check
    (with_world [] (after_recency_check (mkGroup "g1" "Group one") example_engine)) =
    last_group_check example_engine /\
  collect_groups failing_source storing_gateway text_is_link any_category
    [mkGroup "g1" "Group one"] 0 example_engine =
  collect_groups failing_source storing_gateway text_is_link any_category
    [] 0 (with_world [] (after_recency_check (mkGroup "g1" "Group one") example_engine)).
Proof.
  split; [reflexivity|]. split; [reflexivity|]. split; [reflexivity|].
  refine (proj2 (proj1 (target_error_isolated one_group failing_source storing_gateway
            text_is_link any_category (mkGroup "g1" "Group one") [] 0
            example_engine _ _) (Exception "fetch failed") [] _));
    reflexivity.
Defined.

(** *** Deduplication over a whole pass *)

Section PassGrowth.
Context {W : Type}.
Variable get_all_groups : M W (list Group).
Variable get_group_messages : string -> bool -> Z -> M W (list Message).
Variable save_link : LinkData -> M W bool.
Variable extract_links : string -> result (list string).
Variable categorize_link : string -> result string.

Local Abbreviation _process_group_messages :=
  (AutoCollector._process_group_messages save_link extract_links categorize_link).
Local Abbreviation collect_from_group :=
  (AutoCollector.collect_from_group get_group_messages save_link extract_links
     categorize_link).
Local Abbreviation collect_groups :=
  (AutoCollector.collect_groups get_group_messages save_link extract_links
     categorize_link).
Local Abbreviation _collect_from_all_groups :=
  (AutoCollector._collect_from_all_groups get_all_groups get_group_messages
     save_link extract_links categorize_link).

Lemma after_recency_check_urls group (s : @State W) :
  collected_urls (after_recency_check group s) = collected_urls s /\
  collection_stats (after_recency_check group s) = collection_stats s.
Proof. unfold after_recency_check. destruct (_ !! _); split; reflexivity. Qed.

(** One target: what it adds to the running total is what the dedup set
    gains, and the recorded total is not touched. *)
Lemma collect_one_group_growth group (s : @State W) :
  exists n s',
    try_except (collect_from_group group) (fun _ => ret 0) s = (Ok n, s') /\
    collected_urls s ⊆ collected_urls s' /\
    Z.of_nat (size (collected_urls s')) = Z.of_nat (size (collected_urls s)) + n /\
    collection_stats s' = collection_stats s.
Proof.
  destruct (after_recency_check_urls group s) as [Hu Hst].
  destruct (checked_recently group s) eqn:Hr.
  - exists 0, (after_recency_check group s). split.
    + apply try_except_ok.
      apply (collect_from_group_skip get_group_messages save_link extract_links
               categorize_link). exact Hr.
    + rewrite Hu, Hst. split; [reflexivity|]. split; [lia|reflexivity].
  - destruct (get_group_messages (group_id group) false 100 (world s))
      as [[messages|e] w] eqn:Hf.
    + destruct (collect_from_group_fetch_returns get_group_messages save_link
                  extract_links categorize_link group s messages w Hr Hf)
        as (n & s2 & Hp & Hrun).
      eexists n, _. split; [apply try_except_ok; exact Hrun|].
      destruct (process_group_messages_growth save_link extract_links
                  categorize_link messages (group_id group) (group_name group)
                  (with_world w (after_recency_check group s)))
        as (n' & s2' & Hp' & Hsub & Hsize).
      rewrite Hp in Hp'. inversion Hp'; subst n' s2'; clear Hp'.
      apply (process_group_messages_keeps save_link extract_links categorize_link
               only_urls_and_world only_urls_and_world_refl
               only_urls_and_world_trans) in Hp;
        [|intros; repeat split..].
      destruct Hp as (_&_&_&Hst2&_).
      simpl in *. rewrite Hu in Hsub, Hsize.
      split; [exact Hsub|]. split; [exact Hsize|].
      rewrite Hst2. exact Hst.
    + exists 0, (with_world w (after_recency_check group s)). split.
      * erewrite try_except_raise;
          [reflexivity|
           apply (collect_from_group_fetch_raises get_group_messages save_link
                    extract_links categorize_link); eassumption].
      * simpl. rewrite Hu, Hst. split; [reflexivity|]. split; [lia|reflexivity].
Qed.

Lemma collect_groups_growth groups : forall total (s : @State W),
  exists total' s',
    collect_groups groups total s = (Ok total', s') /\
    collected_urls s ⊆ collected_urls s' /\
    Z.of_nat (size (collected_urls s')) =
      Z.of_nat (size (collected_urls s)) + (total' - total) /\
    collection_stats s' = collection_stats s.
Proof.
  induction groups as [|group rest IH]; intros total s.
  - exists total, s. split; [reflexivity|]. split; [reflexivity|].
    split; [lia|reflexivity].
  - cbn [AutoCollector.collect_groups].
    unfold bind at 1. unfold get at 1.
    destruct (is_collecting s); cbn [negb].
    + destruct (collect_one_group_growth group s) as (n & s1 & H1 & Hs1 & Hz1 & Hc1).
      rewrite (bind_ok _ _ _ _ _ H1).
      destruct (IH (total + n) s1) as (total' & s' & H2 & Hs2 & Hz2 & Hc2).
      exists total', s'. split; [exact H2|].
      split; [etransitivity; eassumption|]. split; [lia|congruence].
    + exists total, s. split; [reflexivity|]. split; [reflexivity|].
      split; [lia|reflexivity].
Qed.

(** Over a whole pass the number of links recorded as new is the number
    of members the dedup set gained. *)
Lemma collect_from_all_groups_growth (s : @State W) :
  exists s',
    _collect_from_all_groups s = (Ok tt, s') /\ pass_growth s s'.
Proof.
  unfold AutoCollector._collect_from_all_groups, try_except.
  unfold bind at 1. unfold in_world at 1.
  destruct (get_all_groups (world s)) as [[groups|e] w].
  - destruct groups as [|g rest].
    + eexists. split; [reflexivity|]. split; simpl; [reflexivity|lia].
    + destruct (collect_groups_growth (g :: rest) 0 (with_world w s))
        as (total & s1 & H1 & Hs & Hz & Hc).
      rewrite (bind_ok _ _ _ _ _ H1).
      eexists. split; [reflexivity|]. simpl in *.
      split; simpl; [exact Hs|]. rewrite Hc. simpl. lia.
  - eexists. split; [reflexivity|]. split; simpl; [reflexivity|lia].
Qed.

End PassGrowth.

(** Two targets whose fetches return the same URL, in one pass: one link
    recorded, one save kept by the gateway, one member in the dedup
    set. *)
Lemma same_url_two_targets :
  total_links
    (collection_stats
       (snd (_collect_from_all_groups two_groups one_message_each storing_gateway
               text_is_link any_category example_engine))) = 1 /\
  world
    (snd (_collect_from_all_groups two_groups one_message_each storing_gateway
            text_is_link any_category example_engine)) = ["http://a.example/1"] /\
  elements
    (collected_urls
       (snd (_collect_from_all_groups two_groups one_message_each storing_gateway
               text_is_link any_category example_engine))) = ["http://a.example/1"].
Proof. vm_compute. repeat split; reflexivity. Qed.

Section DedupClaim.
Context {W : Type}.
Variable get_all_groups : M W (list Group).
Variable get_group_messages : string -> bool -> Z -> M W (list Message).
Variable save_link : LinkData -> M W bool.
Variable extract_links : string -> result (list string).
Variable categorize_link : string -> result string.

Local Abbreviation State := (@AutoCollector.State W).
Local Abbreviation Frame := (@AutoCollector.Frame W).
Local Abbreviation process_link := (AutoCollector.process_link save_link categorize_link).
Local Abbreviation _process_group_messages :=
  (AutoCollector._process_group_messages save_link extract_links categorize_link).
Local Abbreviation _collect_from_all_groups :=
  (AutoCollector._collect_from_all_groups get_all_groups get_group_messages
     save_link extract_links categorize_link).

(** C7.  Over a whole collection pass, and within each call that
    processes the messages of one target, the number of links counted as
    new equals the number of members the dedup set gains.  A URL enters
    the dedup set only when it was not yet there, a database is present
    and the persistence gateway answered the save with [True]; the counter
    then goes up by one.  When the same URL is discovered twice, in two
    messages or twice in one message, and the gateway reports the first
    save as new, exactly one save reaches the gateway, exactly one link is
    counted and the dedup set gains exactly that one member. *)
Theorem same_url_counted_once :
  (forall s : State,
     exists s', _collect_from_all_groups s = (Ok tt, s') /\ pass_growth s s') /\
  (forall messages gid gname (s : State),
     exists n s',
       _process_group_messages messages gid gname s = (Ok n, s') /\
       collected_urls s ⊆ collected_urls s' /\
       Z.of_nat (size (collected_urls s')) =
       Z.of_nat (size (collected_urls s)) + n) /\
  (forall message gid gname link (fr : Frame) x fr',
     process_link message gid gname link fr = (x, fr') ->
     collected_urls (self fr') <> collected_urls (self fr) ->
     (link ∉ collected_urls (self fr)) /\ has_db (self fr) = true /\
     exists category w,
       categorize_link link = Ok category /\
       save_link (link_data (self fr) message gid gname link category)
         (world (self fr)) = (Ok true, w) /\
       x = Ok tt /\
       collected_urls (self fr') = {[link]} ∪ collected_urls (self fr) /\
       links_collected fr' = links_collected fr + 1) /\
  (forall m1 m2 gid gname (s : State) u category w,
     body m1 <> EmptyString -> body m2 <> EmptyString ->
     extract_links (body m1) = Ok [u] -> extract_links (body m2) = Ok [u] ->
     u ∉ collected_urls s -> has_db s = true ->
     categorize_link u = Ok category ->
     save_link (link_data s m1 gid gname u category) (world s) = (Ok true, w) ->
     _process_group_messages [m1; m2] gid gname s =
       (Ok 1, with_collected_urls ({[u]} ∪ collected_urls s) (with_world w s)) /\
     size ({[u]} ∪ collected_urls s) = Datatypes.S (size (collected_urls s))) /\
  (forall m1 gid gname (s : State) u category w,
     body m1 <> EmptyString ->
     extract_links (body m1) = Ok [u; u] ->
     u ∉ collected_urls s -> has_db s = true ->
     categorize_link u = Ok category ->
     save_link (link_data s m1 gid gname u category) (world s) = (Ok true, w) ->
     _process_group_messages [m1] gid gname s =
       (Ok 1, with_collected_urls ({[u]} ∪ collected_urls s) (with_world w s)) /\
     size ({[u]} ∪ collected_urls s) = Datatypes.S (size (collected_urls s))).
Proof.
  split; [|split; [|split; [|split]]].
  - apply collect_from_all_groups_growth.
  - apply process_group_messages_growth.
  - apply process_link_adds_only_saved.
  - intros. split; [eapply same_url_two_messages; eassumption|].
    apply size_add_fresh. assumption.
  - intros. split; [eapply same_url_one_message; eassumption|].
    apply size_add_fresh. assumption.
Qed.

End DedupClaim.

Lemma same_url_counted_once_witness :
  ("http://a.example/1" ∉ collected_urls example_engine) /\
  storing_gateway
    (link_data example_engine (mkMessage "http://a.example/1" "m1" "alice")
       "g1" "Group one" "http://a.example/1" "other") (world example_engine) =
    (Ok true, ["http://a.example/1"]) /\
  _process_group_messages storing_gateway text_is_link any_category
    [mkMessage "http://a.example/1" "m1" "alice";
     mkMessage "http://a.example/1" "m2" "bob"] "g1" "Group one" example_engine =
  (Ok 1,
   with_collected_urls ({["http://a.example/1"]} ∪ collected_urls example_engine)
     (with_world ["http://a.example/1"] example_engine)) /\
  size ({["http://a.example/1"]} ∪ collected_urls example_engine) =
    Datatypes.S (size (collected_urls example_engine)).
Proof.
  assert (Hu : "http://a.example/1" ∉ collected_urls example_engine).
  { simpl. apply not_elem_of_empty. }
  split; [exact Hu|]. split; [reflexivity|].
  refine (proj1 (proj2 (proj2 (proj2 (same_url_counted_once one_group two_messages
            storing_gateway text_is_link any_category))))
          (mkMessage "http://a.example/1" "m1" "alice")
          (mkMessage "http://a.example/1" "m2" "bob") "g1" "Group one"
          example_engine "http://a.example/1"
          "other" ["http://a.example/1"] _ _ _ _ Hu _ _ _);
    try reflexivity; discriminate.
Defined.

(** *** The daily quota *)

Section QuotaFacts.
Context {W : Type}.
Variable get_all_groups : M W (list Group).
Variable get_group_messages : string -> bool -> Z -> M W (list Message).
Variable save_link : LinkData -> M W bool.
Variable extract_links : string -> result (list string).
Variable categorize_link : string -> result string.

Local Abbreviation _collect_from_all_groups :=
  (AutoCollector._collect_from_all_groups get_all_groups get_group_messages
     save_link extract_links categorize_link).
Local Abbreviation loop_body :=
  (AutoCollector.loop_body get_all_groups get_group_messages save_link
     extract_links categorize_link).
Local Abbreviation while_collecting :=
  (AutoCollector.while_collecting get_all_groups get_group_messages save_link
     extract_links categorize_link).

Lemma date_differs_same d : date_differs (Some d) d = false.
Proof.
  unfold date_differs. replace (date_eqb d d) with true; [reflexivity|].
  symmetry. apply date_eqb_eq. reflexivity.
Qed.

Lemma date_differs_other d d' : d' <> d -> date_differs (Some d) d' = true.
Proof.
  intros H. unfold date_differs. destruct (date_eqb d d') eqn:E; [|reflexivity].
  apply date_eqb_eq in E. congruence.
Qed.

Lemma collection_stats_with_ticks n (s : @State W) :
  collection_stats (with_ticks n s) = collection_stats s.
Proof. reflexivity. Qed.

Lemma collection_stats_with_stats v (s : @State W) :
  collection_stats (with_stats v s) = v.
Proof. reflexivity. Qed.

(** On the stored date the daily counter is left alone. *)
Lemma reset_same_day (s : @State W) :
  date_differs (last_collection_date (collection_stats s))
    (date_of (clock s (ticks s))) = false ->
  _reset_daily_counter_if_needed s = (Ok tt, with_ticks (S (ticks s)) s).
Proof.
  intros H. unfold _reset_daily_counter_if_needed, try_except.
  unfold bind at 1. unfold datetime_now at 1.
  unfold bind at 1. unfold get at 1. rewrite !collection_stats_with_ticks, H.
  reflexivity.
Qed.

(** On another date the counter restarts from zero and the date is
    stored. *)
Lemma reset_new_day (s : @State W) :
  date_differs (last_collection_date (collection_stats s))
    (date_of (clock s (ticks s))) = true ->
  _reset_daily_counter_if_needed s =
  (Ok tt,
   with_stats
     (mkStats (total_links (collection_stats s))
        (last_collection (collection_stats s)) 0
        (Some (date_of (clock s (ticks s)))))
     (with_ticks (S (ticks s)) s)).
Proof.
  intros H. unfold _reset_daily_counter_if_needed, try_except.
  unfold bind at 1. unfold datetime_now at 1.
  unfold bind at 1. unfold get at 1. rewrite !collection_stats_with_ticks, H.
  reflexivity.
Qed.

(** At the cap, on the stored date, a turn of the loop only reads the
    clock and sleeps an hour. *)
Lemma loop_body_cool_down interval (s : @State W) :
  50 <= collections_today (collection_stats s) ->
  date_differs (last_collection_date (collection_stats s))
    (date_of (clock s (ticks s))) = false ->
  loop_body interval s =
  (Ok tt, with_slept (slept s ++ [3600]) (with_ticks (S (ticks s)) s)).
Proof.
  intros Hcap Hd. unfold AutoCollector.loop_body, try_except.
  rewrite (bind_ok _ _ _ _ _ (reset_same_day s Hd)).
  unfold bind at 1. unfold get at 1. rewrite !collection_stats_with_ticks.
  destruct (Z.leb_spec 50 (collections_today (collection_stats s))); [|lia].
  reflexivity.
Qed.

Lemma while_collecting_cool_down interval n : forall (s : @State W),
  is_collecting s = true ->
  50 <= collections_today (collection_stats s) ->
  (forall i, (i < n)%nat ->
     date_differs (last_collection_date (collection_stats s))
       (date_of (clock s (ticks s + i))) = false) ->
  while_collecting interval n s =
  (Ok tt, with_slept (slept s ++ repeat 3600 n) (with_ticks (ticks s + n) s)).
Proof.
  induction n as [|n IH]; intros s Hc Hcap Hd.
  - simpl. unfold ret. destruct s; unfold with_slept, with_ticks; simpl.
    rewrite app_nil_r, Nat.add_0_r. reflexivity.
  - cbn [AutoCollector.while_collecting].
    unfold bind at 1. unfold get at 1. rewrite Hc.
    assert (H0 : date_differs (last_collection_date (collection_stats s))
                   (date_of (clock s (ticks s))) = false).
    { specialize (Hd O). rewrite Nat.add_0_r in Hd. apply Hd. lia. }
    rewrite (bind_ok _ _ _ _ _ (loop_body_cool_down interval s Hcap H0)).
    rewrite IH.
    + destruct s; unfold with_slept, with_ticks; simpl.
      rewrite <- app_assoc. simpl. do 2 f_equal. lia.
    + exact Hc.
    + exact Hcap.
    + intros i Hi. simpl.
      replace (Datatypes.S (ticks s + i))%nat with (ticks s + Datatypes.S i)%nat by lia.
      apply Hd. lia.
Qed.

(** After a change of date a turn of the loop restarts the counter and
    performs a pass. *)
Lemma loop_body_new_day interval (s : @State W) :
  date_differs (last_collection_date (collection_stats s))
    (date_of (clock s (ticks s))) = true ->
  exists s1 s2,
    _reset_daily_counter_if_needed s = (Ok tt, s1) /\
    collections_today (collection_stats s1) = 0 /\
    last_collection_date (collection_stats s1) = Some (date_of (clock s (ticks s))) /\
    _collect_from_all_groups s1 = (Ok tt, s2) /\
    loop_body interval s =
    (Ok tt,
     with_slept (slept s2 ++ [interval])
       (with_stats
          (mkStats (total_links (collection_stats s2))
             (last_collection (collection_stats s2)) 1
             (Some (date_of (clock s (ticks s)))))
          s2)).
Proof.
  intros Hd. pose proof (reset_new_day s Hd) as Hr.
  eexists _. 
  destruct (collect_from_all_groups_total get_all_groups get_group_messages
              save_link extract_links categorize_link
              (with_stats
                 (mkStats (total_links (collection_stats s))
                    (last_collection (collection_stats s)) 0
                    (Some (date_of (clock s (ticks s)))))
                 (with_ticks (S (ticks s)) s))) as [s2 Hp].
  exists s2. split; [exact Hr|]. split; [reflexivity|]. split; [reflexivity|].
  split; [exact Hp|].
  pose proof (collect_from_all_groups_quota get_all_groups get_group_messages
                save_link extract_links categorize_link _ _ _ Hp)
    as (Hq1 & Hq2 & _).
  simpl in Hq1, Hq2.
  unfold AutoCollector.loop_body, try_except.
  rewrite (bind_ok _ _ _ _ _ Hr).
  unfold bind at 1. unfold get at 1. rewrite collection_stats_with_stats.
  cbn [collections_today]. change (50 <=? 0) with false. cbv iota.
  rewrite (bind_ok _ _ _ _ _ Hp).
  unfold bind at 1. unfold modify at 1. unfold asyncio_sleep, modify.
  rewrite Hq1, Hq2. reflexivity.
Qed.

(** C8.  Once the daily counter has reached the cap of 50, and as long as
    the clock shows the stored date, every turn of the loop takes the
    cool-down branch: it reads the clock, sleeps 3600 seconds and changes
    nothing else, so no pass is performed and the counter stays as it is.
    On the first turn at which the clock shows another date, the counter
    is reset to zero, the new date is stored, and a pass is performed,
    after which the counter is 1 and the loop sleeps the configured
    interval. *)
Theorem daily_cap_cool_down interval n (s : @State W) d :
  is_collecting s = true ->
  50 <= collections_today (collection_stats s) ->
  last_collection_date (collection_stats s) = Some d ->
  ((forall i, (i < n)%nat -> date_of (clock s (ticks s + i)) = d) ->
   while_collecting interval n s =
   (Ok tt, with_slept (slept s ++ repeat 3600 n) (with_ticks (ticks s + n) s))) /\
  (date_of (clock s (ticks s)) <> d ->
   exists s1 s2,
     _reset_daily_counter_if_needed s = (Ok tt, s1) /\
     collections_today (collection_stats s1) = 0 /\
     last_collection_date (collection_stats s1) = Some (date_of (clock s (ticks s))) /\
     _collect_from_all_groups s1 = (Ok tt, s2) /\
     loop_body interval s =
     (Ok tt,
      with_slept (slept s2 ++ [interval])
        (with_stats
           (mkStats (total_links (collection_stats s2))
              (last_collection (collection_stats s2)) 1
              (Some (date_of (clock s (ticks s)))))
           s2))).
Proof.
  intros Hc Hcap Hs. split.
  - intros Hd. apply while_collecting_cool_down; [exact Hc|exact Hcap|].
    intros i Hi. rewrite Hs, (Hd i Hi). apply date_differs_same.
  - intros Hd. apply loop_body_new_day. rewrite Hs.
    apply date_differs_other. exact Hd.
Qed.

End QuotaFacts.

Lemma daily_cap_cool_down_witness :
  is_collecting (engine_at (at_time 2024 1 1 3 0) 50 (Some (mkdate 2024 1 1))
                   ([] : list string)) = true /\
  while_collecting one_group two_messages storing_gateway text_is_link
    any_category 300 3
    (engine_at (at_time 2024 1 1 3 0) 50 (Some (mkdate 2024 1 1)) []) =
  (Ok tt,
   with_slept [3600; 3600; 3600]
     (with_ticks 3
        (engine_at (at_time 2024 1 1 3 0) 50 (Some (mkdate 2024 1 1)) []))) /\
  exists s1 s2,
    _reset_daily_counter_if_needed
      (engine_at (at_time 2024 1 2 0 5) 50 (Some (mkdate 2024 1 1))
         ([] : list string)) = (Ok tt, s1) /\
    collections_today (collection_stats s1) = 0 /\
    _collect_from_all_groups one_group two_messages storing_gateway
      text_is_link any_category s1 = (Ok tt, s2) /\
    collections_today
      (collection_stats
         (snd (loop_body one_group two_messages storing_gateway text_is_link
                 any_category 300
                 (engine_at (at_time 2024 1 2 0 5) 50 (Some (mkdate 2024 1 1)) [])))) = 1.
Proof.
  split; [reflexivity|]. split.
  - refine (proj1 (daily_cap_cool_down one_group two_messages storing_gateway
              text_is_link any_category 300 3
              (engine_at (at_time 2024 1 1 3 0) 50 (Some (mkdate 2024 1 1)) [])
              (mkdate 2024 1 1) _ _ _) _);
      [reflexivity|simpl; lia|reflexivity|intros i _; reflexivity].
  - destruct (proj2 (daily_cap_cool_down one_group two_messages storing_gateway
              text_is_link any_category 300 1
              (engine_at (at_time 2024 1 2 0 5) 50 (Some (mkdate 2024 1 1)) [])
              (mkdate 2024 1 1) eq_refl ltac:(simpl; lia) eq_refl)
              ltac:(simpl; discriminate))
      as (s1 & s2 & Hr & H0 & _ & Hp & Hl).
    exists s1, s2. split; [exact Hr|]. split; [exact H0|]. split; [exact Hp|].
    rewrite Hl. reflexivity.
Defined.

(** * The task interface of the scheduler *)

Import Scheduler.
Import SchedulerApi.

Section DictMoreFacts.
Context {V : Type}.

Lemma dict_get_set_ne k k' (v : V) d :
  k' <> k -> dict_get k' (dict_set k v d) = dict_get k' d.
Proof.
  intros Hne. induction d as [|[k1 v1] r IH]; simpl.
  - destruct (String.eqb_spec k' k); [contradiction|reflexivity].
  - destruct (String.eqb_spec k k1) as [->|Hk]; simpl.
    + destruct (String.eqb_spec k' k1); [contradiction|reflexivity].
    + destruct (String.eqb_spec k' k1); [reflexivity|exact IH].
Qed.

Lemma dict_get_del_ne k k' (d : list (string * V)) :
  k' <> k -> dict_get k' (dict_del k d) = dict_get k' d.
Proof.
  intros Hne. induction d as [|[k1 v1] r IH]; simpl; [reflexivity|].
  destruct (String.eqb_spec k k1) as [->|Hk]; simpl.
  - destruct (String.eqb_spec k' k1); [contradiction|reflexivity].
  - destruct (String.eqb_spec k' k1); [reflexivity|exact IH].
Qed.

Lemma dict_get_not_in k (d : list (string * V)) :
  k ∉ map fst d -> dict_get k d = None.
Proof.
  induction d as [|[k1 v1] r IH]; simpl; [reflexivity|].
  intros Hn. apply not_elem_of_cons in Hn as [Hne Hn].
  destruct (String.eqb_spec k k1) as [->|Hk]; [contradiction|].
  apply IH. exact Hn.
Qed.

(** In a dictionary, which holds a key once, a deleted key is gone. *)
Lemma dict_get_del_eq k (d : list (string * V)) :
  NoDup (map fst d) -> dict_get k (dict_del k d) = None.
Proof.
  induction d as [|[k1 v1] r IH]; simpl; [reflexivity|].
  intros Hnd. apply NoDup_cons in Hnd as [Hn Hr].
  destruct (String.eqb_spec k k1) as [->|Hk].
  - apply dict_get_not_in. exact Hn.
  - simpl. destruct (String.eqb_spec k k1); [contradiction|]. apply IH. exact Hr.
Qed.

(** Storing under a new key and deleting the key gives the dictionary
    back. *)
Lemma dict_del_set_fresh k (v : V) d :
  dict_get k d = None -> dict_del k (dict_set k v d) = d.
Proof.
  induction d as [|[k1 v1] r IH]; simpl.
  - intros _. rewrite String.eqb_refl. reflexivity.
  - destruct (String.eqb_spec k k1) as [->|Hk]; [discriminate|].
    intros H. simpl. destruct (String.eqb_spec k k1); [contradiction|].
    rewrite IH by exact H. reflexivity.
Qed.

Lemma dict_get_alter_none (f : V -> V) k k' d :
  dict_get k' d = None -> dict_get k' (dict_alter f k d) = None.
Proof.
  induction d as [|[k1 v1] r IH]; simpl; [reflexivity|].
  destruct (String.eqb_spec k k1) as [->|Hk]; simpl;
    destruct (String.eqb_spec k' k1); try discriminate; auto.
Qed.

End DictMoreFacts.

Section SchedulingFacts.

Variable crontab_ok : string -> bool.

Lemma add_to_scheduler_run task s :
  _add_to_scheduler crontab_ok task s =
  (Ok tt,
   match trigger_for crontab_ok task with
   | Some trigger => with_jobs (dict_set (id task) (name task, trigger) (jobs s)) s
   | None => s
   end).
Proof.
  unfold _add_to_scheduler, trigger_for, try_except, bind, from_crontab,
    add_job, modify, ret, raise.
  destruct (frequency task); try reflexivity.
  destruct (crontab_ok (schedule_time task)); reflexivity.
Qed.

(** The scheduler once [task], with its next run [r], went through
    [_add_to_scheduler] and into the registry. *)
Lemma schedule_task_run task s r s1 :
  _validate_schedule_time (schedule_time task) (frequency task) = true ->
  _calculate_next_run task s = (Ok r, s1) ->
  schedule_task crontab_ok task s =
  (Ok true,
   with_tasks (dict_set (id task) (set_next_run (Some r) task) (scheduled_tasks s1))
     match trigger_for crontab_ok task with
     | Some trigger => with_jobs (dict_set (id task) (name task, trigger) (jobs s1)) s1
     | None => s1
     end).
Proof.
  intros Hv Hc. unfold schedule_task. apply try_except_ok. rewrite Hv.
  cbn [negb]. rewrite (bind_ok _ _ _ _ _ Hc).
  unfold bind at 1. rewrite add_to_scheduler_run.
  replace (trigger_for crontab_ok (set_next_run (Some r) task))
    with (trigger_for crontab_ok task) by reflexivity.
  cbn [id name set_next_run].
  unfold bind, modify, get, ret, _save_task_to_db, try_except.
  destruct (trigger_for crontab_ok task); cbn [db with_tasks with_jobs];
    destruct (db s1); reflexivity.
Qed.

Lemma schedule_task_overflow task s e s1 :
  _calculate_next_run task s = (Raise e, s1) ->
  schedule_task crontab_ok task s =
  (Ok false,
   if _validate_schedule_time (schedule_time task) (frequency task) then s1 else s).
Proof.
  intros Hc. unfold schedule_task, try_except.
  destruct (_validate_schedule_time _ _); cbn [negb].
  - rewrite (bind_raise _ _ _ _ _ Hc). reflexivity.
  - reflexivity.
Qed.

(** X1.  A task whose schedule-spec passes validation is registered under its
    id with a next run after the present instant, a timer is set for it
    when the timer library accepts its trigger, and no other task or
    timer is touched. *)
Theorem schedule_task_registers task s :
  clock_ok (clock s) ->
  year (date_of (clock s (S (ticks s)))) < MAXYEAR ->
  _validate_schedule_time (schedule_time task) (frequency task) = true ->
  exists r s',
    schedule_task crontab_ok task s = (Ok true, s') /\
    datetime_lt (clock s (ticks s)) r /\
    dict_get (id task) (scheduled_tasks s') = Some (set_next_run (Some r) task) /\
    (forall k, k <> id task ->
       dict_get k (scheduled_tasks s') = dict_get k (scheduled_tasks s)) /\
    dict_get (id task) (jobs s') =
      match trigger_for crontab_ok task with
      | Some trigger => Some (name task, trigger)
      | None => dict_get (id task) (jobs s)
      end /\
    (forall k, k <> id task -> dict_get k (jobs s') = dict_get k (jobs s)).
Proof.
  intros Hok Hy Hv.
  destruct (calculate_next_run_some task s Hok Hy)
    as (r & s1 & Hc & _ & _ & Ht & Hj & _ & _).
  exists r. eexists. split; [apply (schedule_task_run _ _ _ _ Hv Hc)|].
  split; [eapply calculate_next_run_after; eauto|].
  rewrite scheduled_tasks_with_tasks, Ht, Hj.
  split; [apply dict_get_set_eq|].
  split; [intros k Hk; apply dict_get_set_ne; exact Hk|].
  destruct (trigger_for crontab_ok task); cbn [jobs with_tasks with_jobs].
  - split; [apply dict_get_set_eq|]. intros k Hk. apply dict_get_set_ne. exact Hk.
  - rewrite Hj. split; reflexivity.
Qed.

End SchedulingFacts.

Lemma schedule_task_registers_witness :
  exists r s',
    schedule_task five_fields
      (new_task "weekly_cleanup" TaskType.CLEANUP ScheduleFrequency.WEEKLY "04:00")
      (scheduler_at (at_time 2024 1 3 3 0) []) = (Ok true, s') /\
    datetime_lt (at_time 2024 1 3 3 0) r /\
    dict_get "weekly_cleanup" (scheduled_tasks s') =
      Some (set_next_run (Some r)
              (new_task "weekly_cleanup" TaskType.CLEANUP ScheduleFrequency.WEEKLY "04:00")).
Proof.
  destruct (schedule_task_registers five_fields
              (new_task "weekly_cleanup" TaskType.CLEANUP ScheduleFrequency.WEEKLY "04:00")
              (scheduler_at (at_time 2024 1 3 3 0) []))
    as (r & s' & H1 & H2 & H3 & _).
  - apply (clock_ok_const (at_time 2024 1 3 3 0)). vm_compute. intuition congruence.
  - vm_compute. reflexivity.
  - vm_compute. reflexivity.
  - exists r, s'. repeat split; assumption.
Defined.

Section TriggerEdges.

(** X2.  A schedule-spec that [strptime] cannot read (validation lets some
    through, such as a signed hour) does not stop the computation for a
    daily, weekly or monthly task: the error is caught, the clock is read
    a second time and the next run is five minutes after that reading. *)
Theorem unreadable_spec_falls_back task s :
  frequency task <> ScheduleFrequency.HOURLY ->
  frequency task <> ScheduleFrequency.CUSTOM ->
  strptime_HM (schedule_time task) = None ->
  _calculate_next_run task s =
  (match datetime_add (clock s (S (ticks s))) (timedelta_minutes 5) with
   | Some r => Ok r
   | None => Raise OverflowError
   end,
   with_ticks (S (S (ticks s))) s).
Proof.
  intros Hh Hc Hp.
  unfold _calculate_next_run, try_except, next_run_try, bind.
  rewrite datetime_now_run.
  destruct (frequency task); try contradiction; rewrite Hp;
    cbn [or_raise raise]; unfold next_run_except, bind;
    rewrite datetime_now_run; cbn [clock ticks with_ticks];
    destruct (datetime_add _ _); reflexivity.
Qed.

(** X3.  For a monthly task the next run is the time of day of the spec on the
    first day of the month after the present one, January of the next
    year in December: neither the day of the month nor the time at which
    the computation is made plays a part. *)
Theorem monthly_next_run_first_of_month task s t :
  frequency task = ScheduleFrequency.MONTHLY ->
  strptime_HM (schedule_time task) = Some t ->
  valid_datetime (clock s (ticks s)) ->
  year (date_of (clock s (ticks s))) < MAXYEAR ->
  _calculate_next_run task s =
  (Ok (combine
         (mkdate
            (if month (date_of (clock s (ticks s))) <? 12
             then year (date_of (clock s (ticks s)))
             else year (date_of (clock s (ticks s))) + 1)
            (if month (date_of (clock s (ticks s))) <? 12
             then month (date_of (clock s (ticks s))) + 1
             else 1)
            1)
         (mktime (hour t) (minute t) 0 0)),
   with_ticks (S (ticks s)) s).
Proof.
  intros Hf Hp [[Hy [Hm Hd]] _] Hmax.
  unfold _calculate_next_run, try_except, next_run_try, bind.
  rewrite datetime_now_run, Hf, Hp. cbn [or_raise ret].
  unfold datetime_first_of_month.
  set (now := clock s (ticks s)) in *.
  assert (E : (MINYEAR <=? (if month (date_of now) <? 12 then year (date_of now)
                            else year (date_of now) + 1)) &&
              ((if month (date_of now) <? 12 then year (date_of now)
                else year (date_of now) + 1) <=? MAXYEAR) &&
              (1 <=? (if month (date_of now) <? 12 then month (date_of now) + 1 else 1)) &&
              ((if month (date_of now) <? 12 then month (date_of now) + 1 else 1) <=? 12)
              = true).
  { unfold MINYEAR, MAXYEAR in *.
    destruct (Z.ltb_spec (month (date_of now)) 12);
      repeat (apply andb_true_intro; split); apply Z.leb_le; lia. }
  rewrite E. reflexivity.
Qed.

End TriggerEdges.

Lemma unreadable_spec_falls_back_witness :
  _validate_schedule_time "+1:30" ScheduleFrequency.DAILY = true /\
  fst (_calculate_next_run
         (new_task "report" TaskType.BACKUP ScheduleFrequency.DAILY "+1:30")
         (scheduler_at (at_time 2024 1 1 3 0) [])) = Ok (at_time 2024 1 1 3 5).
Proof.
  split; [vm_compute; reflexivity|].
  rewrite (unreadable_spec_falls_back
             (new_task "report" TaskType.BACKUP ScheduleFrequency.DAILY "+1:30")
             (scheduler_at (at_time 2024 1 1 3 0) [])).
  - vm_compute. reflexivity.
  - simpl. discriminate.
  - simpl. discriminate.
  - vm_compute. reflexivity.
Defined.

Lemma monthly_next_run_first_of_month_witness :
  fst (_calculate_next_run
         (new_task "report" TaskType.BACKUP ScheduleFrequency.MONTHLY "06:30")
         (scheduler_at (at_time 2024 12 17 10 15) [])) = Ok (at_time 2025 1 1 6 30).
Proof.
  rewrite (monthly_next_run_first_of_month
             (new_task "report" TaskType.BACKUP ScheduleFrequency.MONTHLY "06:30")
             (scheduler_at (at_time 2024 12 17 10 15) []) (mktime 6 30 0 0)).
  - vm_compute. reflexivity.
  - reflexivity.
  - vm_compute. reflexivity.
  - vm_compute. intuition congruence.
  - vm_compute. reflexivity.
Defined.

Section DeletionFacts.

Variable crontab_ok : string -> bool.

(** X4.  A CUSTOM task whose cron expression the timer library refuses is
    reported as scheduled all the same: the refusal is caught inside
    [_add_to_scheduler], the task enters the registry with a next run five
    minutes ahead, and no timer exists for it. *)
Theorem custom_task_without_timer task s :
  valid_datetime (clock s (ticks s)) ->
  year (date_of (clock s (ticks s))) < MAXYEAR ->
  frequency task = ScheduleFrequency.CUSTOM ->
  crontab_ok (schedule_time task) = false ->
  exists r s',
    schedule_task crontab_ok task s = (Ok true, s') /\
    datetime_add (clock s (ticks s)) (timedelta_minutes 5) = Some r /\
    dict_get (id task) (scheduled_tasks s') = Some (set_next_run (Some r) task) /\
    jobs s' = jobs s.
Proof.
  intros Hv Hy Hf Hc.
  destruct (datetime_add_some (clock s (ticks s)) (timedelta_minutes 5) Hv Hy)
    as [r Hr]; try (change (timedelta_minutes 5) with (mkdelta 0 300 0); simpl; lia).
  assert (Hn : _calculate_next_run task s = (Ok r, with_ticks (S (ticks s)) s)).
  { unfold _calculate_next_run, try_except, next_run_try, bind.
    rewrite datetime_now_run, Hf, Hr. reflexivity. }
  assert (Hval : _validate_schedule_time (schedule_time task) (frequency task) = true)
    by (rewrite Hf; reflexivity).
  exists r. eexists. split; [apply (schedule_task_run _ _ _ _ _ Hval Hn)|].
  split; [exact Hr|].
  assert (Ht : trigger_for crontab_ok task = None)
    by (unfold trigger_for; rewrite Hf, Hc; reflexivity).
  rewrite Ht, scheduled_tasks_with_tasks. split; [apply dict_get_set_eq|reflexivity].
Qed.

Lemma delete_task_run task_id task job s :
  dict_get task_id (scheduled_tasks s) = Some task ->
  dict_get task_id (jobs s) = Some job ->
  delete_task task_id s =
  (Ok true,
   with_tasks (dict_del task_id (scheduled_tasks s))
     (with_jobs (dict_del task_id (jobs s)) s)).
Proof.
  intros Ht Hj. unfold delete_task, remove_job, try_except, bind, get.
  rewrite Ht. cbv beta iota. rewrite Hj. reflexivity.
Qed.

(** X5.  Deleting a task that has its timer removes both, and only them. *)
Theorem delete_task_removes_task_and_timer task_id task job s :
  NoDup (map fst (scheduled_tasks s)) -> NoDup (map fst (jobs s)) ->
  dict_get task_id (scheduled_tasks s) = Some task ->
  dict_get task_id (jobs s) = Some job ->
  exists s',
    delete_task task_id s = (Ok true, s') /\
    dict_get task_id (scheduled_tasks s') = None /\
    dict_get task_id (jobs s') = None /\
    (forall k, k <> task_id ->
       dict_get k (scheduled_tasks s') = dict_get k (scheduled_tasks s) /\
       dict_get k (jobs s') = dict_get k (jobs s)).
Proof.
  intros Hnt Hnj Ht Hj. eexists.
  split; [apply (delete_task_run _ _ _ _ Ht Hj)|].
  cbn [scheduled_tasks jobs with_tasks with_jobs].
  split; [apply dict_get_del_eq; exact Hnt|].
  split; [apply dict_get_del_eq; exact Hnj|].
  intros k Hk. split; apply dict_get_del_ne; exact Hk.
Qed.

(** X6.  A registered task that has no timer cannot be deleted: the timer
    library raises on the missing job, the error is caught, the call
    reports failure and the task stays in the registry.  An id that is
    not registered is reported the same way. *)
Theorem delete_task_needs_timer task_id s :
  dict_get task_id (jobs s) = None \/ dict_get task_id (scheduled_tasks s) = None ->
  delete_task task_id s = (Ok false, s).
Proof.
  intros H. unfold delete_task, remove_job, try_except, bind, get.
  destruct (dict_get task_id (scheduled_tasks s)) as [task|]; [|reflexivity].
  destruct H as [H|H]; [|discriminate]. cbv beta iota. rewrite H. reflexivity.
Qed.

(** X7.  Scheduling a task under an id that is new, then deleting it, gives
    back the registry and the job store as they were. *)
Theorem schedule_then_delete_restores task s :
  clock_ok (clock s) ->
  year (date_of (clock s (S (ticks s)))) < MAXYEAR ->
  _validate_schedule_time (schedule_time task) (frequency task) = true ->
  trigger_for crontab_ok task <> None ->
  dict_get (id task) (scheduled_tasks s) = None ->
  dict_get (id task) (jobs s) = None ->
  exists s',
    (scheduled <- schedule_task crontab_ok task ;;
     deleted <- delete_task (id task) ;;
     ret (scheduled, deleted)) s = (Ok (true, true), s') /\
    scheduled_tasks s' = scheduled_tasks s /\ jobs s' = jobs s.
Proof.
  intros Hok Hy Hv Htr Ht Hj.
  destruct (calculate_next_run_some task s Hok Hy)
    as (r & s1 & Hc & _ & _ & Ht1 & Hj1 & _ & _).
  pose proof (schedule_task_run crontab_ok _ _ _ _ Hv Hc) as Hs.
  destruct (trigger_for crontab_ok task) as [trigger|]; [|contradiction].
  eexists. split.
  - rewrite (bind_ok _ _ _ _ _ Hs).
    erewrite bind_ok; [reflexivity|].
    eapply delete_task_run.
    + rewrite scheduled_tasks_with_tasks. apply dict_get_set_eq.
    + cbn [jobs with_tasks with_jobs]. apply dict_get_set_eq.
  - cbn [scheduled_tasks jobs with_tasks with_jobs]. rewrite Ht1, Hj1.
    split; apply dict_del_set_fresh; assumption.
Qed.

End DeletionFacts.

Lemma custom_task_without_timer_witness :
  exists r s',
    schedule_task five_fields
      (new_task "report" TaskType.CUSTOM ScheduleFrequency.CUSTOM "every day")
      (scheduler_at (at_time 2024 1 1 3 0) []) = (Ok true, s') /\
    datetime_add (at_time 2024 1 1 3 0) (timedelta_minutes 5) = Some r /\
    dict_get "report" (scheduled_tasks s') =
      Some (set_next_run (Some r)
              (new_task "report" TaskType.CUSTOM ScheduleFrequency.CUSTOM "every day")) /\
    jobs s' = [].
Proof.
  apply (custom_task_without_timer five_fields
           (new_task "report" TaskType.CUSTOM ScheduleFrequency.CUSTOM "every day")
           (scheduler_at (at_time 2024 1 1 3 0) [])).
  - vm_compute. intuition congruence.
  - vm_compute. reflexivity.
  - reflexivity.
  - vm_compute. reflexivity.
Defined.

Lemma delete_task_removes_task_and_timer_witness :
  exists s',
    delete_task "daily_backup"
      (with_jobs [("daily_backup", ("daily_backup", IntervalTrigger 86400))]
         (scheduler_at (at_time 2024 1 1 3 0)
            [("daily_backup",
              new_task "daily_backup" TaskType.BACKUP ScheduleFrequency.DAILY "02:00")]))
    = (Ok true, s') /\
    dict_get "daily_backup" (scheduled_tasks s') = None /\
    dict_get "daily_backup" (jobs s') = None.
Proof.
  destruct (delete_task_removes_task_and_timer "daily_backup"
              (new_task "daily_backup" TaskType.BACKUP ScheduleFrequency.DAILY "02:00")
              ("daily_backup", IntervalTrigger 86400)
              (with_jobs [("daily_backup", ("daily_backup", IntervalTrigger 86400))]
                 (scheduler_at (at_time 2024 1 1 3 0)
                    [("daily_backup",
                      new_task "daily_backup" TaskType.BACKUP ScheduleFrequency.DAILY "02:00")])))
    as (s' & H1 & H2 & H3 & _).
  - simpl. apply NoDup_singleton.
  - simpl. apply NoDup_singleton.
  - reflexivity.
  - reflexivity.
  - exists s'. repeat split; assumption.
Defined.

Lemma delete_task_needs_timer_witness :
  delete_task "report"
    (scheduler_at (at_time 2024 1 1 3 0)
       [("report", new_task "report" TaskType.CUSTOM ScheduleFrequency.CUSTOM "every day")])
  = (Ok false,
     scheduler_at (at_time 2024 1 1 3 0)
       [("report", new_task "report" TaskType.CUSTOM ScheduleFrequency.CUSTOM "every day")]).
Proof.
  apply (delete_task_needs_timer "report"). left. reflexivity.
Defined.

Lemma schedule_then_delete_restores_witness :
  exists s',
    (scheduled <- schedule_task five_fields
        (new_task "daily_backup" TaskType.BACKUP ScheduleFrequency.DAILY "02:00") ;;
     deleted <- delete_task "daily_backup" ;;
     ret (scheduled, deleted)) (scheduler_at (at_time 2024 1 1 3 0) [])
    = (Ok (true, true), s') /\
    scheduled_tasks s' = [] /\ jobs s' = [].
Proof.
  apply (schedule_then_delete_restores five_fields
           (new_task "daily_backup" TaskType.BACKUP ScheduleFrequency.DAILY "02:00")
           (scheduler_at (at_time 2024 1 1 3 0) [])).
  - apply (clock_ok_const (at_time 2024 1 1 3 0)). vm_compute. intuition congruence.
  - vm_compute. reflexivity.
  - vm_compute. reflexivity.
  - simpl. discriminate.
  - reflexivity.
  - reflexivity.
Defined.

Section ExecutionFrame.

Lemma dict_alter_keys {V} (f : V -> V) k (d : list (string * V)) :
  map fst (dict_alter f k d) = map fst d.
Proof.
  induction d as [|[k1 v1] r IH]; simpl; [reflexivity|].
  destruct (String.eqb k k1); simpl; [reflexivity|]. rewrite IH. reflexivity.
Qed.

Lemma only_task_refl task_id s : only_task task_id s s.
Proof. repeat split. Qed.

Lemma only_task_trans task_id a b c :
  only_task task_id a b -> only_task task_id b c -> only_task task_id a c.
Proof.
  intros (A1 & A2 & A3 & A4 & A5 & A6) (B1 & B2 & B3 & B4 & B5 & B6).
  repeat split; try congruence.
  intros k Hk. rewrite (B6 k Hk). apply A6. exact Hk.
Qed.

Lemma only_task_ticks task_id s n : only_task task_id s (with_ticks n s).
Proof. repeat split. Qed.

Lemma only_task_setattr task_id f s :
  only_task task_id s
    (with_tasks (dict_alter f task_id (scheduled_tasks s)) s).
Proof.
  repeat split.
  - cbn [scheduled_tasks with_tasks]. apply dict_alter_keys.
  - intros k Hk. cbn [scheduled_tasks with_tasks].
    apply dict_get_alter_ne. congruence.
Qed.

(** The computation of a next run reads the clock and does nothing else
    to the scheduler. *)
Lemma calculate_next_run_ticks task s x s1 :
  _calculate_next_run task s = (x, s1) -> exists n, s1 = with_ticks n s.
Proof.
  unfold _calculate_next_run, try_except.
  destruct (next_run_try task s) as [[r|e] s2] eqn:E;
    pose proof (next_run_try_state _ _ _ _ E) as ->.
  - intros H. inversion H; subst. eauto.
  - unfold next_run_except, bind. rewrite datetime_now_run.
    destruct (datetime_add _ _); cbn [or_raise ret raise];
      intros H; inversion H; subst; eauto.
Qed.

Ltac only_task_step task_id :=
  first
  [ apply (preserves_ret (only_task task_id) (only_task_refl task_id))
  | apply (preserves_get (only_task task_id) (only_task_refl task_id))
  | apply (preserves_or_raise (only_task task_id) (only_task_refl task_id))
  | apply (preserves_modify (only_task task_id)); intros;
      apply only_task_setattr
  | apply (preserves_bind (only_task task_id) (only_task_trans task_id)); [|intros ?]
  | apply (preserves_try_except (only_task task_id) (only_task_trans task_id)); [|intros ?] ].

Lemma setattr_only_task task_id f : preserves (only_task task_id) (setattr task_id f).
Proof. unfold setattr. only_task_step task_id. Qed.

Lemma deref_only_task task_id k : preserves (only_task task_id) (deref k).
Proof. unfold deref. repeat only_task_step task_id. Qed.

Lemma datetime_now_only_task task_id : preserves (only_task task_id) datetime_now.
Proof. intros s x s' H. inversion H; subst. apply only_task_ticks. Qed.

Lemma run_task_handler_only_task task_id task :
  preserves (only_task task_id) (_run_task_handler task).
Proof.
  intros s x s' H. destruct (run_task_handler_total task s) as [ok E].
  rewrite E in H. inversion H; subst. apply only_task_refl.
Qed.

Lemma calculate_next_run_only_task task_id task :
  preserves (only_task task_id) (_calculate_next_run task).
Proof.
  intros s x s' H. apply calculate_next_run_ticks in H. destruct H as [n ->].
  apply only_task_ticks.
Qed.

Lemma save_task_to_db_only_task task_id task :
  preserves (only_task task_id) (_save_task_to_db task).
Proof. unfold _save_task_to_db. repeat only_task_step task_id. Qed.

Lemma execute_task_only_task task_id :
  preserves (only_task task_id) (_execute_task task_id).
Proof.
  unfold _execute_task.
  only_task_step task_id; [|only_task_step task_id].
  only_task_step task_id; [only_task_step task_id|].
  destruct (dict_get task_id (scheduled_tasks a)) as [task|];
    [|only_task_step task_id].
  destruct (negb (is_active task)); [only_task_step task_id|].
  only_task_step task_id; [apply datetime_now_only_task|].
  only_task_step task_id; [apply setattr_only_task|].
  only_task_step task_id; [apply setattr_only_task|].
  only_task_step task_id; [|apply setattr_only_task].
  only_task_step task_id; [apply deref_only_task|].
  only_task_step task_id; [apply run_task_handler_only_task|].
  only_task_step task_id; [match goal with
     | |- context [if ?b then _ else _] => destruct b
     end; apply setattr_only_task|].
  only_task_step task_id; [apply deref_only_task|].
  only_task_step task_id; [apply calculate_next_run_only_task|].
  only_task_step task_id; [apply setattr_only_task|].
  only_task_step task_id; [only_task_step task_id|].
  only_task_step task_id; [apply deref_only_task|].
  match goal with
  | |- context [db ?x] => destruct (db x)
  end; [apply save_task_to_db_only_task|only_task_step task_id].
Qed.

Lemma run_task_now_only_task task_id :
  preserves (only_task task_id) (run_task_now task_id).
Proof.
  unfold run_task_now.
  only_task_step task_id; [|only_task_step task_id].
  only_task_step task_id; [only_task_step task_id|].
  destruct (dict_get task_id (scheduled_tasks a)) as [task|];
    [|only_task_step task_id].
  only_task_step task_id; [apply run_task_handler_only_task|].
  only_task_step task_id; [match goal with
     | |- context [if ?b then _ else _] => destruct b
     end; apply setattr_only_task|].
  only_task_step task_id.
Qed.

(** X8.  A fire of the timer for [task_id] and a run on demand always return,
    and whatever happens in them (the handler failing, the next run not
    computable) they touch no other task and no timer: the registry keeps
    its ids, every other record is as before, and so is the job store. *)
Theorem execution_touches_one_task task_id s :
  (exists s', _execute_task task_id s = (Ok tt, s') /\ only_task task_id s s') /\
  (exists ok s', run_task_now task_id s = (Ok ok, s') /\ only_task task_id s s').
Proof.
  split.
  - assert (H : exists s', _execute_task task_id s = (Ok tt, s'))
      by apply try_except_ret_total.
    destruct H as [s' H].
    exists s'. split; [exact H|]. eapply execute_task_only_task. exact H.
  - destruct (run_task_now task_id s) as [[ok|e] s'] eqn:E.
    + exists ok, s'. split; [reflexivity|]. eapply run_task_now_only_task. exact E.
    + exfalso. unfold run_task_now, try_except in E.
      match type of E with
      | (match ?m with _ => _ end) = _ => destruct m as [[a|e'] s1]
      end; discriminate.
Qed.

(** X9.  A task that is switched off is left alone by its timer (no run is
    counted, the clock is not even read), yet a run on demand executes
    its handler and counts the outcome. *)
Theorem inactive_task_runs_only_on_demand task_id task s :
  dict_get task_id (scheduled_tasks s) = Some task ->
  is_active task = false ->
  _execute_task task_id s = (Ok tt, s) /\
  exists ok s' task',
    run_task_now task_id s = (Ok ok, s') /\
    dict_get task_id (scheduled_tasks s') = Some task' /\
    success_count task' + fail_count task' =
    success_count task + fail_count task + 1.
Proof.
  intros Hget Hact. split.
  - unfold _execute_task. apply try_except_ok.
    unfold bind, get. rewrite Hget, Hact. reflexivity.
  - destruct (run_task_now_spec task_id task s Hget)
      as (ok & s' & task' & Hr & Hg & _ & _ & _ & Hs & Hf & _).
    exists ok, s', task'. repeat split; try assumption. destruct ok; lia.
Qed.

End ExecutionFrame.

Lemma inactive_task_runs_only_on_demand_witness :
  _execute_task "daily_backup"
    (scheduler_at (at_time 2024 1 1 3 0)
       [("daily_backup",
         SchedulerApi.set_is_active false
           (new_task "daily_backup" TaskType.BACKUP ScheduleFrequency.DAILY "02:00"))])
  = (Ok tt,
     scheduler_at (at_time 2024 1 1 3 0)
       [("daily_backup",
         SchedulerApi.set_is_active false
           (new_task "daily_backup" TaskType.BACKUP ScheduleFrequency.DAILY "02:00"))]).
Proof.
  apply (inactive_task_runs_only_on_demand "daily_backup"
           (SchedulerApi.set_is_active false
              (new_task "daily_backup" TaskType.BACKUP ScheduleFrequency.DAILY "02:00"))).
  - reflexivity.
  - reflexivity.
Defined.

Section TaskCreation.

Variable crontab_ok : string -> bool.

(** X10.  A task description that lacks a name, a type, a frequency or a
    schedule-spec, that names a type or a frequency that does not exist,
    or whose schedule-spec fails validation, creates nothing: the call
    returns the empty string, and the registry and the job store are as
    they were (only the clock was read, once). *)
Theorem create_task_rejects task_data s :
  td_name task_data = None \/
  td_task_type task_data ≫= TaskType_of = None \/
  td_frequency task_data ≫= ScheduleFrequency_of = None \/
  td_schedule_time task_data = None \/
  (exists fr spec,
     td_frequency task_data ≫= ScheduleFrequency_of = Some fr /\
     td_schedule_time task_data = Some spec /\
     _validate_schedule_time spec fr = false) ->
  create_task crontab_ok task_data s = (Ok "", with_ticks (S (ticks s)) s).
Proof.
  intros H. unfold create_task, try_except.
  rewrite (bind_ok _ _ _ _ _ (datetime_now_run s)).
  destruct (td_name task_data) as [name|];
    [erewrite bind_ok by reflexivity|erewrite bind_raise by reflexivity; reflexivity].
  destruct (td_task_type task_data) as [type_value|];
    [erewrite bind_ok by reflexivity|erewrite bind_raise by reflexivity; reflexivity].
  destruct (TaskType_of type_value) as [ty|] eqn:Ety;
    [erewrite bind_ok by reflexivity|erewrite bind_raise by reflexivity; reflexivity].
  destruct (td_frequency task_data) as [frequency_value|];
    [erewrite bind_ok by reflexivity|erewrite bind_raise by reflexivity; reflexivity].
  destruct (ScheduleFrequency_of frequency_value) as [fr|] eqn:Efr;
    [erewrite bind_ok by reflexivity|erewrite bind_raise by reflexivity; reflexivity].
  destruct (td_schedule_time task_data) as [spec|];
    [erewrite bind_ok by reflexivity|erewrite bind_raise by reflexivity; reflexivity].
  destruct H as [H|[H|[H|[H|H]]]]; try discriminate.
  - cbn in H. congruence.
  - cbn in H. congruence.
  - destruct H as (fr' & spec' & H1 & H2 & H3). cbn in H1.
    assert (fr' = fr) by congruence. assert (spec' = spec) by congruence.
    subst fr' spec'. cbv zeta.
    erewrite bind_ok;
      [|apply schedule_task_rejected; destruct (td_callback task_data); exact H3].
    reflexivity.
Qed.

(** X11.  A complete description with a schedule-spec that passes validation
    creates the task: the call returns its id (the one given, or one made
    from the reading of the clock), and the registry holds under that id
    a record with the fields of the description, no run counted, and a
    next run after the instant of the call.  Whatever was registered
    under the id before is replaced, its statistics included. *)
Theorem create_task_registers task_data s name type_value ty frequency_value fr spec :
  clock_ok (clock s) ->
  year (date_of (clock s (S (S (ticks s))))) < MAXYEAR ->
  td_name task_data = Some name ->
  td_task_type task_data = Some type_value ->
  TaskType_of type_value = Some ty ->
  td_frequency task_data = Some frequency_value ->
  ScheduleFrequency_of frequency_value = Some fr ->
  td_schedule_time task_data = Some spec ->
  _validate_schedule_time spec fr = true ->
  exists task_id r s',
    task_id = match td_id task_data with
              | Some i => i
              | None => "task_" ++ strftime_stamp (clock s (ticks s))
              end /\
    create_task crontab_ok task_data s = (Ok task_id, s') /\
    datetime_lt (clock s (ticks s)) r /\
    dict_get task_id (scheduled_tasks s') =
      Some (mkTask task_id name ty fr spec
              (default true (td_is_active task_data)) None (Some r) 0 0 0
              (default [] (td_config task_data)) (td_callback task_data)).
Proof.
  intros Hok Hy Hn Ht Hty Hf Hfr Hs Hv.
  set (task_id := match td_id task_data with
                  | Some i => i
                  | None => "task_" ++ strftime_stamp (clock s (ticks s))
                  end).
  set (task := mkTask task_id name ty fr spec
                 (default true (td_is_active task_data)) None None 0 0 0
                 (default [] (td_config task_data)) (td_callback task_data)).
  set (s1 := with_ticks (S (ticks s)) s).
  destruct (calculate_next_run_some task s1 Hok Hy)
    as (r & s2 & Hc & _ & _ & Ht2 & _).
  pose proof (schedule_task_run crontab_ok task s1 r s2 Hv Hc) as Hrun.
  exists task_id, r. eexists. split; [reflexivity|]. split; [|split].
  - unfold create_task. apply try_except_ok.
    rewrite (bind_ok _ _ _ _ _ (datetime_now_run s)).
    rewrite Hn, Ht. erewrite bind_ok by reflexivity.
    erewrite bind_ok by reflexivity. rewrite Hty.
    erewrite bind_ok by reflexivity. rewrite Hf.
    erewrite bind_ok by reflexivity. rewrite Hfr.
    erewrite bind_ok by reflexivity. rewrite Hs.
    erewrite bind_ok by reflexivity. cbv zeta.
    fold task_id. fold s1.
    replace (match td_callback task_data with
             | Some cb => set_callback (Some cb) _
             | None => _
             end) with task
      by (subst task; destruct (td_is_active task_data), (td_config task_data),
            (td_callback task_data); reflexivity).
    rewrite (bind_ok _ _ _ _ _ Hrun). reflexivity.
  - eapply datetime_le_lt_trans;
      [apply (proj2 Hok (ticks s) (S (ticks s))); lia|].
    apply (calculate_next_run_after task s1 r s2 Hok Hc).
  - rewrite scheduled_tasks_with_tasks. apply dict_get_set_eq.
Qed.

End TaskCreation.

Lemma create_task_rejects_witness :
  create_task five_fields
    (mkTaskData (Some "report") (Some "Report") (Some "backup") (Some "fortnightly")
       (Some "02:00") None None None)
    (scheduler_at (at_time 2024 1 1 3 0) [])
  = (Ok "", with_ticks 1 (scheduler_at (at_time 2024 1 1 3 0) [])).
Proof.
  apply (create_task_rejects five_fields
           (mkTaskData (Some "report") (Some "Report") (Some "backup")
              (Some "fortnightly") (Some "02:00") None None None)).
  right. right. left. vm_compute. reflexivity.
Defined.

Lemma create_task_registers_witness :
  exists task_id r s',
    task_id = "task_20240101_030000" /\
    create_task five_fields
      (mkTaskData None (Some "Report") (Some "backup") (Some "daily")
         (Some "02:00") None None None)
      (scheduler_at (at_time 2024 1 1 3 0) []) = (Ok task_id, s') /\
    datetime_lt (at_time 2024 1 1 3 0) r /\
    dict_get task_id (scheduled_tasks s') =
      Some (mkTask task_id "Report" TaskType.BACKUP ScheduleFrequency.DAILY "02:00"
              true None (Some r) 0 0 0 [] None).
Proof.
  apply (create_task_registers five_fields
           (mkTaskData None (Some "Report") (Some "backup") (Some "daily")
              (Some "02:00") None None None)
           (scheduler_at (at_time 2024 1 1 3 0) [])
           "Report" "backup" TaskType.BACKUP "daily" ScheduleFrequency.DAILY "02:00").
  - apply (clock_ok_const (at_time 2024 1 1 3 0)). vm_compute. intuition congruence.
  - vm_compute. reflexivity.
  - reflexivity.
  - reflexivity.
  - reflexivity.
  - reflexivity.
  - reflexivity.
  - reflexivity.
  - vm_compute. reflexivity.
Defined.

Section TaskUpdate.

Variable crontab_ok : string -> bool.

Lemma same_statistics_refl t : same_statistics t t.
Proof. repeat split. Qed.

Lemma same_statistics_trans a b c :
  same_statistics a b -> same_statistics b c -> same_statistics a c.
Proof. unfold same_statistics. intuition congruence. Qed.

Lemma keeps_statistics_refl task_id s : keeps_statistics task_id s s.
Proof. intros t Ht. exists t. split; [exact Ht|apply same_statistics_refl]. Qed.

Lemma keeps_statistics_trans task_id a b c :
  keeps_statistics task_id a b -> keeps_statistics task_id b c ->
  keeps_statistics task_id a c.
Proof.
  intros Hab Hbc t Ht. destruct (Hab t Ht) as (t1 & H1 & S1).
  destruct (Hbc t1 H1) as (t2 & H2 & S2).
  exists t2. split; [exact H2|eapply same_statistics_trans; eauto].
Qed.

Lemma setattr_keeps_statistics task_id f :
  (forall t, same_statistics t (f t)) ->
  preserves (keeps_statistics task_id) (setattr task_id f).
Proof.
  intros Hf s x s' H. rewrite setattr_run in H. inversion H; subst.
  intros t Ht. exists (f t). rewrite scheduled_tasks_with_tasks, dict_get_alter_eq, Ht.
  split; [reflexivity|apply Hf].
Qed.

(** Re-scheduling the task registered under [task_id] when its spec
    fails validation: nothing happens. *)
Lemma schedule_registered_invalid task_id task s :
  dict_get task_id (scheduled_tasks s) = Some task ->
  _validate_schedule_time (schedule_time task) (frequency task) = false ->
  schedule_registered crontab_ok task_id s = (Ok false, s).
Proof.
  intros Hget Hv. unfold schedule_registered. apply try_except_ok.
  rewrite (bind_ok _ _ _ _ _ (deref_run _ _ _ Hget)). rewrite Hv. reflexivity.
Qed.

(** Re-scheduling it when the spec passes and a next run is computed. *)
Lemma schedule_registered_run task_id task s r s1 :
  dict_get task_id (scheduled_tasks s) = Some task ->
  _validate_schedule_time (schedule_time task) (frequency task) = true ->
  _calculate_next_run task s = (Ok r, s1) ->
  schedule_registered crontab_ok task_id s =
  (Ok true,
   with_tasks
     (dict_set (id task) (set_next_run (Some r) task)
        (dict_alter (set_next_run (Some r)) task_id (scheduled_tasks s)))
     match trigger_for crontab_ok task with
     | Some trigger => with_jobs (dict_set (id task) (name task, trigger) (jobs s)) s1
     | None => s1
     end).
Proof.
  intros Hget Hv Hc. unfold schedule_registered. apply try_except_ok.
  rewrite (bind_ok _ _ _ _ _ (deref_run _ _ _ Hget)). rewrite Hv. cbn [negb].
  rewrite (bind_ok _ _ _ _ _ Hc).
  destruct (calculate_next_run_ticks _ _ _ _ Hc) as [n ->].
  rewrite (bind_ok _ _ _ _ _ (setattr_run _ _ _)).
  erewrite bind_ok;
    [|apply deref_run; rewrite scheduled_tasks_with_tasks, dict_get_alter_eq;
      cbn [scheduled_tasks with_ticks]; rewrite Hget; reflexivity].
  rewrite (bind_ok _ _ _ _ _ (add_to_scheduler_run crontab_ok _ _)).
  replace (trigger_for crontab_ok (set_next_run (Some r) task))
    with (trigger_for crontab_ok task) by reflexivity.
  cbn [id name set_next_run].
  unfold bind, modify, get, ret, _save_task_to_db, try_except.
  destruct (trigger_for crontab_ok task);
    cbn [db with_tasks with_jobs with_ticks jobs scheduled_tasks running clock ticks];
    destruct (db s); reflexivity.
Qed.

Lemma schedule_registered_keeps task_id :
  preserves (keeps_statistics task_id) (schedule_registered crontab_ok task_id).
Proof.
  intros s x s' H t Hget.
  destruct (_validate_schedule_time (schedule_time t) (frequency t)) eqn:Hv.
  - destruct (_calculate_next_run t s) as [[r|e] s1] eqn:Hc.
    + rewrite (schedule_registered_run _ _ _ _ _ Hget Hv Hc) in H.
      inversion H; subst. exists (set_next_run (Some r) t).
      split; [|repeat split].
      rewrite scheduled_tasks_with_tasks.
      destruct (String.eqb_spec task_id (id t)) as [->|Hne].
      * apply dict_get_set_eq.
      * rewrite dict_get_set_ne by exact Hne.
        rewrite dict_get_alter_eq, Hget. reflexivity.
    + destruct (calculate_next_run_ticks _ _ _ _ Hc) as [n ->].
      unfold schedule_registered, try_except in H.
      rewrite (bind_ok _ _ _ _ _ (deref_run _ _ _ Hget)) in H.
      rewrite Hv in H. cbn [negb] in H.
      rewrite (bind_raise _ _ _ _ _ Hc) in H. inversion H; subst.
      exists t. split; [exact Hget|apply same_statistics_refl].
  - rewrite (schedule_registered_invalid _ _ _ Hget Hv) in H. inversion H; subst.
    exists t. split; [exact Hget|apply same_statistics_refl].
Qed.

Ltac statistics_step task_id :=
  first
  [ apply (preserves_ret (keeps_statistics task_id) (keeps_statistics_refl task_id))
  | apply (preserves_get (keeps_statistics task_id) (keeps_statistics_refl task_id))
  | apply (preserves_or_raise (keeps_statistics task_id) (keeps_statistics_refl task_id))
  | apply setattr_keeps_statistics; intros; repeat split
  | apply schedule_registered_keeps
  | apply (preserves_bind (keeps_statistics task_id) (keeps_statistics_trans task_id));
      [|intros ?]
  | apply (preserves_try_except (keeps_statistics task_id)
             (keeps_statistics_trans task_id)); [|intros ?] ].

Lemma update_task_keeps task_id updates :
  preserves (keeps_statistics task_id) (update_task crontab_ok task_id updates).
Proof.
  unfold update_task.
  statistics_step task_id; [|statistics_step task_id].
  statistics_step task_id; [statistics_step task_id|].
  destruct (dict_get task_id (scheduled_tasks a)); [|statistics_step task_id].
  statistics_step task_id;
    [destruct (u_name updates); statistics_step task_id|].
  statistics_step task_id;
    [destruct (u_task_type updates); repeat statistics_step task_id|].
  statistics_step task_id;
    [destruct (u_frequency updates); repeat statistics_step task_id|].
  statistics_step task_id;
    [destruct (u_schedule_time updates); statistics_step task_id|].
  statistics_step task_id;
    [destruct (u_is_active updates); statistics_step task_id|].
  statistics_step task_id;
    [destruct (u_config updates); statistics_step task_id|].
  repeat statistics_step task_id.
Qed.

(** X12.  An update never raises and never touches the history of the task:
    whatever the fields given, and whether the update is reported as
    done or not, the task is still registered under its id with the same
    callback, run counters and last run. *)
Theorem update_task_keeps_statistics task_id updates task s :
  dict_get task_id (scheduled_tasks s) = Some task ->
  exists done s' task',
    update_task crontab_ok task_id updates s = (Ok done, s') /\
    dict_get task_id (scheduled_tasks s') = Some task' /\
    same_statistics task task'.
Proof.
  intros Hget.
  destruct (update_task crontab_ok task_id updates s) as [[done|e] s'] eqn:E.
  - destruct (update_task_keeps task_id updates s _ s' E task Hget) as (task' & H1 & H2).
    exists done, s', task'. repeat split; try assumption; apply H2.
  - exfalso. unfold update_task, try_except in E.
    match type of E with
    | (match ?m with _ => _ end) = _ => destruct m as [[a|e'] s1]
    end; discriminate.
Qed.

(** X13.  An update whose new schedule-spec fails validation is reported as
    done: the spec is written into the registered task before the
    re-scheduling, whose refusal is not looked at.  The next run and the
    timer stay those of the old spec. *)
Theorem update_task_stores_invalid_spec task_id task spec s :
  dict_get task_id (scheduled_tasks s) = Some task ->
  _validate_schedule_time spec (frequency task) = false ->
  update_task crontab_ok task_id (mkUpdates None None None (Some spec) None None) s =
  (Ok true,
   with_tasks (dict_alter (set_schedule_time spec) task_id (scheduled_tasks s)) s) /\
  dict_get task_id (dict_alter (set_schedule_time spec) task_id (scheduled_tasks s)) =
  Some (set_schedule_time spec task).
Proof.
  intros Hget Hv. split.
  - unfold update_task. apply try_except_ok.
    unfold bind at 1. unfold get at 1. rewrite Hget.
    cbn [u_name u_task_type u_frequency u_schedule_time u_is_active u_config].
    do 3 (erewrite bind_ok by reflexivity).
    rewrite (bind_ok _ _ _ _ _ (setattr_run _ _ _)).
    do 2 (erewrite bind_ok by reflexivity).
    erewrite bind_ok; [reflexivity|].
    apply (schedule_registered_invalid task_id (set_schedule_time spec task)).
    + rewrite scheduled_tasks_with_tasks, dict_get_alter_eq, Hget. reflexivity.
    + exact Hv.
  - rewrite dict_get_alter_eq, Hget. reflexivity.
Qed.

(** X14.  An update is not all-or-nothing: with a new name and a frequency
    that does not exist, the call reports failure, yet the name has
    already been changed in the registry. *)
Theorem update_task_is_not_atomic task_id task new_name value s :
  dict_get task_id (scheduled_tasks s) = Some task ->
  ScheduleFrequency_of value = None ->
  update_task crontab_ok task_id
    (mkUpdates (Some new_name) None (Some value) None None None) s =
  (Ok false,
   with_tasks (dict_alter (set_name new_name) task_id (scheduled_tasks s)) s) /\
  dict_get task_id (dict_alter (set_name new_name) task_id (scheduled_tasks s)) =
  Some (set_name new_name task).
Proof.
  intros Hget Hf. split.
  - unfold update_task, try_except.
    unfold bind at 1. unfold get at 1. rewrite Hget.
    cbn [u_name u_task_type u_frequency u_schedule_time u_is_active u_config].
    rewrite (bind_ok _ _ _ _ _ (setattr_run _ _ _)).
    erewrite bind_ok by reflexivity.
    erewrite bind_raise; [reflexivity|].
    rewrite Hf. reflexivity.
  - rewrite dict_get_alter_eq, Hget. reflexivity.
Qed.

End TaskUpdate.

Lemma update_task_keeps_statistics_witness :
  exists done s' task',
    update_task five_fields "daily_backup"
      (mkUpdates (Some "Nightly backup") None None (Some "03:30") (Some false) None)
      (scheduler_at (at_time 2024 1 1 3 0)
         [("daily_backup",
           mkTask "daily_backup" "Backup" TaskType.BACKUP ScheduleFrequency.DAILY
             "02:00" true None None 7 5 2 [] None)]) = (Ok done, s') /\
    dict_get "daily_backup" (scheduled_tasks s') = Some task' /\
    same_statistics
      (mkTask "daily_backup" "Backup" TaskType.BACKUP ScheduleFrequency.DAILY
         "02:00" true None None 7 5 2 [] None) task'.
Proof.
  apply (update_task_keeps_statistics five_fields "daily_backup").
  reflexivity.
Defined.

Lemma update_task_stores_invalid_spec_witness :
  fst (update_task five_fields "daily_backup"
         (mkUpdates None None None (Some "25:00") None None)
         (scheduler_at (at_time 2024 1 1 3 0)
            [("daily_backup",
              new_task "daily_backup" TaskType.BACKUP ScheduleFrequency.DAILY "02:00")]))
  = Ok true.
Proof.
  destruct (update_task_stores_invalid_spec five_fields "daily_backup"
              (new_task "daily_backup" TaskType.BACKUP ScheduleFrequency.DAILY "02:00")
              "25:00"
              (scheduler_at (at_time 2024 1 1 3 0)
                 [("daily_backup",
                   new_task "daily_backup" TaskType.BACKUP ScheduleFrequency.DAILY
                     "02:00")])) as [E _].
  - reflexivity.
  - vm_compute. reflexivity.
  - rewrite E. reflexivity.
Defined.

Lemma update_task_is_not_atomic_witness :
  fst (update_task five_fields "daily_backup"
         (mkUpdates (Some "Nightly backup") None (Some "fortnightly") None None None)
         (scheduler_at (at_time 2024 1 1 3 0)
            [("daily_backup",
              new_task "daily_backup" TaskType.BACKUP ScheduleFrequency.DAILY "02:00")]))
  = Ok false.
Proof.
  destruct (update_task_is_not_atomic five_fields "daily_backup"
              (new_task "daily_backup" TaskType.BACKUP ScheduleFrequency.DAILY "02:00")
              "Nightly backup" "fortnightly"
              (scheduler_at (at_time 2024 1 1 3 0)
                 [("daily_backup",
                   new_task "daily_backup" TaskType.BACKUP ScheduleFrequency.DAILY
                     "02:00")])) as [E _].
  - reflexivity.
  - vm_compute. reflexivity.
  - rewrite E. reflexivity.
Defined.

Section DefaultTasks.

Variable crontab_ok : string -> bool.

(** X15.  Loading the tasks at start-up registers the daily backup and the
    weekly clean-up, each with a next run ahead, but never the hourly
    collection: its schedule-spec has no colon, validation refuses it and
    the refusal is dropped.  Registry and job store hold for that id what
    they held before. *)
Theorem hourly_default_task_is_never_registered s :
  clock_ok (clock s) ->
  (forall n, year (date_of (clock s n)) < MAXYEAR) ->
  exists s' daily weekly r1 r2,
    _load_saved_tasks crontab_ok s = (Ok tt, s') /\
    dict_get "daily_backup" (scheduled_tasks s') = Some daily /\
    schedule_time daily = "02:00" /\ next_run daily = Some r1 /\
    datetime_lt (clock s (ticks s)) r1 /\
    dict_get "weekly_cleanup" (scheduled_tasks s') = Some weekly /\
    schedule_time weekly = "04:00" /\ next_run weekly = Some r2 /\
    datetime_lt (clock s (ticks s)) r2 /\
    dict_get "hourly_collection" (scheduled_tasks s') =
      dict_get "hourly_collection" (scheduled_tasks s) /\
    dict_get "hourly_collection" (jobs s') = dict_get "hourly_collection" (jobs s).
Proof.
  intros Hok Hy.
  set (daily := mkTask "daily_backup" "نسخة احتياطية يومية" TaskType.BACKUP
      ScheduleFrequency.DAILY "02:00" true None None 0 0 0
      [("backup_type", "full")] None).
  set (hourly := mkTask "hourly_collection" "تجميع ساعي" TaskType.COLLECT_LINKS
      ScheduleFrequency.HOURLY "*/60" true None None 0 0 0
      [("interval", "3600")] None).
  set (weekly := mkTask "weekly_cleanup" "تنظيف أسبوعي" TaskType.CLEANUP
      ScheduleFrequency.WEEKLY "04:00" true None None 0 0 0
      [("days_to_keep", "30")] None).
  destruct (calculate_next_run_some daily s Hok (Hy _))
    as (r1 & s1 & Hc1 & Hk1 & Hn1 & Ht1 & Hj1 & _ & _).
  assert (Hv1 : _validate_schedule_time (schedule_time daily) (frequency daily) = true)
    by (vm_compute; reflexivity).
  pose proof (schedule_task_run crontab_ok daily s r1 s1 Hv1 Hc1) as H1.
  change (trigger_for crontab_ok daily) with (Some (IntervalTrigger 86400)) in H1.
  cbv iota in H1.
  set (sA := with_tasks _ _) in H1.
  assert (Hv2 : _validate_schedule_time (schedule_time hourly) (frequency hourly) = false)
    by (vm_compute; reflexivity).
  pose proof (schedule_task_rejected crontab_ok hourly sA Hv2) as H2.
  assert (HkA : clock sA = clock s) by exact Hk1.
  assert (HokA : clock_ok (clock sA)) by (rewrite HkA; exact Hok).
  assert (HyA : year (date_of (clock sA (S (ticks sA)))) < MAXYEAR)
    by (rewrite HkA; apply Hy).
  destruct (calculate_next_run_some weekly sA HokA HyA)
    as (r2 & s2 & Hc2 & Hk2 & Hn2 & Ht2 & Hj2 & _ & _).
  assert (Hv3 : _validate_schedule_time (schedule_time weekly) (frequency weekly) = true)
    by (vm_compute; reflexivity).
  pose proof (schedule_task_run crontab_ok weekly sA r2 s2 Hv3 Hc2) as H3.
  change (trigger_for crontab_ok weekly) with (Some (IntervalTrigger 604800)) in H3.
  cbv iota in H3.
  eexists. exists (set_next_run (Some r1) daily), (set_next_run (Some r2) weekly), r1, r2.
  split.
  { unfold _load_saved_tasks. apply try_except_ok.
    unfold bind at 1. unfold get at 1.
    replace (if db s then ret tt else ret tt) with (@ret State unit tt)
      by (destruct (db s); reflexivity).
    erewrite bind_ok by reflexivity.
    unfold _add_default_tasks, default_tasks. fold daily hourly weekly.
    cbn [for_each].
    erewrite bind_ok; [|rewrite (bind_ok _ _ _ _ _ H1); reflexivity].
    erewrite bind_ok; [|rewrite (bind_ok _ _ _ _ _ H2); reflexivity].
    erewrite bind_ok; [|rewrite (bind_ok _ _ _ _ _ H3); reflexivity].
    reflexivity. }
  rewrite scheduled_tasks_with_tasks, Ht2.
  cbn [jobs with_tasks with_jobs]. rewrite Hj2.
  subst sA. cbn [jobs scheduled_tasks with_tasks with_jobs]. rewrite Ht1, Hj1.
  assert (Hlt : datetime_lt (clock s (ticks s)) r2).
  { eapply datetime_le_lt_trans;
      [|apply (calculate_next_run_after weekly _ r2 s2 HokA Hc2)].
    rewrite HkA. apply (proj2 Hok).
    cbn [ticks with_tasks with_jobs]. lia. }
  repeat split.
  - rewrite dict_get_set_ne by discriminate. apply dict_get_set_eq.
  - eapply calculate_next_run_after; eauto.
  - apply dict_get_set_eq.
  - exact Hlt.
  - rewrite !dict_get_set_ne by discriminate. reflexivity.
  - rewrite !dict_get_set_ne by discriminate. reflexivity.
Qed.

End DefaultTasks.

Lemma hourly_default_task_is_never_registered_witness :
  exists s',
    _load_saved_tasks five_fields (scheduler_at (at_time 2024 1 1 3 0) []) = (Ok tt, s') /\
    dict_get "hourly_collection" (scheduled_tasks s') = None.
Proof.
  destruct (hourly_default_task_is_never_registered five_fields
              (scheduler_at (at_time 2024 1 1 3 0) []))
    as (s' & _ & _ & _ & _ & H & _ & _ & _ & _ & _ & _ & _ & _ & Hh & _).
  - apply (clock_ok_const (at_time 2024 1 1 3 0)). vm_compute. intuition congruence.
  - intros n. vm_compute. reflexivity.
  - exists s'. split; [exact H|exact Hh].
Defined.

(** ** The order of the task list *)

Section StringOrder.

Lemma str_ltb_irrefl a : PyStr.str_ltb a a = false.
Proof.
  induction a as [|x a IH]; simpl; [reflexivity|].
  rewrite Z.ltb_irrefl. exact IH.
Qed.

Lemma ord_inj x y : PyStr.ord x = PyStr.ord y -> x = y.
Proof.
  unfold PyStr.ord. intros H. apply Nat2Z.inj in H.
  rewrite <- (ascii_nat_embedding x), <- (ascii_nat_embedding y), H. reflexivity.
Qed.

Lemma str_ltb_trans a : forall b c,
  PyStr.str_ltb a b = true -> PyStr.str_ltb b c = true -> PyStr.str_ltb a c = true.
Proof.
  induction a as [|x a IH]; intros [|y b] [|z c]; simpl; try congruence.
  destruct (Z.ltb_spec (PyStr.ord x) (PyStr.ord y)) as [Hxy|Hxy].
  - intros _.
    destruct (Z.ltb_spec (PyStr.ord y) (PyStr.ord z)) as [Hyz|Hyz].
    + intros _. destruct (Z.ltb_spec (PyStr.ord x) (PyStr.ord z)); [reflexivity|lia].
    + destruct (Z.ltb_spec (PyStr.ord z) (PyStr.ord y)); [discriminate|].
      intros _. destruct (Z.ltb_spec (PyStr.ord x) (PyStr.ord z)); [reflexivity|lia].
  - destruct (Z.ltb_spec (PyStr.ord y) (PyStr.ord x)); [discriminate|].
    intros Hab.
    destruct (Z.ltb_spec (PyStr.ord y) (PyStr.ord z)) as [Hyz|Hyz].
    + intros _. destruct (Z.ltb_spec (PyStr.ord x) (PyStr.ord z)); [reflexivity|lia].
    + destruct (Z.ltb_spec (PyStr.ord z) (PyStr.ord y)); [discriminate|].
      intros Hbc.
      destruct (Z.ltb_spec (PyStr.ord x) (PyStr.ord z)); [reflexivity|].
      destruct (Z.ltb_spec (PyStr.ord z) (PyStr.ord x)); [lia|].
      eapply IH; eauto.
Qed.

Lemma str_ltb_asym a b :
  PyStr.str_ltb a b = true -> PyStr.str_ltb b a = false.
Proof.
  intros H. destruct (PyStr.str_ltb b a) eqn:E; [|reflexivity].
  pose proof (str_ltb_trans _ _ _ H E) as C. rewrite str_ltb_irrefl in C.
  discriminate.
Qed.

(** [a <= b] and [b < c] give [a < c]. *)
Lemma str_leb_ltb_trans a : forall b c,
  PyStr.str_ltb b a = false -> PyStr.str_ltb b c = true ->
  PyStr.str_ltb c a = false.
Proof.
  induction a as [|x a IH]; intros [|y b] [|z c]; simpl; try congruence.
  destruct (Z.ltb_spec (PyStr.ord y) (PyStr.ord x)) as [Hyx|Hyx]; [discriminate|].
  destruct (Z.ltb_spec (PyStr.ord x) (PyStr.ord y)) as [Hxy|Hxy].
  - intros _.
    destruct (Z.ltb_spec (PyStr.ord y) (PyStr.ord z)) as [Hyz|Hyz].
    + intros _. destruct (Z.ltb_spec (PyStr.ord z) (PyStr.ord x)); [lia|].
      destruct (Z.ltb_spec (PyStr.ord x) (PyStr.ord z)); [reflexivity|lia].
    + destruct (Z.ltb_spec (PyStr.ord z) (PyStr.ord y)); [discriminate|].
      intros _. destruct (Z.ltb_spec (PyStr.ord z) (PyStr.ord x)); [lia|].
      destruct (Z.ltb_spec (PyStr.ord x) (PyStr.ord z)); [reflexivity|lia].
  - intros Hba.
    destruct (Z.ltb_spec (PyStr.ord y) (PyStr.ord z)) as [Hyz|Hyz].
    + intros _. destruct (Z.ltb_spec (PyStr.ord z) (PyStr.ord x)); [lia|].
      destruct (Z.ltb_spec (PyStr.ord x) (PyStr.ord z)); [reflexivity|lia].
    + destruct (Z.ltb_spec (PyStr.ord z) (PyStr.ord y)); [discriminate|].
      intros Hbc. destruct (Z.ltb_spec (PyStr.ord z) (PyStr.ord x)); [lia|].
      destruct (Z.ltb_spec (PyStr.ord x) (PyStr.ord z)); [lia|].
      eapply IH; eauto.
Qed.

Lemma str_ltb_app_same p a b :
  PyStr.str_ltb (p ++ a) (p ++ b) = PyStr.str_ltb a b.
Proof.
  induction p as [|x p IH]; simpl; [reflexivity|].
  rewrite Z.ltb_irrefl. exact IH.
Qed.

Lemma str_ltb_app_lt p : forall q a b,
  String.length p = String.length q ->
  PyStr.str_ltb p q = true -> PyStr.str_ltb (p ++ a) (q ++ b) = true.
Proof.
  induction p as [|x p IH]; intros [|y q] a b; simpl; try discriminate.
  intros Hl. destruct (PyStr.ord x <? PyStr.ord y); [reflexivity|].
  destruct (PyStr.ord y <? PyStr.ord x); [discriminate|].
  apply IH. congruence.
Qed.

Lemma str_length_app a b :
  String.length (a ++ b) = (String.length a + String.length b)%nat.
Proof. induction a as [|x a IH]; simpl; [reflexivity|]. rewrite IH. reflexivity. Qed.

Lemma zpad_length w : forall n, String.length (zpad w n) = w.
Proof.
  induction w as [|w IH]; intros n; simpl; [reflexivity|].
  rewrite str_length_app, IH. simpl. lia.
Qed.

Lemma ord_digit d :
  0 <= d <= 9 -> PyStr.ord (ascii_of_nat (Z.to_nat (48 + d))) = 48 + d.
Proof.
  intros H. unfold PyStr.ord. rewrite nat_ascii_embedding by lia. lia.
Qed.

(** On numbers that fit the width, the order of the padded numerals is
    the order of the numbers. *)
Lemma zpad_lt w : forall x y,
  0 <= x -> x < y -> y < 10 ^ Z.of_nat w ->
  PyStr.str_ltb (zpad w x) (zpad w y) = true.
Proof.
  induction w as [|w IH]; intros x y Hx Hxy Hy.
  - simpl in Hy. lia.
  - rewrite Nat2Z.inj_succ, Z.pow_succ_r in Hy by lia.
    cbn [zpad].
    assert (H10 : x / 10 < y / 10 \/ (x / 10 = y / 10 /\ x mod 10 < y mod 10))
      by (Z.div_mod_to_equations; lia).
    destruct H10 as [Hq|[Hq Hr]].
    + apply str_ltb_app_lt; [rewrite !zpad_length; reflexivity|].
      apply IH; [apply Z.div_pos; lia|exact Hq|].
      apply Z.div_lt_upper_bound; lia.
    + rewrite Hq, str_ltb_app_same. cbn [PyStr.str_ltb].
      rewrite !ord_digit by (Z.div_mod_to_equations; lia).
      destruct (Z.ltb_spec (48 + x mod 10) (48 + y mod 10)); [reflexivity|lia].
Qed.

Lemma zpad_app_lt w x y a b :
  0 <= x -> x < y -> y < 10 ^ Z.of_nat w ->
  PyStr.str_ltb (zpad w x ++ a) (zpad w y ++ b) = true.
Proof.
  intros Hx Hxy Hy. apply str_ltb_app_lt; [rewrite !zpad_length; reflexivity|].
  apply zpad_lt; assumption.
Qed.

(** [isoformat] keeps the order of valid datetimes: sorting the texts
    sorts the instants. *)
Lemma isoformat_lt a b :
  valid_datetime a -> valid_datetime b -> datetime_lt a b ->
  PyStr.str_ltb (isoformat a) (isoformat b) = true.
Proof.
  intros [[Hya [Hma Hda]] [Hha [Hmia [Hsa Hua]]]]
         [[Hyb [Hmb Hdb]] [Hhb [Hmib [Hsb Hub]]]] Hlt.
  pose proof (days_in_month_bounds (year (date_of a)) (month (date_of a))) as Ba.
  pose proof (days_in_month_bounds (year (date_of b)) (month (date_of b))) as Bb.
  unfold MINYEAR, MAXYEAR in *. unfold isoformat.
  destruct Hlt as [Hd|[Hd Ht]].
  - destruct Hd as [Hy|[Hy [Hm|[Hm Hd]]]].
    + apply zpad_app_lt; simpl; lia.
    + rewrite Hy, str_ltb_app_same, (str_ltb_app_same "-").
      apply zpad_app_lt; simpl; lia.
    + rewrite Hy, Hm, str_ltb_app_same, (str_ltb_app_same "-"),
        str_ltb_app_same, (str_ltb_app_same "-").
      apply zpad_app_lt; simpl; lia.
  - rewrite Hd, str_ltb_app_same, (str_ltb_app_same "-"),
      str_ltb_app_same, (str_ltb_app_same "-"), str_ltb_app_same,
      (str_ltb_app_same "T").
    destruct Ht as [Hh|[Hh [Hm|[Hm [Hs|[Hs Hu]]]]]].
    + apply zpad_app_lt; simpl; lia.
    + rewrite Hh, str_ltb_app_same, (str_ltb_app_same ":").
      apply zpad_app_lt; simpl; lia.
    + rewrite Hh, Hm, str_ltb_app_same, (str_ltb_app_same ":"),
        str_ltb_app_same, (str_ltb_app_same ":").
      apply zpad_app_lt; simpl; lia.
    + rewrite Hh, Hm, Hs, str_ltb_app_same, (str_ltb_app_same ":"),
        str_ltb_app_same, (str_ltb_app_same ":"), str_ltb_app_same.
      destruct (Z.eqb_spec (microsecond (time_of b)) 0) as [E|E]; [lia|].
      destruct (Z.eqb_spec (microsecond (time_of a)) 0) as [E'|E'].
      * reflexivity.
      * rewrite (str_ltb_app_same "."). apply zpad_lt; simpl; lia.
Qed.

(** Every datetime before the year 9999 sorts before the key given to the
    tasks without next run. *)
Lemma isoformat_before_last_key a :
  valid_datetime a -> year (date_of a) < MAXYEAR ->
  PyStr.str_ltb (isoformat a) "9999-12-31" = true.
Proof.
  intros [[Hy _] _] Hmax. unfold MINYEAR, MAXYEAR in *. unfold isoformat.
  change "9999-12-31" with (zpad 4 9999 ++ "-12-31").
  apply zpad_app_lt; simpl; lia.
Qed.

End StringOrder.

Import Scheduler.
Import SchedulerApi.

Section ListingFacts.

Lemma insert_by_key_perm x l : insert_by_key x l ≡ₚ x :: l.
Proof.
  induction l as [|y r IH]; simpl; [reflexivity|].
  destruct (PyStr.str_ltb (sort_key x) (sort_key y)); [reflexivity|].
  rewrite IH. apply Permutation_swap.
Qed.

Lemma sort_by_key_perm l : sort_by_key l ≡ₚ l.
Proof.
  unfold sort_by_key.
  assert (H : forall acc,
            fold_left (fun acc x => insert_by_key x acc) l acc ≡ₚ acc ++ l).
  { induction l as [|x r IH]; intros acc; simpl.
    - rewrite app_nil_r. reflexivity.
    - rewrite IH, insert_by_key_perm.
      rewrite (Permutation_middle acc r x). reflexivity. }
  rewrite H. reflexivity.
Qed.

Lemma insert_by_key_ascending x l :
  ascending l -> ascending (insert_by_key x l).
Proof.
  induction l as [|y r IH]; simpl.
  - intros _. split; [constructor|exact I].
  - intros [Hy Hr].
    destruct (PyStr.str_ltb (sort_key x) (sort_key y)) eqn:E.
    + split; [|split; assumption].
      constructor; [apply str_ltb_asym; exact E|].
      eapply Forall_impl; [exact Hy|]. intros z Hz. cbv beta in Hz.
      destruct (PyStr.str_ltb (sort_key z) (sort_key x)) eqn:Ez; [|reflexivity].
      rewrite (str_ltb_trans _ _ _ Ez E) in Hz. discriminate.
    + cbn [ascending]. split; [|apply IH; exact Hr].
      apply insert_by_key_Forall; assumption.
Qed.

Lemma sort_by_key_ascending l : ascending (sort_by_key l).
Proof.
  unfold sort_by_key.
  assert (H : forall acc, ascending acc ->
            ascending (fold_left (fun acc x => insert_by_key x acc) l acc)).
  { induction l as [|x r IH]; intros acc Hacc; simpl; [exact Hacc|].
    apply IH. apply insert_by_key_ascending. exact Hacc. }
  apply H. exact I.
Qed.

Lemma ascending_lookup l : forall i j x y,
  ascending l -> (i < j)%nat -> l !! i = Some x -> l !! j = Some y ->
  PyStr.str_ltb (sort_key y) (sort_key x) = false.
Proof.
  induction l as [|z r IH]; intros i j x y Ha Hij Hi Hj; [discriminate|].
  destruct Ha as [Hz Hr]. destruct j as [|j]; [lia|]. cbn in Hj.
  destruct i as [|i].
  - cbn in Hi. inversion Hi; subst z.
    rewrite Forall_lookup in Hz. apply (Hz j y Hj).
  - cbn in Hi. apply (IH i j x y Hr); [lia|assumption|assumption].
Qed.

(** What the loop of [get_tasks] collects: one summary for each listed
    task, in the order of the registry. *)
Lemma summaries_spec active_only tasks s :
  exists l, summaries active_only tasks s = (Ok l, s) /\
    Forall2 (fun t x => s_id x = id t /\ s_is_active x = is_active t /\
                        s_next_run x = option_map isoformat (next_run t))
      (List.filter (listed active_only) tasks) l.
Proof.
  induction tasks as [|task rest IH]; simpl.
  - exists []. split; [reflexivity|constructor].
  - unfold listed at 1.
    destruct (active_only && negb (is_active task)); cbn [negb]; [exact IH|].
    destruct IH as (l & Hl & Hf).
    exists (mkSummary (id task) (name task) (TaskType.value (task_type task))
              (ScheduleFrequency.value (frequency task)) (schedule_time task)
              (is_active task) (option_map isoformat (last_run task))
              (option_map isoformat (next_run task)) (total_runs task)
              (success_count task) (fail_count task)
              (if total_runs task >? 0
               then (inject_Z (success_count task) / inject_Z (total_runs task)
                     * inject_Z 100)%Q
               else inject_Z 0) :: l).
    split; [|constructor; [repeat split|exact Hf]].
    erewrite bind_ok;
      [|unfold summary; rewrite (bind_ok _ _ _ _ _ (success_rate_of_run _ _ _));
        reflexivity].
    rewrite (bind_ok _ _ _ _ _ Hl). reflexivity.
Qed.

Lemma get_tasks_spec active_only s :
  exists l0,
    get_tasks active_only s = (Ok (sort_by_key l0), s) /\
    Forall2 (fun t x => s_id x = id t /\ s_is_active x = is_active t /\
                        s_next_run x = option_map isoformat (next_run t))
      (List.filter (listed active_only) (dict_values (scheduled_tasks s))) l0.
Proof.
  destruct (summaries_spec active_only (dict_values (scheduled_tasks s)) s)
    as (l0 & Hl & Hf).
  exists l0. split; [|exact Hf].
  unfold get_tasks. unfold bind at 1. unfold get at 1.
  rewrite (bind_ok _ _ _ _ _ Hl). reflexivity.
Qed.

Lemma Forall2_map_eq {A B C} (R : A -> B -> Prop) (f : B -> C) (g : A -> C) ts xs :
  Forall2 R ts xs -> (forall t x, R t x -> f x = g t) -> map f xs = map g ts.
Proof.
  intros H Hfg. induction H as [|t x ts xs Hr _ IH]; simpl; [reflexivity|].
  rewrite (Hfg t x Hr), IH. reflexivity.
Qed.

Lemma Forall2_Forall_r {A B} (R : A -> B -> Prop) (Q : A -> Prop) (P : B -> Prop) ts xs :
  Forall2 R ts xs -> Forall Q ts -> (forall t x, R t x -> Q t -> P x) ->
  Forall P xs.
Proof.
  intros H Hq Himp. induction H as [|t x ts xs Hr _ IH]; [constructor|].
  apply Forall_cons in Hq as [Ht Hts].
  constructor; [apply (Himp t x Hr Ht)|apply IH; exact Hts].
Qed.

(** X16.  The task list loses and invents nothing: it always returns, leaves
    the scheduler as it was, and its ids are those of the registered
    tasks (of the active ones when only those are asked for), each as
    many times as it is registered; with [active_only] every task listed
    is active. *)
Theorem get_tasks_lists_each_task_once active_only s :
  exists l,
    get_tasks active_only s = (Ok l, s) /\
    map s_id l ≡ₚ
      map id (List.filter (listed active_only) (dict_values (scheduled_tasks s))) /\
    Forall (fun x => active_only = true -> s_is_active x = true) l.
Proof.
  destruct (get_tasks_spec active_only s) as (l0 & Hg & Hf).
  exists (sort_by_key l0). split; [exact Hg|]. split.
  - rewrite (sort_by_key_perm l0).
    rewrite (Forall2_map_eq _ s_id id _ _ Hf); [reflexivity|].
    intros t x (H1 & _). exact H1.
  - apply sort_by_key_Forall.
    eapply (Forall2_Forall_r _ (fun t => listed active_only t = true)); [exact Hf| |].
    + apply List.Forall_forall. intros t Ht. apply List.filter_In in Ht. apply Ht.
    + intros t x (_ & H2 & _) Ht ->. rewrite H2. unfold listed in Ht. simpl in Ht.
      destruct (is_active t); [reflexivity|discriminate].
Qed.

Lemma datetime_not_lt_le a b : ~ datetime_lt b a -> datetime_le a b.
Proof.
  intros Hn. unfold datetime_le, datetime_lt in *.
  destruct (date_trichotomy (date_of a) (date_of b)) as [H|[H|H]];
    [left; left; exact H| |exfalso; apply Hn; left; exact H].
  destruct (time_trichotomy (time_of a) (time_of b)) as [H'|[H'|H']].
  - left. right. split; assumption.
  - right. destruct a, b. simpl in *. congruence.
  - exfalso. apply Hn. right. split; [symmetry; exact H|exact H'].
Qed.

(** X17.  The task list is in chronological order of the next runs: of two
    tasks listed, the one that comes first does not run later.  A task
    that has no next run comes after every task that has one before the
    year 9999. *)
Theorem get_tasks_is_chronological active_only s l s' i j x y :
  get_tasks active_only s = (Ok l, s') ->
  (i < j)%nat -> l !! i = Some x -> l !! j = Some y ->
  (forall a b,
     valid_datetime a -> valid_datetime b ->
     s_next_run x = Some (isoformat a) -> s_next_run y = Some (isoformat b) ->
     datetime_le a b) /\
  (forall b,
     valid_datetime b -> year (date_of b) < MAXYEAR ->
     s_next_run y = Some (isoformat b) -> s_next_run x <> None).
Proof.
  intros Hg Hij Hi Hj.
  destruct (get_tasks_spec active_only s) as (l0 & Hg' & _).
  rewrite Hg' in Hg. inversion Hg; subst l s'. clear Hg.
  pose proof (ascending_lookup _ i j x y (sort_by_key_ascending l0) Hij Hi Hj) as Hk.
  unfold sort_key in Hk. split.
  - intros a b Ha Hb Hx Hy. rewrite Hx, Hy in Hk.
    apply datetime_not_lt_le. intros Hlt.
    rewrite (isoformat_lt b a Hb Ha Hlt) in Hk. discriminate.
  - intros b Hb Hmax Hy Hx. rewrite Hx, Hy in Hk.
    rewrite (isoformat_before_last_key b Hb Hmax) in Hk. discriminate.
Qed.

End ListingFacts.

Lemma get_tasks_is_chronological_witness :
  exists l s',
    get_tasks false
      (scheduler_at (at_time 2024 1 1 3 0)
         [("monthly_report",
           set_next_run (Some (at_time 2024 3 1 2 0))
             (new_task "monthly_report" TaskType.BACKUP ScheduleFrequency.MONTHLY "02:00"));
          ("daily_backup",
           set_next_run (Some (at_time 2024 1 2 2 0))
             (new_task "daily_backup" TaskType.BACKUP ScheduleFrequency.DAILY "02:00"))])
    = (Ok l, s') /\
    map s_id l = ["daily_backup"; "monthly_report"] /\
    datetime_le (at_time 2024 1 2 2 0) (at_time 2024 3 1 2 0).
Proof.
  set (s0 := scheduler_at (at_time 2024 1 1 3 0)
         [("monthly_report",
           set_next_run (Some (at_time 2024 3 1 2 0))
             (new_task "monthly_report" TaskType.BACKUP ScheduleFrequency.MONTHLY "02:00"));
          ("daily_backup",
           set_next_run (Some (at_time 2024 1 2 2 0))
             (new_task "daily_backup" TaskType.BACKUP ScheduleFrequency.DAILY "02:00"))]).
  destruct (get_tasks false s0) as [[l|e] s'] eqn:Hg;
    [|vm_compute in Hg; discriminate].
  destruct (l !! 0%nat) as [x|] eqn:Hi;
    [|vm_compute in Hg; injection Hg as <- _; discriminate].
  destruct (l !! 1%nat) as [y|] eqn:Hj;
    [|vm_compute in Hg; injection Hg as <- _; discriminate].
  exists l, s'. split; [reflexivity|].
  destruct (get_tasks_is_chronological false s0 l s' 0%nat 1%nat x y Hg
              ltac:(lia) Hi Hj) as [Hc _].
  vm_compute in Hg. injection Hg as <- _.
  cbn in Hi, Hj. injection Hi as <-. injection Hj as <-.
  split; [reflexivity|].
  apply Hc; vm_compute; first [reflexivity|intuition congruence].
Defined.

Section AggregateFacts.

Lemma sum_of_acc (f : ScheduledTask -> Z) tasks : forall a,
  fold_left (fun acc t => acc + f t) tasks a = a + sum_of f tasks.
Proof.
  unfold sum_of. induction tasks as [|t r IH]; intros a; simpl; [lia|].
  rewrite (IH (a + f t)), (IH (0 + f t)). lia.
Qed.

Lemma sum_of_cons (f : ScheduledTask -> Z) t r :
  sum_of f (t :: r) = f t + sum_of f r.
Proof. unfold sum_of at 1. simpl. apply sum_of_acc. Qed.

Lemma sum_of_counters tasks :
  Forall (fun t => counters_ok t /\ 0 <= success_count t /\ 0 <= fail_count t) tasks ->
  0 <= sum_of success_count tasks /\ 0 <= sum_of fail_count tasks /\
  sum_of success_count tasks + sum_of fail_count tasks <= sum_of total_runs tasks.
Proof.
  induction 1 as [|t r (Hc & Hs & Hf) _ IH].
  - unfold sum_of. simpl. lia.
  - rewrite !sum_of_cons. unfold counters_ok in Hc. lia.
Qed.

Lemma filter_length_bound {A} (p : A -> bool) l :
  (length (List.filter p l) <= length l)%nat.
Proof.
  induction l as [|x r IH]; simpl; [lia|]. destruct (p x); simpl; lia.
Qed.

Lemma percentage_bounds a b :
  0 <= a <= b -> 0 < b ->
  (inject_Z 0 <= inject_Z a / inject_Z b * inject_Z 100 <= inject_Z 100)%Q.
Proof.
  intros Ha Hb. destruct b as [|p|p]; try lia.
  unfold Qle, Qdiv, Qmult, Qinv, inject_Z. simpl. split; nia.
Qed.

(** X18.  The aggregate statistics are within bounds: there are no more
    active tasks than tasks, and when no task has more outcomes counted
    than runs, the totals are in the same relation and the success rate
    lies between 0 and 100. *)
Theorem scheduler_stats_within_bounds s st s' :
  get_scheduler_stats s = (Ok st, s') ->
  0 <= st_active_tasks st <= st_total_tasks st /\
  (Forall (fun t => counters_ok t /\ 0 <= success_count t /\ 0 <= fail_count t)
     (dict_values (scheduled_tasks s)) ->
   st_total_success st + st_total_fail st <= st_total_runs st /\
   (inject_Z 0 <= st_success_rate st <= inject_Z 100)%Q).
Proof.
  unfold get_scheduler_stats. unfold bind at 1. unfold get at 1.
  unfold bind at 1. rewrite datetime_now_run.
  unfold bind at 1.
  destruct (datetime_add _ _) as [later|]; cbn [or_raise ret raise];
    [|discriminate].
  unfold bind at 1. rewrite success_rate_of_run.
  unfold bind, get, ret. intros H. inversion H; subst; clear H.
  cbn [st_active_tasks st_total_tasks st_total_success st_total_fail
       st_total_runs st_success_rate].
  split.
  - pose proof (filter_length_bound is_active (dict_values (scheduled_tasks s))).
    lia.
  - intros Hall. destruct (sum_of_counters _ Hall) as (Hs & Hf & Hle).
    split; [exact Hle|].
    destruct (Z.gtb_spec (sum_of total_runs (dict_values (scheduled_tasks s))) 0)
      as [Hpos|Hz].
    + apply percentage_bounds; lia.
    + unfold Qle, inject_Z. simpl. lia.
Qed.

End AggregateFacts.

Lemma scheduler_stats_within_bounds_witness :
  exists st s',
    get_scheduler_stats
      (scheduler_at (at_time 2024 1 1 3 0)
         [("daily_backup",
           mkTask "daily_backup" "Backup" TaskType.BACKUP ScheduleFrequency.DAILY
             "02:00" true None None 7 5 2 [] None)]) = (Ok st, s') /\
    0 <= st_active_tasks st <= st_total_tasks st /\
    (inject_Z 0 <= st_success_rate st <= inject_Z 100)%Q.
Proof.
  eexists. eexists. split; [vm_compute; reflexivity|].
  destruct (scheduler_stats_within_bounds
              (scheduler_at (at_time 2024 1 1 3 0)
                 [("daily_backup",
                   mkTask "daily_backup" "Backup" TaskType.BACKUP
                     ScheduleFrequency.DAILY "02:00" true None None 7 5 2 [] None)])
              _ _ eq_refl) as [H1 H2].
  split; [exact H1|]. apply H2.
  repeat constructor; unfold counters_ok; simpl; lia.
Defined.

(** * The interface of the collection engine *)

Import AutoCollector.
Import Database.
Import CollectorApi.

Lemma with_world_same {W} (s : @State W) : with_world (world s) s = s.
Proof. destruct s; reflexivity. Qed.

Lemma outside_schedule_refl {W} (s : @State W) : outside_schedule s s.
Proof. split; [apply same_quota_refl|repeat split]. Qed.

Lemma outside_schedule_trans {W} (a b c : @State W) :
  outside_schedule a b -> outside_schedule b c -> outside_schedule a c.
Proof.
  intros (A1 & A2 & A3 & A4) (B1 & B2 & B3 & B4).
  split; [eapply same_quota_trans; eauto|]. repeat split; congruence.
Qed.

Section ExportFacts.
Context {W : Type}.
Variable get_links : string -> option string -> Z -> M W (list LinkRow).
Variable write_export :
  string -> string -> list (option string * list (option string)) -> M W unit.

(** X19.  No export ever produces a file.  Whatever the format and the links
    in the database, the call returns [None]: for the two formats it
    knows it stops at the undefined name [os] before anything is
    written, and the error is caught.  The only thing done to the
    outside is the query for the links; the engine keeps its cache and
    its statistics. *)
Theorem export_never_writes_a_file format (s : @State W) :
  exists s',
    export_collected_links get_links write_export format s = (Ok None, s') /\
    world s' =
      (if has_db s then snd (get_links (session_of s) None 10000 (world s))
       else world s) /\
    collected_urls s' = collected_urls s /\
    collection_stats s' = collection_stats s.
Proof.
  unfold export_collected_links, try_except.
  unfold bind at 1. unfold get at 1.
  destruct (has_db s); cbn [negb]; [|eexists; split; [reflexivity|repeat split]].
  unfold bind at 1. unfold in_world at 1.
  destruct (get_links (session_of s) None 10000 (world s)) as [[links|e] w];
    [|eexists; split; [reflexivity|repeat split]].
  destruct links as [|link rest]; [eexists; split; [reflexivity|repeat split]|].
  unfold bind at 1. unfold of_result at 1.
  destruct (categorize (link :: rest) []) as [categorized_links|e];
    [|eexists; split; [reflexivity|repeat split]].
  unfold bind at 1. unfold datetime_now at 1. cbv zeta.
  destruct (String.eqb format "txt");
    [eexists; split; [reflexivity|repeat split]|].
  destruct (String.eqb format "json");
    eexists; (split; [reflexivity|repeat split]).
Qed.

End ExportFacts.

Section CacheFacts.
Context {W : Type}.
Variable save_link : LinkData -> M W bool.
Variable extract_links : string -> result (list string).
Variable categorize_link : string -> result string.

Local Abbreviation _process_group_messages :=
  (AutoCollector._process_group_messages save_link extract_links categorize_link).

(** One message with one URL. *)
Lemma one_url_one_message m gid gname (s : @State W) u :
  body m <> EmptyString ->
  extract_links (body m) = Ok [u] ->
  _process_group_messages [m] gid gname s =
  let '(r, fr) :=
    process_link save_link categorize_link m gid gname u (mkFrame s 0) in
  (Ok (links_collected fr), self fr).
Proof.
  intros Hb He.
  unfold AutoCollector._process_group_messages. simpl for_each.
  unfold try_except at 1. unfold bind at 1. unfold bind at 1.
  rewrite process_message_run by exact Hb.
  unfold try_except at 1. unfold bind at 1. rewrite He.
  unfold of_result at 1. simpl for_each.
  unfold bind at 1.
  destruct (process_link save_link categorize_link m gid gname u (mkFrame s 0))
    as [[[]|e] fr]; reflexivity.
Qed.

(** X20.  Emptying the cache forgets which URLs were counted: the call returns
    the number of URLs it held, and a URL that was in it, skipped until
    then without a word to the gateway, is handed to the gateway and
    counted again the next time it is seen. *)
Theorem clearing_the_cache_recounts m gid gname (s : @State W) u category w :
  has_db s = true -> u ∈ collected_urls s ->
  body m <> EmptyString ->
  extract_links (body m) = Ok [u] ->
  categorize_link u = Ok category ->
  save_link (link_data s m gid gname u category) (world s) = (Ok true, w) ->
  _process_group_messages [m] gid gname s = (Ok 0, s) /\
  (cleared <- clear_collected_urls ;;
   counted <- _process_group_messages [m] gid gname ;;
   ret (cleared, counted)) s =
  (Ok (Z.of_nat (size (collected_urls s)), 1),
   with_collected_urls ({[u]} ∪ ∅) (with_world w (with_collected_urls ∅ s))).
Proof.
  intros Hdb Hu Hb He Hc Hs. split.
  - rewrite (one_url_one_message _ _ _ _ _ Hb He), process_link_run.
    cbn [self links_collected].
    rewrite (bool_decide_eq_true_2 _ Hu). reflexivity.
  - unfold clear_collected_urls.
    erewrite bind_ok; [|reflexivity].
    erewrite bind_ok; [reflexivity|].
    rewrite (one_url_one_message _ _ _ _ _ Hb He), process_link_run.
    cbn [self links_collected].
    rewrite bool_decide_eq_false_2 by (cbn; apply not_elem_of_empty).
    rewrite Hc.
    replace (has_db (with_collected_urls ∅ s)) with (has_db s) by reflexivity.
    rewrite Hdb.
    replace (link_data (with_collected_urls ∅ s) m gid gname u category)
      with (link_data s m gid gname u category) by reflexivity.
    replace (world (with_collected_urls ∅ s)) with (world s) by reflexivity.
    rewrite Hs. reflexivity.
Qed.

End CacheFacts.

Lemma clearing_the_cache_recounts_witness :
  fst ((cleared <- clear_collected_urls ;;
        counted <- _process_group_messages storing_gateway text_is_link any_category
                     [mkMessage "http://a.example/1" "m1" "alice"] "g1" "Group one" ;;
        ret (cleared, counted))
         (with_collected_urls {["http://a.example/1"]} example_engine))
  = Ok (1, 1).
Proof.
  destruct (clearing_the_cache_recounts storing_gateway text_is_link any_category
              (mkMessage "http://a.example/1" "m1" "alice") "g1" "Group one"
              (with_collected_urls {["http://a.example/1"]} example_engine)
              "http://a.example/1" "other" ["http://a.example/1"]) as [_ E].
  - reflexivity.
  - cbn. apply elem_of_singleton. reflexivity.
  - discriminate.
  - reflexivity.
  - reflexivity.
  - reflexivity.
  - rewrite E. cbn [fst collected_urls with_collected_urls].
    rewrite size_singleton. reflexivity.
Defined.

Section OnDemandFacts.
Context {W : Type}.
Variable get_group_info : string -> M W (option GroupInfo).
Variable get_group_messages : string -> bool -> Z -> M W (list Message).
Variable save_link : LinkData -> M W bool.
Variable extract_links : string -> result (list string).
Variable categorize_link : string -> result string.

Lemma process_group_messages_outside messages gid gname :
  preserves outside_schedule
    (_process_group_messages save_link extract_links categorize_link
       messages gid gname).
Proof.
  apply process_group_messages_keeps.
  - apply outside_schedule_refl.
  - apply outside_schedule_trans.
  - intros; repeat split.
  - intros; repeat split.
Qed.

(** X21.  A collection on demand always answers, and it stays outside the
    schedule of the automatic passes: it neither looks at nor records
    the time of the last check of the group, and leaves the daily quota,
    the running flag and the clock alone.  When it reports success, the
    number of links it reports is the number of URLs the cache gained,
    and the running total grew by the same number; otherwise cache and
    total are as before. *)
Theorem collection_on_demand_is_outside_the_schedule group_id limit (s : @State W) :
  exists r s',
    collect_from_specific_group get_group_info get_group_messages save_link
      extract_links categorize_link group_id limit s = (Ok r, s') /\
    outside_schedule s s' /\
    match r with
    | Collected _ _ collected total_links_now =>
        collected_urls s ⊆ collected_urls s' /\
        Z.of_nat (size (collected_urls s')) =
          Z.of_nat (size (collected_urls s)) + collected /\
        total_links (collection_stats s') =
          total_links (collection_stats s) + collected /\
        total_links_now = total_links (collection_stats s')
    | _ =>
        collected_urls s' = collected_urls s /\
        collection_stats s' = collection_stats s
    end.
Proof.
  unfold collect_from_specific_group, try_except.
  unfold bind at 1. unfold in_world at 1.
  destruct (get_group_info group_id (world s)) as [[[info|]|e] w1];
    [|exists GroupNotFound; eexists; split; [reflexivity|];
      split; [repeat split|split; reflexivity]
     |exists (CollectFailed e); eexists; split; [reflexivity|];
      split; [repeat split|split; reflexivity]].
  unfold bind at 1. unfold in_world at 1. cbn [world with_world].
  destruct (get_group_messages group_id true limit w1) as [[messages|e] w2];
    [|exists (CollectFailed e); eexists; split; [reflexivity|];
      split; [repeat split|split; reflexivity]].
  set (s2 := with_world w2 (with_world w1 s)).
  set (gname := match info_name info with Some n => n | None => _ end).
  destruct (process_group_messages_growth save_link extract_links categorize_link
              messages group_id gname s2) as (n & s3 & Hp & Hsub & Hsize).
  pose proof (process_group_messages_outside messages group_id gname _ _ _ Hp)
    as Hout.
  pose proof (process_group_messages_keeps save_link extract_links categorize_link
                (fun a b : @State W => collection_stats b = collection_stats a)
                ltac:(reflexivity) ltac:(intros a b c H1 H2; congruence)
                ltac:(reflexivity) ltac:(reflexivity)
                messages group_id gname _ _ _ Hp) as Hst.
  rewrite (bind_ok _ _ _ _ _ Hp).
  eexists. eexists. split; [reflexivity|].
  split.
  - eapply outside_schedule_trans; [|eapply outside_schedule_trans; [exact Hout|]].
    + repeat split.
    + repeat split.
  - cbn [collected_urls collection_stats with_stats total_links].
    rewrite Hst. repeat split; assumption.
Qed.

End OnDemandFacts.

Section StatisticsTables.

Lemma key_eqb_eq a b : key_eqb a b = true <-> a = b.
Proof.
  destruct a as [x|], b as [y|]; simpl; try (split; congruence).
  rewrite String.eqb_eq. split; congruence.
Qed.

Lemma count_up_total category d :
  total_count (count_up category d) = total_count d + 1.
Proof.
  induction d as [|[c n] r IH]; simpl; [reflexivity|].
  destruct (key_eqb category c); simpl; [lia|]. rewrite IH. lia.
Qed.

Lemma count_up_keys category d :
  NoDup (map fst d) -> NoDup (map fst (count_up category d)).
Proof.
  induction d as [|[c n] r IH]; simpl.
  - intros _. apply NoDup_singleton.
  - intros Hnd. apply NoDup_cons in Hnd as [Hc Hr].
    destruct (key_eqb category c) eqn:E; simpl.
    + apply NoDup_cons. split; assumption.
    + apply NoDup_cons. split; [|apply IH; exact Hr].
      assert (Hne : category <> c).
      { intros ->. rewrite (proj2 (key_eqb_eq c c) eq_refl) in E. discriminate. }
      clear IH Hr E. induction r as [|[c1 n1] r IH]; simpl.
      * intros Hin. apply list_elem_of_singleton in Hin. congruence.
      * simpl in Hc. apply not_elem_of_cons in Hc as [Hc1 Hc].
        destruct (key_eqb category c1); simpl.
        -- intros Hin. apply elem_of_cons in Hin as [Hin|Hin]; [congruence|].
           contradiction.
        -- intros Hin. apply elem_of_cons in Hin as [Hin|Hin]; [congruence|].
           apply (IH Hc Hin).
Qed.

Lemma count_categories_total links : forall acc d,
  count_categories links acc = Ok d ->
  total_count d = total_count acc + Z.of_nat (length links) /\
  (NoDup (map fst acc) -> NoDup (map fst d)).
Proof.
  induction links as [|link rest IH]; intros acc d H; simpl in H.
  - inversion H; subst. simpl. split; [lia|auto].
  - destruct (subscript (r_category link)) as [category|e]; [|discriminate].
    apply IH in H. destruct H as [H1 H2]. rewrite count_up_total in H1.
    split; [simpl length; lia|].
    intros Hnd. apply H2, count_up_keys, Hnd.
Qed.

Lemma count_today_bounds found_on today links : forall acc,
  acc <= count_today found_on today links acc <= acc + Z.of_nat (length links).
Proof.
  induction links as [|link rest IH]; intros acc; simpl count_today.
  - simpl. lia.
  - match goal with
    | |- context [count_today _ _ _ ?a] =>
        pose proof (IH a) as H; assert (Ha : acc <= a <= acc + 1)
    end.
    { destruct (r_found_at link); try lia.
      destruct (found_on text); try lia.
      destruct (date_eqb d today); lia. }
    simpl length. lia.
Qed.

End StatisticsTables.

Section StatisticsFacts2.
Context {W : Type}.
Variable get_links : string -> option string -> Z -> M W (list LinkRow).
Variable found_on : string -> option date.

(** X22.  The statistics of the links always come back, and when they are
    taken from the database they add up: each category is listed once,
    the counts of the categories sum to the total, and the links of
    today are counted among them.  Without a database the answer is the
    size of the cache. *)
Theorem link_statistics_add_up (s : @State W) :
  exists r s',
    get_link_statistics get_links found_on s = (Ok r, s') /\
    match r with
    | FromDatabase total today categories unique_in_memory =>
        has_db s = true /\
        total_count categories = total /\ NoDup (map fst categories) /\
        0 <= today <= total /\
        unique_in_memory = Z.of_nat (size (collected_urls s))
    | MemoryOnly unique_urls =>
        has_db s = false /\ unique_urls = Z.of_nat (size (collected_urls s))
    | Unavailable => has_db s = true
    end.
Proof.
  unfold get_link_statistics, try_except.
  unfold bind at 1. unfold get at 1.
  destruct (has_db s); cbn [negb];
    [|eexists; eexists; split; [reflexivity|split; reflexivity]].
  unfold bind at 1. unfold in_world at 1.
  destruct (get_links (session_of s) None 10000 (world s)) as [[links|e] w];
    [|eexists; eexists; split; [reflexivity|reflexivity]].
  unfold bind at 1. unfold of_result at 1.
  destruct (count_categories links []) as [d|e] eqn:Ec;
    [|eexists; eexists; split; [reflexivity|reflexivity]].
  eexists. eexists. split; [reflexivity|].
  destruct (count_categories_total _ _ _ Ec) as [Ht Hk].
  pose proof (count_today_bounds found_on
                (date_of (clock (with_world w s) (ticks (with_world w s)))) links 0).
  split; [reflexivity|]. split; [simpl in Ht; lia|].
  split; [apply Hk; constructor|]. split; [lia|reflexivity].
Qed.

End StatisticsFacts2.

Section SearchFacts.
Context {W : Type}.
Variable get_links : string -> option string -> Z -> M W (list LinkRow).

Lemma search_loop_run keyword_lower links : forall results (s : @State W),
  search_loop keyword_lower links results s =
  (Ok (results ++ List.filter (is_match keyword_lower) links)%list, s).
Proof.
  induction links as [|link rest IH]; intros results s; simpl.
  - rewrite app_nil_r. reflexivity.
  - unfold bind at 1. unfold try_except, bind, of_result, is_match.
    destruct (matches keyword_lower link) as [[|]|e]; cbn [ret];
      rewrite IH; try reflexivity.
    rewrite <- app_assoc. reflexivity.
Qed.

Lemma is_match_no_none keyword_lower link :
  is_match keyword_lower link = true ->
  r_url link <> PyNone /\ r_title link <> PyNone /\
  r_description link <> PyNone /\ r_found_in link <> PyNone.
Proof.
  unfold is_match, matches, get_lower.
  destruct (r_url link), (r_title link), (r_description link), (r_found_in link);
    intros H; try discriminate; repeat split; discriminate.
Qed.

(** X23.  A search always answers, with the links of the query, in their
    order, in which the keyword occurs (case put aside) in the URL, the
    title, the description or the origin.  A link in which one of these
    four is [None] raises inside the loop and is passed over: it is never
    found, whatever the keyword and whatever its other fields hold. *)
Theorem search_links_passes_over_none keyword category (s : @State W) :
  exists results s',
    search_links get_links keyword category s = (Ok results, s') /\
    (forall links w,
       has_db s = true ->
       get_links (session_of s) category 1000 (world s) = (Ok links, w) ->
       results = List.filter (is_match (lower keyword)) links) /\
    Forall (fun link =>
              r_url link <> PyNone /\ r_title link <> PyNone /\
              r_description link <> PyNone /\ r_found_in link <> PyNone) results.
Proof.
  unfold search_links, try_except.
  unfold bind at 1. unfold get at 1.
  destruct (has_db s); cbn [negb];
    [|exists [], s; split; [reflexivity|split; [discriminate|constructor]]].
  unfold bind at 1. unfold in_world at 1.
  destruct (get_links (session_of s) category 1000 (world s)) as [[links|e] w].
  - rewrite search_loop_run. cbn [app].
    eexists. eexists. split; [reflexivity|]. split.
    + intros links' w' _ H. inversion H; subst. reflexivity.
    + apply List.Forall_forall. intros link Hin.
      apply List.filter_In in Hin. apply (is_match_no_none _ _ (proj2 Hin)).
  - eexists. eexists. split; [reflexivity|]. split; [|constructor].
    intros links' w' _ H. discriminate.
Qed.

End SearchFacts.

Section DatabaseFacts.
Context {D Session : Type}.
Variable save_link_body : Session -> LinkData -> M D bool.
Variable get_links_body : Session -> string -> option string -> Z -> M D (list LinkRow).
Variable extract_links : string -> result (list string).
Variable categorize_link : string -> result string.
Variable found_on : string -> option date.

Lemma database_save_link_run link_data d :
  Database.save_link save_link_body link_data d = (Ok false, d).
Proof. reflexivity. Qed.

Lemma database_get_links_run session_id category limit d :
  Database.get_links get_links_body session_id category limit d = (Ok [], d).
Proof. reflexivity. Qed.

Lemma process_link_database message gid gname link :
  preserves eq
    (process_link (Database.save_link save_link_body) categorize_link
       message gid gname link).
Proof.
  intros fr x fr' H. rewrite process_link_run in H.
  destruct (bool_decide _); [inversion H; reflexivity|].
  destruct (categorize_link link); [|inversion H; reflexivity].
  destruct (has_db (self fr)); [|inversion H; reflexivity].
  rewrite database_save_link_run in H. inversion H.
  rewrite with_world_same. destruct fr; reflexivity.
Qed.

Lemma eq_trans_state {A} (a b c : A) : a = b -> b = c -> a = c.
Proof. congruence. Qed.

Lemma process_message_database gid gname message :
  preserves eq
    (process_message (Database.save_link save_link_body) extract_links
       categorize_link gid gname message).
Proof.
  unfold process_message.
  apply (preserves_try_except eq eq_trans_state);
    [|intros e; apply (preserves_ret eq); reflexivity].
  destruct (body message); [apply (preserves_ret eq); reflexivity|].
  apply (preserves_bind eq eq_trans_state);
    [apply (preserves_of_result eq); reflexivity|].
  intros links. apply (preserves_for_each eq); [reflexivity|apply eq_trans_state|].
  intros link. apply process_link_database.
Qed.

(** X24.  With the database class of the repository as the gateway, nothing is
    ever saved or counted.  Its methods open their session with
    [self.get_session()], a name the class binds a second time to a
    method that needs an argument: the call raises, [save_link] catches
    the error and reports failure without reaching the database.  So the
    engine counts no link and caches no URL, whatever the messages. *)
Theorem nothing_is_saved_through_the_database messages gid gname (s : @State D) :
  (forall link_data d, Database.save_link save_link_body link_data d = (Ok false, d)) /\
  _process_group_messages (Database.save_link save_link_body) extract_links
    categorize_link messages gid gname s = (Ok 0, s).
Proof.
  split; [intros; apply database_save_link_run|].
  destruct (process_group_messages_run (Database.save_link save_link_body)
              extract_links categorize_link messages gid gname s)
    as (fr & Hfr & Hrun).
  rewrite Hrun.
  apply (preserves_for_each eq (fun _ => eq_refl) eq_trans_state _ _
           (process_message_database gid gname)) in Hfr.
  subst fr. reflexivity.
Qed.

(** X25.  For the same reason the queries come back empty: [get_links] returns
    no link whatever the database holds, so a search finds nothing and
    the statistics show no link at all. *)
Theorem database_queries_come_back_empty keyword category (s : @State D) :
  has_db s = true ->
  (forall session_id category limit d,
     Database.get_links get_links_body session_id category limit d = (Ok [], d)) /\
  search_links (Database.get_links get_links_body) keyword category s =
    (Ok [], s) /\
  fst (get_link_statistics (Database.get_links get_links_body) found_on s) =
    Ok (FromDatabase 0 0 [] (Z.of_nat (size (collected_urls s)))).
Proof.
  intros Hdb. split; [intros; apply database_get_links_run|]. split.
  - unfold search_links, try_except. unfold bind at 1. unfold get at 1.
    rewrite Hdb. cbn [negb]. unfold bind at 1. unfold in_world at 1.
    rewrite database_get_links_run. cbn [search_loop ret].
    rewrite with_world_same. reflexivity.
  - unfold get_link_statistics, try_except. unfold bind at 1. unfold get at 1.
    rewrite Hdb. cbn [negb]. unfold bind at 1. unfold in_world at 1.
    rewrite database_get_links_run. reflexivity.
Qed.

End DatabaseFacts.

Lemma database_queries_come_back_empty_witness :
  search_links
    (Database.get_links
       (fun (session : unit) session_id category limit =>
          ret [titled "http://a.example/1" "A link"]))
    "example" None example_engine
  = (Ok [], example_engine).
Proof.
  apply (database_queries_come_back_empty
           (fun (session : unit) session_id category limit =>
              ret [titled "http://a.example/1" "A link"])
           (fun _ => None) "example" None example_engine).
  reflexivity.
Defined.

(** A link saved without a title is not found by its URL; one with a
    title is. *)
Example search_finds_titled_links_only :
  search_links
    (fun session_id category limit =>
       ret [untitled "http://a.example/1"; titled "http://a.example/2" "Second"])
    "EXAMPLE" None example_engine
  = (Ok [titled "http://a.example/2" "Second"], example_engine).
Proof. vm_compute. reflexivity. Qed.
